(** * MCC classifier: tiered strategy, free-text parser, fallback classifiers
      and evaluation harness

    A shallow embedding of [mcc_classifier/agents/matheus_agent.py],
    [mcc_classifier/agents/waki_agent.py], [mcc_classifier/agents/rafa_agent.py]
    and [mcc_classifier/evaluator.py], with the factory and the base class
    of the strategies ([mcc_classifier/agents/agent_factory.py],
    [mcc_classifier/agents/base_agent.py]).

    Conventions of the embedding.
    - A Python [str] is a [list ascii] (type [str]); the text handled is ASCII,
      except that bytes above 127 are carried through unchanged.
    - A Python [float] is a rational [Q]: a literal is the decimal fraction
      written in the source, arithmetic and comparisons are exact, and
      [round(x, 2)] rounds to the nearest hundredth, ties to even.
    - A [dict] whose iteration order matters is an association list in
      insertion order; a dict used as a record is a [Record], an optional key
      an [option] field read with the default [.get] passes.
    - The text-generation service is an oracle held by the agent ([None] when
      no client could be built); an oracle answers [None] when the call
      raises.  Calls are logged in a writer monad so that "no call is made"
      is a statement about the log. *)

From Stdlib Require Import String Ascii.
From Stdlib Require Import List Bool Arith Lia ZArith QArith Qround Lqa.
From Stdlib Require Import Sorted Permutation.
Import ListNotations.

Set Implicit Arguments.

(* ================================================================== *)
(** * Python strings *)

Module PyStr.

Definition str := list ascii.

Definition py (s : string) : str := list_ascii_of_string s.

Definition str_eqb (a b : str) : bool :=
  if list_eq_dec ascii_dec a b then true else false.

(** Truth value of a string: [if s]. *)
Definition truthy (s : str) : bool :=
  match s with [] => false | _ :: _ => true end.

(** [x in xs] for a list of strings. *)
Definition mem (x : str) (xs : list str) : bool := existsb (str_eqb x) xs.

(** ASCII white space as [str.isspace] and the regex class [\s] see it:
    codes 9..13, 28..31 and 32. *)
Definition is_space (c : ascii) : bool :=
  let n := nat_of_ascii c in
  ((9 <=? n) && (n <=? 13)) || ((28 <=? n) && (n <=? 32)).

Definition is_digit (c : ascii) : bool :=
  let n := nat_of_ascii c in (48 <=? n) && (n <=? 57).

Definition is_upper (c : ascii) : bool :=
  let n := nat_of_ascii c in (65 <=? n) && (n <=? 90).

Definition lower_char (c : ascii) : ascii :=
  if is_upper c then ascii_of_nat (nat_of_ascii c + 32) else c.

Definition upper_char (c : ascii) : ascii :=
  let n := nat_of_ascii c in
  if (97 <=? n) && (n <=? 122) then ascii_of_nat (n - 32) else c.

(** [s.lower()] and [s.upper()]. *)
Definition lower (s : str) : str := map lower_char s.
Definition upper (s : str) : str := map upper_char s.

Fixpoint drop_while (p : ascii -> bool) (s : str) : str :=
  match s with
  | [] => []
  | c :: t => if p c then drop_while p t else s
  end.

(** [s.strip()]. *)
Definition lstrip (s : str) : str := drop_while is_space s.
Definition rstrip (s : str) : str := rev (drop_while is_space (rev s)).
Definition strip (s : str) : str := rstrip (lstrip s).

(** [s.startswith(p)]. *)
Fixpoint startswith (p s : str) : bool :=
  match p, s with
  | [], _ => true
  | _ :: _, [] => false
  | a :: p', b :: s' => if ascii_dec a b then startswith p' s' else false
  end.

(** [sub in s]. *)
Fixpoint contains (sub s : str) : bool :=
  startswith sub s ||
  match s with
  | [] => false
  | _ :: t => contains sub t
  end.

(** [s.split(sep)] for a one-character separator: the pieces between the
    separators, empty pieces included, always at least one piece. *)
Fixpoint split_on (sep : ascii) (s : str) : list str :=
  match s with
  | [] => [[]]
  | c :: t =>
      if ascii_dec c sep then [] :: split_on sep t
      else match split_on sep t with
           | [] => [[c]]
           | w :: ws => (c :: w) :: ws
           end
  end.

(** [s.split()]: the maximal runs of non-space characters. *)
Fixpoint split_ws_aux (cur : str) (s : str) : list str :=
  match s with
  | [] => match cur with [] => [] | _ => [rev cur] end
  | c :: t =>
      if is_space c
      then match cur with
           | [] => split_ws_aux [] t
           | _ => rev cur :: split_ws_aux [] t
           end
      else split_ws_aux (c :: cur) t
  end.

Definition split_ws (s : str) : list str := split_ws_aux [] s.

(** [sep.join(xs)]. *)
Fixpoint join (sep : str) (xs : list str) : str :=
  match xs with
  | [] => []
  | [x] => x
  | x :: rest => x ++ sep ++ join sep rest
  end.

Definition newline : ascii := ascii_of_nat 10.

End PyStr.

Import PyStr.

(* ================================================================== *)
(** * Python floats and dictionaries *)

Module PyNum.

Open Scope Q_scope.

Definition Qlt_bool (a b : Q) : bool := negb (Qle_bool b a).

(** [min(a, b)] and [max(a, b)]: the first argument unless the second is
    strictly smaller (larger). *)
Definition py_min (a b : Q) : Q := if Qlt_bool b a then b else a.
Definition py_max (a b : Q) : Q := if Qlt_bool a b then b else a.


Fixpoint non_increasing (l : list Q) : Prop :=
  match l with
  | x :: (y :: _) as t => (y <= x)%Q /\ non_increasing t
  | _ => True
  end.



End PyNum.

Import PyNum.

Module PyDict.

(** A dict with string keys, in insertion order. *)
Definition dict (V : Type) := list (str * V).

Fixpoint get {V : Type} (k : str) (d : dict V) : option V :=
  match d with
  | [] => None
  | (k', v) :: rest => if str_eqb k k' then Some v else get k rest
  end.

(** [k in d]. *)
Definition has_key {V : Type} (k : str) (d : dict V) : bool :=
  match get k d with Some _ => true | None => false end.

(** [d[k] = v]: overwrite in place, or append a new key. *)
Fixpoint set {V : Type} (k : str) (v : V) (d : dict V) : dict V :=
  match d with
  | [] => [(k, v)]
  | (k', v') :: rest =>
      if str_eqb k k' then (k', v) :: rest else (k', v') :: set k v rest
  end.

(** [.get(k, False)] on an optional flag. *)
Definition flag (o : option bool) : bool :=
  match o with Some b => b | None => false end.

End PyDict.

Import PyDict.

(* ================================================================== *)
(** * Call log *)

Module Log.

Inductive tier := TIER_1 | TIER_RISK | TIER_FULL.

(** What a strategy does that the claims count: entering one of the tier
    methods, and sending one request to the text-generation service (named
    by the model it is sent to). *)
Inductive event :=
| TierInvoked (t : tier)
| ServiceCall (model : str).

Definition M (A : Type) : Type := (A * list event)%type.

Definition ret {A : Type} (a : A) : M A := (a, []).

Definition bind {A B : Type} (m : M A) (f : A -> M B) : M B :=
  let (a, l1) := m in
  let (b, l2) := f a in
  (b, l1 ++ l2).

Definition tell (e : event) : M unit := (tt, [e]).

Definition value {A : Type} (m : M A) : A := fst m.
Definition trace {A : Type} (m : M A) : list event := snd m.

End Log.

Import Log.

Declare Scope log_scope.
Delimit Scope log_scope with log.
Notation "x <- m ;; k" := (bind m (fun x => k))
  (at level 61, m at next level, right associativity) : log_scope.
Notation "m ;;; k" := (bind m (fun _ => k))
  (at level 61, right associativity) : log_scope.
Open Scope log_scope.

(* ================================================================== *)
(** * The query's optional data ([**merchant_data]) *)

Record merchant_data := {
  original_mcc_code : option str;
  prior_mcc_description : option str;     (* key 'mcc_description' *)
  ai_original_description : option str;
  extra : dict str
}.

Definition no_merchant_data : merchant_data :=
  {| original_mcc_code := None; prior_mcc_description := None;
     ai_original_description := None; extra := [] |}.

(** An alternative: [{'mcc_code', 'mcc_description', 'confidence'}], with an
    ['explanation'] in some of the producers. *)
Record alternative := {
  alt_mcc_code : str;
  alt_mcc_description : str;
  alt_confidence : Q;
  alt_explanation : option str
}.

Definition mk_alt (c d : string) (q : Q) : alternative :=
  {| alt_mcc_code := py c; alt_mcc_description := py d;
     alt_confidence := q; alt_explanation := None |}.

(** [sum(1 for w in description.lower().split() if len(w) > 3 and w in text)]:
    the keyword score shared by the tiered strategy and by Rafa's. *)
Definition keyword_score (description text : str) : nat :=
  length (filter (fun w => (3 <? length w) && contains w text)
                 (split_ws (lower description))).

(** [max(items, key=score)]: the first item of maximal score. *)
Fixpoint max_by_score {A : Type} (best : A * nat) (l : list (A * nat))
  : A * nat :=
  match l with
  | [] => best
  | x :: t => if snd best <? snd x then max_by_score x t
              else max_by_score best t
  end.

(** [l.sort(key=..., reverse=True)]: a stable sort by decreasing key, where
    [lt x y] says that the key of [x] is strictly below the key of [y];
    elements of equal key keep their order. *)
Fixpoint insert_desc {A : Type} (lt : A -> A -> bool) (x : A) (l : list A)
  : list A :=
  match l with
  | [] => [x]
  | y :: t => if lt x y then y :: insert_desc lt x t else x :: l
  end.

Fixpoint sort_desc {A : Type} (lt : A -> A -> bool) (l : list A) : list A :=
  match l with
  | [] => []
  | x :: t => insert_desc lt x (sort_desc lt t)
  end.

(* ================================================================== *)
(** * The tiered strategy ([MatheusAgent]) *)

Module Matheus.

Open Scope Q_scope.

(** The three reply schemas of the service. *)
Record Tier1Result := {
  t1_suggested_mcc : str;
  t1_mcc_suggestion_description : str;
  t1_analysis : list str;
  t1_confidence : Q;
  t1_requires_full_search : bool;
  t1_is_non_descriptive : bool;
  t1_may_be_high_risk : bool;
  t1_suspicious_classification : bool
}.

Record RiskTierResult := {
  rt_suggested_mcc : str;
  rt_mcc_suggestion_description : str;
  rt_analysis : list str;
  rt_confidence : Q;
  rt_risk_level : str;
  rt_requires_full_search : bool;
  rt_suspicious_classification : bool
}.

Record MCCClassification := {
  mc_suggested_mcc : str;
  mc_mcc_suggestion_description : str;
  mc_analysis : list str;
  mc_confidence : Q;
  mc_suspicious_classification : bool
}.

(** The dictionary a tier method returns.  The four keys that only some of
    the producers write are optional. *)
Record tier_dict := {
  suggested_mcc : str;
  mcc_suggestion_description : str;
  analysis : list str;
  confidence : Q;
  requires_full_search : option bool;
  is_non_descriptive : option bool;
  may_be_high_risk : option bool;
  risk_level : option str;
  suspicious_classification : bool
}.

(** What a tier's prompt is built from. *)
Record request := {
  rq_merchant_name : str;
  rq_legal_name : option str;
  rq_mcc : str;
  rq_mcc_description : str
}.

(** [self.client]: one oracle per tier; [None] is a raised exception. *)
Record Client := {
  parse_tier1 : request -> option Tier1Result;
  parse_risk_tier : request -> bool -> option RiskTierResult;
  parse_tier3 : request -> bool -> option MCCClassification
}.

Record Agent := {
  mcc_data : dict str;               (* code -> description *)
  client : option Client             (* OPENAI_AVAILABLE and self.client *)
}.

Definition catch_all_mccs : list str :=
  map py ["7299"; "7399"; "5399"; "1799"; "7999"; "8999"]%string.

Definition o3_mini : str := py "o3-mini".

(** [_initialize_default_mcc_data]: the built-in table. *)
Definition default_mcc_data : dict str :=
  map (fun p => (py (fst p), py (snd p)))
  [ ("0780", "Landscaping & Lawn Care"); ("1520", "General Contractors");
    ("1711", "HVAC & Plumbing"); ("1731", "Electrical");
    ("1740", "Masonry & Tile"); ("1750", "Carpentry");
    ("1761", "Roofing & Siding"); ("1771", "Concrete");
    ("1799", "Special Trade"); ("4789", "Transportation");
    ("5211", "Building Materials"); ("5251", "Hardware");
    ("5311", "Department Stores"); ("5399", "Other Retail");
    ("5411", "Grocery Stores, Supermarkets"); ("5499", "Food & Convenience");
    ("5533", "Auto Parts"); ("5541", "Gas & Fuel"); ("5651", "Apparel");
    ("5661", "Footwear"); ("5699", "Clothing & Accessories");
    ("5812", "Restaurants"); ("5814", "Fast Food"); ("5940", "Bike Shops");
    ("5941", "Sporting Goods"); ("5942", "Bookstores");
    ("5943", "Office & Stationery"); ("5945", "Hobbies & Toys");
    ("5947", "Gifts & Souvenirs"); ("5970", "Arts & Crafts");
    ("5977", "Cosmetics"); ("5992", "Florists"); ("5995", "Pet Supplies");
    ("7011", "Hotels & Lodging"); ("7210", "Laundry & Cleaning");
    ("7211", "Laundry Services–Family and Commercial");
    ("7216", "Dry Cleaners"); ("7221", "Photography");
    ("7230", "Salons & Barbers"); ("7251", "Shoe Repair & Shine");
    ("7298", "Health and Beauty Spas"); ("7299", "Other Services");
    ("7399", "Other B2B Services"); ("7542", "Car Wash"); ("7549", "Towing");
    ("7699", "Repair Shops & Services");
    ("7997", "Country Clubs & Private Golf Courses");
    ("8099", "Medical & Health Services"); ("8299", "Educational Services");
    ("5964", "Direct Marketing - Catalog Merchants");
    ("5732", "Electronics Stores"); ("5912", "Drug Stores and Pharmacies");
    ("5200", "Home Supply Warehouse Stores") ]%string.

(** [self.mcc_data[k]] where the key is known to be present. *)
Definition item (d : dict str) (k : str) : str :=
  match get k d with Some v => v | None => [] end.

(** [x or y] on an optional string. *)
Definition or_else (x : option str) (y : str) : str :=
  match x with
  | Some s => if truthy s then s else y
  | None => y
  end.

(** [_fallback_classify(merchant_name, legal_name, **merchant_data)]. *)
Definition _fallback_classify (ag : Agent) (merchant_name : str)
    (legal_name : option str) (md : merchant_data) : tier_dict :=
  let original_mcc := original_mcc_code md in
  let original_mcc_desc := prior_mcc_description md in
  let reuse :=
    match original_mcc with
    | Some c => if truthy c && has_key c (mcc_data ag) then Some c else None
    | None => None
    end in
  match reuse with
  | Some c =>
      {| suggested_mcc := c;
         mcc_suggestion_description :=
           or_else original_mcc_desc (item (mcc_data ag) c);
         confidence := 0.60;
         analysis := [py "Using provided MCC code as fallback classification."];
         suspicious_classification := false;
         is_non_descriptive := Some false;
         may_be_high_risk := Some false;
         requires_full_search := Some false;
         risk_level := None |}
  | None =>
      let merchant_lower := lower merchant_name in
      let mcc_scores :=
        filter (fun p => 0 <? snd p)
          (map (fun p => (fst p, keyword_score (snd p) merchant_lower))
               (mcc_data ag)) in
      match mcc_scores with
      | [] =>
          {| suggested_mcc := py "5812";
             mcc_suggestion_description := py "Eating Places, Restaurants";
             confidence := 0.50;
             analysis := [py "No clear business category identified from name. Using common restaurant category."];
             suspicious_classification := false;
             is_non_descriptive := Some true;
             may_be_high_risk := Some false;
             requires_full_search := Some true;
             risk_level := None |}
      | first :: others =>
          let top := max_by_score first others in
          let top_mcc := fst top in
          let description := item (mcc_data ag) top_mcc in
          {| suggested_mcc := top_mcc;
             mcc_suggestion_description := description;
             confidence :=
               py_min 0.85 (0.5 + inject_Z (Z.of_nat (snd top)) * 0.1);
             analysis :=
               [py "Based on keywords in the business name, classified as "
                  ++ description ++ py "."];
             suspicious_classification := false;
             is_non_descriptive := Some false;
             may_be_high_risk := Some false;
             requires_full_search := Some false;
             risk_level := None |}
      end
  end.

Definition of_tier1 (r : Tier1Result) : tier_dict :=
  {| suggested_mcc := t1_suggested_mcc r;
     mcc_suggestion_description := t1_mcc_suggestion_description r;
     analysis := t1_analysis r;
     confidence := t1_confidence r;
     requires_full_search := Some (t1_requires_full_search r);
     is_non_descriptive := Some (t1_is_non_descriptive r);
     may_be_high_risk := Some (t1_may_be_high_risk r);
     risk_level := None;
     suspicious_classification := t1_suspicious_classification r |}.

Definition of_risk_tier (r : RiskTierResult) : tier_dict :=
  {| suggested_mcc := rt_suggested_mcc r;
     mcc_suggestion_description := rt_mcc_suggestion_description r;
     analysis := rt_analysis r;
     confidence := rt_confidence r;
     risk_level := Some (rt_risk_level r);
     requires_full_search := Some (rt_requires_full_search r);
     is_non_descriptive := None;
     may_be_high_risk := None;
     suspicious_classification := rt_suspicious_classification r |}.

Definition of_tier3 (r : MCCClassification) (suspicious_classification_flag : bool)
  : tier_dict :=
  {| suggested_mcc := mc_suggested_mcc r;
     mcc_suggestion_description := mc_mcc_suggestion_description r;
     analysis := mc_analysis r;
     confidence := mc_confidence r;
     risk_level := None;
     requires_full_search := None;
     is_non_descriptive := None;
     may_be_high_risk := None;
     suspicious_classification :=
       mc_suspicious_classification r || suspicious_classification_flag |}.

(** [_classify_tier1].  The handler of a raised call passes no merchant
    data to the fallback. *)
Definition _classify_tier1 (ag : Agent) (rq : request) (md : merchant_data)
  : M tier_dict :=
  tell (TierInvoked TIER_1) ;;;
  match client ag with
  | None => ret (_fallback_classify ag (rq_merchant_name rq) (rq_legal_name rq) md)
  | Some cl =>
      tell (ServiceCall o3_mini) ;;;
      match parse_tier1 cl rq with
      | Some r => ret (of_tier1 r)
      | None =>
          ret (_fallback_classify ag (rq_merchant_name rq) (rq_legal_name rq)
                 no_merchant_data)
      end
  end.

(** [_classify_risk_tier]. *)
Definition _classify_risk_tier (ag : Agent) (rq : request)
    (may_be_high_risk_flag : bool) (md : merchant_data) : M tier_dict :=
  tell (TierInvoked TIER_RISK) ;;;
  match client ag with
  | None => ret (_fallback_classify ag (rq_merchant_name rq) (rq_legal_name rq) md)
  | Some cl =>
      tell (ServiceCall o3_mini) ;;;
      match parse_risk_tier cl rq may_be_high_risk_flag with
      | Some r => ret (of_risk_tier r)
      | None =>
          ret (_fallback_classify ag (rq_merchant_name rq) (rq_legal_name rq) md)
      end
  end.

(** [_classify_tier3]. *)
Definition _classify_tier3 (ag : Agent) (rq : request)
    (suspicious_classification_flag : bool) (md : merchant_data) : M tier_dict :=
  tell (TierInvoked TIER_FULL) ;;;
  match client ag with
  | None => ret (_fallback_classify ag (rq_merchant_name rq) (rq_legal_name rq) md)
  | Some cl =>
      tell (ServiceCall o3_mini) ;;;
      match parse_tier3 cl rq suspicious_classification_flag with
      | Some r => ret (of_tier3 r suspicious_classification_flag)
      | None =>
          ret (_fallback_classify ag (rq_merchant_name rq) (rq_legal_name rq) md)
      end
  end.

(** [generate_alternative_mccs(primary_mcc, merchant_name, mcc_data)]. *)
Definition generate_alternative_mccs (primary_mcc merchant_name : str)
    (mcc_data : dict str) : list alternative :=
  let merchant_lower := lower merchant_name in
  let candidates :=
    filter (fun c => 0 <? snd c)
      (map (fun p => (fst p, snd p, keyword_score (snd p) merchant_lower))
         (filter (fun p => negb (str_eqb (fst p) primary_mcc)) mcc_data)) in
  let generic (c d : string) :=
    if str_eqb primary_mcc (py c) then [] else [(py c, py d, 0%nat)] in
  let candidates :=
    if (length candidates <? 2)%nat
    then candidates ++ generic "5812"%string "Eating Places, Restaurants"%string
                    ++ generic "5399"%string "Other Retail"%string
                    ++ generic "7399"%string "Other B2B Services"%string
    else candidates in
  let candidates := sort_desc (fun x y => snd x <? snd y)%nat candidates in
  map (fun c =>
         let base_confidence := 0.3 in
         let score_factor := py_min 0.4 (inject_Z (Z.of_nat (snd c)) * 0.1) in
         {| alt_mcc_code := fst (fst c);
            alt_mcc_description := snd (fst c);
            alt_confidence := base_confidence + score_factor;
            alt_explanation := None |})
      (firstn 2 candidates).

(** [_determine_industry(mcc)]. *)
Definition _determine_industry (mcc : str) : str :=
  if (length mcc <? 2)%nat then py "Unknown"
  else if startswith (py "5") mcc then py "Retail/Merchants"
  else if startswith (py "7") mcc then py "Services"
  else if startswith (py "8") mcc then py "Professional Services/Healthcare"
  else if startswith (py "4") mcc then py "Transportation/Utilities"
  else if startswith (py "6") mcc then py "Financial Services"
  else if startswith (py "9") mcc then py "Government Services"
  else py "Other Business Categories".

(** The decision [classify] returns.  The default for a blank name has no
    ['suspicious_classification'] and no ['mcc_changed']. *)
Record decision := {
  mcc_code : str;
  mcc_description : str;
  d_confidence : Q;
  d_analysis : list str;
  d_suspicious_classification : option bool;
  alternative_mccs : list alternative;
  mcc_changed : option bool;
  industry_classification : str;
  reasoning : str
}.

(** [final_result] before the post-processing. *)
Record final_result := {
  f_mcc_code : str;
  f_mcc_description : str;
  f_confidence : Q;
  f_analysis : list str;
  f_suspicious_classification : bool
}.


(** Lines 696-700 and 726-731: the catch-all override applied to a tier's
    dictionary before the acceptance test. *)
Definition catch_all_override (t : tier_dict) : tier_dict :=
  if mem (suggested_mcc t) catch_all_mccs && Qlt_bool (confidence t) 0.98
  then {| suggested_mcc := suggested_mcc t;
          mcc_suggestion_description := mcc_suggestion_description t;
          analysis := analysis t ++
            [py "Suggested MCC is a general catch-all category. Attempting to find a more specific classification."];
          confidence := confidence t;
          requires_full_search := Some true;
          is_non_descriptive := is_non_descriptive t;
          may_be_high_risk := may_be_high_risk t;
          risk_level := risk_level t;
          suspicious_classification := suspicious_classification t |}
  else t.

(** Acceptance tests of tier 1 (line 703) and of the risk tier (line 734). *)
Definition tier1_accepted (t : tier_dict) : bool :=
  Qle_bool 0.7 (confidence t)
  && negb (flag (requires_full_search t))
  && negb (flag (may_be_high_risk t)).

Definition risk_tier_accepted (t : tier_dict) : bool :=
  negb (flag (requires_full_search t)) && Qle_bool 0.7 (confidence t).

Definition default_decision : decision :=
  {| mcc_code := py "5812";
     mcc_description := py "Eating Places, Restaurants";
     d_confidence := 0.5;
     alternative_mccs :=
       [ mk_alt "5399" "Other Retail" 0.3;
         mk_alt "7399" "Other B2B Services" 0.2 ];
     industry_classification := py "Restaurants";
     d_analysis := [py "No merchant name provided."];
     reasoning := py "Default classification due to missing merchant name.";
     d_suspicious_classification := None;
     mcc_changed := None |}.

(** The escalation of [classify], lines 682-771. *)
Definition tiers (ag : Agent) (rq : request) (md : merchant_data)
  : M final_result :=
  tier1_result <- _classify_tier1 ag rq md ;;
  if flag (is_non_descriptive tier1_result) then
    ret {| f_mcc_code := rq_mcc rq;
           f_mcc_description := rq_mcc_description rq;
           f_confidence := 1.0;
           f_analysis := py "NON-DESCRIPTIVE NAME MCC ACCEPTED"
                         :: analysis tier1_result;
           f_suspicious_classification := false |}
  else
    let tier1_result := catch_all_override tier1_result in
    if tier1_accepted tier1_result then
      ret {| f_mcc_code := suggested_mcc tier1_result;
             f_mcc_description := mcc_suggestion_description tier1_result;
             f_confidence := confidence tier1_result;
             f_analysis := analysis tier1_result;
             f_suspicious_classification :=
               suspicious_classification tier1_result |}
    else
      risk_tier_result <-
        _classify_risk_tier ag rq (flag (may_be_high_risk tier1_result)) md ;;
      let risk_tier_result := catch_all_override risk_tier_result in
      if risk_tier_accepted risk_tier_result then
        let level :=
          match risk_level risk_tier_result with
          | Some l => l
          | None => py "approved"
          end in
        let banner :=
          match risk_level risk_tier_result with
          | Some l => upper l
          | None => []
          end in
        let analysis' :=
          if str_eqb level (py "approved") then analysis risk_tier_result
          else (py "ATTENTION: Business classified as " ++ banner)
               :: analysis risk_tier_result in
        ret {| f_mcc_code := suggested_mcc risk_tier_result;
               f_mcc_description := mcc_suggestion_description risk_tier_result;
               f_confidence := confidence risk_tier_result;
               f_analysis := analysis';
               f_suspicious_classification :=
                 suspicious_classification risk_tier_result
                 || suspicious_classification tier1_result |}
      else
        let suspicious_flag :=
          suspicious_classification tier1_result
          || suspicious_classification risk_tier_result in
        tier3_result <- _classify_tier3 ag rq suspicious_flag md ;;
        ret {| f_mcc_code := suggested_mcc tier3_result;
               f_mcc_description := mcc_suggestion_description tier3_result;
               f_confidence := confidence tier3_result;
               f_analysis := analysis tier3_result;
               f_suspicious_classification :=
                 suspicious_classification tier3_result |}.

(** Lines 679-680: the prior code and description, or the defaults, and the
    request the tiers are given. *)
Definition request_of (merchant_name : str) (legal_name : option str)
    (md : merchant_data) : request :=
  {| rq_merchant_name := merchant_name;
     rq_legal_name := legal_name;
     rq_mcc :=
       match original_mcc_code md with Some c => c | None => py "5812" end;
     rq_mcc_description :=
       match prior_mcc_description md with
       | Some d => d
       | None => py "Eating Places, Restaurants"
       end |}.

(** Lines 773-796: the post-processing of the final result. *)
Definition finish (ag : Agent) (merchant_name mcc : str) (fr : final_result)
  : decision :=
  {| mcc_code := f_mcc_code fr;
     mcc_description := f_mcc_description fr;
     d_confidence := f_confidence fr;
     d_analysis := f_analysis fr;
     d_suspicious_classification := Some (f_suspicious_classification fr);
     alternative_mccs :=
       generate_alternative_mccs (f_mcc_code fr) merchant_name (mcc_data ag);
     mcc_changed := Some (negb (str_eqb (f_mcc_code fr) mcc));
     industry_classification := _determine_industry (f_mcc_code fr);
     reasoning :=
       match f_analysis fr with
       | [] => py "Classification based on merchant name analysis"
       | _ => join (py " ") (f_analysis fr)
       end |}.

(** [classify(merchant_name, legal_name, **merchant_data)]. *)
Definition classify (ag : Agent) (merchant_name : str)
    (legal_name : option str) (md : merchant_data) : M decision :=
  if negb (truthy (strip merchant_name)) then ret default_decision
  else
    let rq := request_of merchant_name legal_name md in
    fr <- tiers ag rq md ;;
    ret (finish ag merchant_name (rq_mcc rq) fr).

End Matheus.

(* ================================================================== *)
(** * The evaluation harness ([MCCEvaluator.evaluate]) *)

Module Evaluator.

Open Scope Q_scope.

(** Exceptions below [Exception], as far as the harness tells them apart. *)
Inductive exn :=
| TypeError (msg : str)
| KeyError (key : str)
| OtherError (msg : str).

(** [str(e)]. *)
Definition str_of_exn (e : exn) : str :=
  match e with
  | TypeError m => m
  | KeyError k => py "'" ++ k ++ py "'"
  | OtherError m => m
  end.

(** What [agent.classify] hands back: a dictionary in which the harness
    reads three keys, any of which may be missing. *)
Record result := {
  r_mcc_code : option str;
  r_mcc_description : option str;
  r_confidence : option Q
}.

(** A strategy as the harness sees it: a name and a [classify], called with
    the two names only ([None]) or with the additional data as keywords. *)
Record agent := {
  name : str;
  classify : str -> str -> option (dict str) -> exn + result
}.

(** A cell of the output table. *)
Inductive cell :=
| Text (s : str)
| Number (q : Q)
| Accuracy (q : Q).          (* f"Accuracy: {q:.2%}" *)

Definition row := dict cell.

Record counters := { correct : nat; total : nat }.

Definition metrics := dict counters.

Definition col (ag : agent) (suffix : string) : str := name ag ++ py suffix.

Definition suggested_col (ag : agent) := col ag "'s suggested MCC".
Definition description_col (ag : agent) := col ag "'s MCC description".
Definition confidence_col (ag : agent) := col ag "'s confidence".
Definition match_col (ag : agent) := col ag "'s match".

(** The four columns a strategy writes. *)
Definition own_cols (ag : agent) : list str :=
  [suggested_col ag; description_col ag; confidence_col ag; match_col ag].

(** [merchant.get(k, "")]. *)
Definition field (merchant : dict str) (k : string) : str :=
  match get (py k) merchant with Some v => v | None => [] end.

(** [metrics[name][...] += 1]. *)
Definition bump (f : counters -> counters) (n : str) (m : metrics) : metrics :=
  match get n m with
  | Some c => set n (f c) m
  | None => m
  end.

Definition incr_total (c : counters) : counters :=
  {| correct := correct c; total := S (total c) |}.
Definition incr_correct (c : counters) : counters :=
  {| correct := S (correct c); total := total c |}.

(** Lines 82-88: the keyword arguments of a full-data call. *)
Definition additional_data (merchant : dict str) : dict str :=
  fold_left (fun d kv => set (fst kv) (snd kv) d)
    (filter (fun kv => negb (mem (fst kv) [py "Merchant Name"; py "Legal Name"]))
            merchant)
    [ (py "original_mcc_code", field merchant "original Mcc code");
      (py "mcc_description", field merchant "MCC Description");
      (py "ai_original_description", field merchant "ai_original_description") ].

(** Lines 94-104: the call itself, retried with the two names when a
    full-data call raises [TypeError]. *)
Definition call_classify (pass_full_data : bool) (ag : agent)
    (merchant : dict str) : exn + result :=
  let merchant_name := field merchant "Merchant Name" in
  let legal_name := field merchant "Legal Name" in
  if pass_full_data then
    match classify ag merchant_name legal_name
            (Some (additional_data merchant)) with
    | inl (TypeError _) => classify ag merchant_name legal_name None
    | r => r
    end
  else classify ag merchant_name legal_name None.

(** Lines 93-117, the body of the [try]: the row and the counters as they
    stand when the body ends, and the exception if it ended by one. *)
Definition try_body (pass_full_data : bool) (ag : agent) (merchant : dict str)
    (st : row * metrics) : row * metrics * option exn :=
  let (output_row, m) := st in
  match call_classify pass_full_data ag merchant with
  | inl e => (output_row, m, Some e)
  | inr res =>
      match r_mcc_code res with
      | None => (output_row, m, Some (KeyError (py "mcc_code")))
      | Some code =>
          let output_row := set (suggested_col ag) (Text code) output_row in
          match r_mcc_description res with
          | None => (output_row, m, Some (KeyError (py "mcc_description")))
          | Some d =>
              let output_row := set (description_col ag) (Text d) output_row in
              match r_confidence res with
              | None => (output_row, m, Some (KeyError (py "confidence")))
              | Some q =>
                  let output_row :=
                    set (confidence_col ag) (Number q) output_row in
                  let m := bump incr_total (name ag) m in
                  if str_eqb (strip code)
                             (strip (field merchant "Actual MCC code"))
                  then (set (match_col ag) (Text (py "Yes")) output_row,
                        bump incr_correct (name ag) m, None)
                  else (set (match_col ag) (Text (py "No")) output_row,
                        m, None)
              end
          end
      end
  end.

(** Lines 119-124, the handler. *)
Definition on_error (ag : agent) (e : exn) (output_row : row) : row :=
  set (match_col ag) (Text (py "Error"))
    (set (confidence_col ag) (Number 0.0)
       (set (description_col ag) (Text (str_of_exn e))
          (set (suggested_col ag) (Text (py "ERROR")) output_row))).

(** One strategy on one record: lines 91-124. *)
Definition classify_with (pass_full_data : bool) (merchant : dict str)
    (st : row * metrics) (ag : agent) : row * metrics :=
  match try_body pass_full_data ag merchant st with
  | (output_row, m, None) => (output_row, m)
  | (output_row, m, Some e) => (on_error ag e output_row, m)
  end.

(** Whether the body of the [try] ends by an exception for this strategy
    and this record (the row and the counters it starts from play no part). *)
Definition raises (pass_full_data : bool) (ag : agent) (merchant : dict str)
  : bool :=
  match snd (try_body pass_full_data ag merchant ([], [])) with
  | Some _ => true
  | None => false
  end.

(** Line 69: [not merchant_name or not actual_mcc]. *)
Definition skipped (merchant : dict str) : bool :=
  negb (truthy (field merchant "Merchant Name"))
  || negb (truthy (field merchant "Actual MCC code")).

Definition base_row (merchant : dict str) : row :=
  [ (py "Merchant Name", Text (field merchant "Merchant Name"));
    (py "Legal Name", Text (field merchant "Legal Name"));
    (py "Actual MCC", Text (field merchant "Actual MCC code"));
    (py "MCC Description", Text (field merchant "MCC Description")) ].

(** One record: lines 60-127. *)
Definition process_merchant (pass_full_data : bool) (agents : list agent)
    (st : list row * metrics) (merchant : dict str) : list row * metrics :=
  let (output_data, m) := st in
  if skipped merchant then (output_data, m)
  else
    let (output_row, m) :=
      fold_left (classify_with pass_full_data merchant) agents
                (base_row merchant, m) in
    (output_data ++ [output_row], m).

(** Line 57. *)
Definition initial_metrics (agents : list agent) : metrics :=
  fold_left (fun m ag => set (name ag) {| correct := 0; total := 0 |} m)
            agents [].

Record performance := {
  accuracy : Q;
  correct_classifications : nat;
  total_classifications : nat
}.

(** Lines 130-138. *)
Definition performance_of (c : counters) : performance :=
  {| accuracy :=
       if (0 <? total c)%nat
       then inject_Z (Z.of_nat (correct c)) / inject_Z (Z.of_nat (total c))
       else 0;
     correct_classifications := correct c;
     total_classifications := total c |}.

Definition performance_metrics (m : metrics) : dict performance :=
  map (fun kv => (fst kv, performance_of (snd kv))) m.

(** Lines 141-153. *)
Definition summary_row (agents : list agent) (pm : dict performance) : row :=
  fold_left
    (fun r ag =>
       let acc := match get (name ag) pm with
                  | Some p => accuracy p
                  | None => 0
                  end in
       set (match_col ag) (Accuracy acc)
         (set (confidence_col ag) (Text [])
            (set (description_col ag) (Text [])
               (set (suggested_col ag) (Text []) r))))
    agents
    [ (py "Merchant Name", Text (py "SUMMARY"));
      (py "Legal Name", Text []);
      (py "Actual MCC", Text []);
      (py "MCC Description", Text []) ].

(** The loop over the records, lines 54-127. *)
Definition run (pass_full_data : bool) (agents : list agent)
    (input_data : list (dict str)) : list row * metrics :=
  fold_left (process_merchant pass_full_data agents) input_data
            ([], initial_metrics agents).

(** [evaluate] on the rows read from the input file: the table handed to
    [DataHandler.write_csv] and the metrics returned. *)
Definition evaluate (pass_full_data : bool) (agents : list agent)
    (input_data : list (dict str)) : list row * dict performance :=
  let (output_data, m) := run pass_full_data agents input_data in
  let pm := performance_metrics m in
  (output_data ++ [summary_row agents pm], pm).

End Evaluator.

(* ================================================================== *)
(** * The regular expressions of the free-text parser *)

Module PyRe.

Fixpoint take_while (p : ascii -> bool) (s : str) : str :=
  match s with
  | [] => []
  | c :: t => if p c then c :: take_while p t else []
  end.

(** [re.search]: the match at the leftmost position that has one; the
    position after the last character is tried too. *)
Fixpoint search {A : Type} (at_pos : str -> option A) (s : str) : option A :=
  match at_pos s with
  | Some a => Some a
  | None => match s with
            | [] => None
            | _ :: t => search at_pos t
            end
  end.

(** [\d{4}] at the head of [s]. *)
Definition digits4 (s : str) : option str :=
  match s with
  | a :: b :: c :: d :: _ =>
      if is_digit a && is_digit b && is_digit c && is_digit d
      then Some [a; b; c; d] else None
  | _ => None
  end.

(** [re.findall(r'(\d{4})', s)], its first element. *)
Definition first_code4 (s : str) : option str := search digits4 s.


(** The class [[:\s-]]. *)
Definition is_sep (c : ascii) : bool :=
  Ascii.eqb c ":"%char || is_space c || Ascii.eqb c "-"%char.

(** [[:\s-]+([^X]+)] against what follows a code, [X] the excluded
    character: the separators are taken greedily and given back one at a
    time until the group has a character to take; the group is returned. *)
Fixpoint give_back (excl : ascii) (j : nat) (after : str) : option str :=
  match j with
  | O => None
  | S j' =>
      match take_while (fun c => negb (Ascii.eqb c excl)) (skipn j after) with
      | [] => give_back excl j' after
      | g => Some g
      end
  end.

Definition sep_then_group (excl : ascii) (after : str) : option str :=
  give_back excl (length (take_while is_sep after)) after.

(** [re.search(r'\d{4}[:\s-]+([^\n]+)', line)], group 1. *)
Definition code_then_description (line : str) : option str :=
  search (fun s => match digits4 s with
                   | Some _ => sep_then_group newline (skipn 4 s)
                   | None => None
                   end) line.

(** [re.search(rf'{code}[:\s-]+([^\.]+)', line)], group 1. *)
Definition this_code_then_description (code line : str) : option str :=
  search (fun s => if startswith code s
                   then sep_then_group "."%char (skipn (length code) s)
                   else None) line.

(** An optional colon: [:?]. *)
Definition drop_colon (s : str) : str :=
  match s with
  | c :: t => if Ascii.eqb c ":"%char then t else s
  | [] => []
  end.

(** [re.sub(r'^.*?description:?\s*', '', line, flags=re.IGNORECASE)]: what
    is left after the first "description", a colon and white space; the
    line itself when "description" is not reached before a newline. *)
Fixpoint after_description (s : str) : option str :=
  if startswith (py "description") (lower s)
  then Some (drop_while is_space (drop_colon (skipn 11 s)))
  else match s with
       | [] => None
       | c :: t => if Ascii.eqb c newline then None else after_description t
       end.

Definition sub_description (line : str) : str :=
  match after_description line with
  | Some r => r
  | None => line
  end.

(** [int(ds)] for a run of digits. *)
Definition digit_value (c : ascii) : Z := Z.of_nat (nat_of_ascii c - 48).

Definition int_of_digits (ds : str) : Z :=
  fold_left (fun acc c => (acc * 10 + digit_value c)%Z) ds 0%Z.

(** [(\d{1,3})%|(\d{1,3})\s*percent] at the head of [s]: the digits taken.
    Up to three digits are taken greedily; a shorter take would be followed
    by a digit, which neither branch allows. *)
Definition percentage_at (s : str) : option Z :=
  let ds := firstn 3 (take_while is_digit s) in
  match ds with
  | [] => None
  | _ =>
      let rest := skipn (length ds) s in
      if startswith (py "%") rest
         || startswith (py "percent") (drop_while is_space rest)
      then Some (int_of_digits ds) else None
  end.

Definition search_percentage (s : str) : option Z := search percentage_at s.

(** [confidence:?\s*(0\.\d+)] at the head of [s]: the digits after "0.". *)
Definition decimal_at (s : str) : option str :=
  if startswith (py "confidence") s then
    match drop_while is_space (drop_colon (skipn 10 s)) with
    | z :: d :: r =>
        if Ascii.eqb z "0"%char && Ascii.eqb d "."%char
        then match take_while is_digit r with
             | [] => None
             | ds => Some ds
             end
        else None
    | _ => None
    end
  else None.

Definition search_decimal (s : str) : option str := search decimal_at s.

(** [float("0." + ds)]. *)
Definition float_of_fraction (ds : str) : Q :=
  inject_Z (int_of_digits ds) / inject_Z (10 ^ Z.of_nat (length ds)).

(** [MCC:?\s*(\d{4})|code:?\s*(\d{4})|suggested:?\s*(\d{4})] with
    [re.IGNORECASE], at the head of [s]: the group that matched. *)
Definition labelled_code_at (s : str) : option str :=
  let try_label (label : str) :=
    if startswith label (lower s)
    then digits4 (drop_while is_space (drop_colon (skipn (length label) s)))
    else None in
  match try_label (py "mcc") with
  | Some c => Some c
  | None =>
      match try_label (py "code") with
      | Some c => Some c
      | None => try_label (py "suggested")
      end
  end.

(** The first match of [re.findall] for that pattern. *)
Definition search_labelled_code (section : str) : option str :=
  search labelled_code_at section.

(** [re.search(r'analysis|step[- ]by[- ]step', s)]. *)
Definition analysis_header (s : str) : bool :=
  contains (py "analysis") s
  || existsb (fun p => contains p s)
       [ py "step-by-step"; py "step-by step";
         py "step by-step"; py "step by step" ].

(** The integer nearest to [y], the even one of two equally near. *)
Definition round_half_even (y : Q) : Z :=
  let fl := Qfloor y in
  match (y - inject_Z fl ?= 1 # 2)%Q with
  | Lt => fl
  | Gt => (fl + 1)%Z
  | Eq => if Z.odd fl then (fl + 1)%Z else fl
  end.

(** [round(x, 2)]: to the nearest hundredth, ties to even. *)
Definition round2 (x : Q) : Q := Qmake (round_half_even (x * 100)) 100.

End PyRe.

Import PyRe.

(* ================================================================== *)
(** * The single-call strategy and its free-text parser ([WakiAgent]) *)

Module Waki.

Open Scope Q_scope.

Record mcc_entry := { description : str; classification : str }.

Definition entry (d c : string) : mcc_entry :=
  {| description := py d; classification := py c |}.

(** The table substituted when the file cannot be used. *)
Definition fallback_mcc_data : dict mcc_entry :=
  [ (py "5411", entry "Grocery Stores, Supermarkets" "Approved");
    (py "5814", entry "Fast Food Restaurants" "Approved");
    (py "5812", entry "Eating places and Restaurants" "Approved");
    (py "5999", entry "Miscellaneous and Specialty Retail Stores" "Approved");
    (py "7299", entry "Miscellaneous Personal Services" "Approved");
    (py "5732", entry "Electronics Sales" "Approved");
    (py "5045", entry "Computers, Computer Peripheral Equipment, Software" "Approved");
    (py "5311", entry "Department Stores" "Approved");
    (py "5200", entry "Home Supply Warehouse Stores" "Approved");
    (py "5499", entry "Misc. Food Stores – Convenience Stores and Specialty Markets" "Approved");
    (py "5651", entry "Family Clothing Stores" "Approved");
    (py "8011", entry "Doctors and Physicians" "Approved");
    (py "7230", entry "Barber and Beauty Shops" "Approved");
    (py "7011", entry "Lodging – Hotels, Motels, Resorts" "Approved") ].

(** [s.zfill(4)]. *)
Definition zfill4 (s : str) : str :=
  let pad (t : str) := repeat "0"%char (4 - length t) ++ t in
  match s with
  | c :: t =>
      if Ascii.eqb c "+"%char || Ascii.eqb c "-"%char
      then c :: repeat "0"%char (3 - length t) ++ t
      else pad s
  | [] => pad s
  end.

(** A row of [mcc_list.csv]: the cells [mcc] and [description], and the cell
    [classification] when the file has that column. *)
Definition csv_row := (str * str * option str)%type.

(** [_load_mcc_data], on the rows read from the file ([None] when reading
    raises): fewer than 100 codes and the built-in table is used. *)
Definition _load_mcc_data (rows : option (list csv_row)) : dict mcc_entry :=
  match rows with
  | None => fallback_mcc_data
  | Some rs =>
      let mcc_dict :=
        fold_left
          (fun d (r : csv_row) =>
             let '(mcc, desc, cls) := r in
             set (zfill4 (strip mcc))
                 {| description := desc;
                    classification :=
                      match cls with Some c => c | None => py "Unknown" end |}
                 d)
          rs [] in
      if (length mcc_dict <? 100)%nat then fallback_mcc_data else mcc_dict
  end.

(** [mcc.startswith(p)]. *)
Definition starts (mcc : str) (p : string) : bool := startswith (py p) mcc.

(** [_determine_industry(mcc)]. *)
Definition _determine_industry (mcc : str) : str :=
  if (length mcc <? 2)%nat then py "Unknown"
  else
    if starts mcc "5" then
      if starts mcc "54" then py "Food and Grocery Retail"
      else if starts mcc "56" then py "Apparel and Accessories Retail"
      else if starts mcc "57" then py "Home Furnishings and Electronics Retail"
      else if starts mcc "58" then py "Restaurants and Food Service"
      else if starts mcc "59" then py "Specialty Retail"
      else py "Retail/Merchants"
    else if starts mcc "7" then
      if starts mcc "70" || starts mcc "71" then py "Travel and Lodging"
      else if starts mcc "72" then py "Personal Services"
      else if starts mcc "73" then py "Business and Professional Services"
      else if starts mcc "74" || starts mcc "76" then py "Repair and Maintenance Services"
      else if starts mcc "75" then py "Auto Services"
      else if starts mcc "78" || starts mcc "79" then py "Entertainment and Recreation"
      else py "Services"
    else if starts mcc "8" then
      if starts mcc "80" then py "Healthcare"
      else if starts mcc "81" then py "Legal Services"
      else if starts mcc "82" || starts mcc "83" then py "Educational Services"
      else if starts mcc "86" then py "Membership Organizations"
      else py "Professional Services"
    else if starts mcc "4" then py "Transportation/Utilities"
    else if starts mcc "6" then py "Financial Services"
    else if starts mcc "9" then py "Government Services"
    else if starts mcc "0" || starts mcc "1" || starts mcc "2" || starts mcc "3"
    then py "Contractors/Construction/Agriculture"
    else py "Other Business Categories".

(** The dictionary the parser and the fallback return. *)
Record result := {
  mcc_code : option str;
  mcc_description : str;
  confidence : Q;
  alternative_mccs : list alternative;
  analysis : str;
  industry_classification : str;
  reasoning : str
}.

(** The local variables of the first pass over the lines. *)
Record pstate := {
  p_mcc_code : option str;
  p_mcc_description : str;
  p_analysis : str;
  p_industry_classification : str;
  p_reasoning : str;
  confidence_value : Q;
  in_alternatives : bool;
  current_alt : option alternative;
  alt_explanation_text : str;
  alternative_list : list alternative
}.

Definition initial_pstate : pstate :=
  {| p_mcc_code := None; p_mcc_description := [];
     p_analysis := []; p_industry_classification := []; p_reasoning := [];
     confidence_value := 0.7; in_alternatives := false;
     current_alt := None; alt_explanation_text := [];
     alternative_list := [] |}.

(** The lines of a section: from the next line up to the next line that
    contains one of the headers, blank lines dropped, the others stripped. *)
Fixpoint section_lines (headers : list str) (rest : list str) : list str :=
  match rest with
  | [] => []
  | l :: t =>
      if existsb (fun header => contains header (lower l)) headers then []
      else (if truthy (strip l) then [strip l] else [])
           ++ section_lines headers t
  end.

Definition section_text (headers : list string) (rest : list str) : str :=
  join (py " ") (section_lines (map py headers) rest).

(** [current_alt] closed with the explanation gathered for it. *)
Definition close_alt (a : alternative) (explanation : str) : alternative :=
  {| alt_mcc_code := alt_mcc_code a;
     alt_mcc_description := alt_mcc_description a;
     alt_confidence := alt_confidence a;
     alt_explanation :=
       if truthy explanation then Some explanation else alt_explanation a |}.

(** Line 372. *)
Definition alt_confidence_at (confidence_value : Q) (position : nat) : Q :=
  py_max 0.1 (confidence_value - 0.2 - 0.1 * inject_Z (Z.of_nat position)).


(** Lines 321-342: the confidence read from a line, given the value so far. *)
Definition read_confidence (confidence_line : str) (confidence_value : Q) : Q :=
  let v :=
    if contains (py "high") confidence_line then 0.95
    else if contains (py "medium") confidence_line then 0.8
    else if contains (py "low") confidence_line then 0.6
    else confidence_value in
  let v :=
    match search_percentage confidence_line with
    | Some percentage => py_min 0.99 (py_max 0.01 (inject_Z percentage / 100))
    | None => v
    end in
  match search_decimal confidence_line with
  | Some ds => float_of_fraction ds
  | None => v
  end.

(** Lines 350-384: a line inside the alternatives section. *)
Definition alternative_line (line : str) (st : pstate) : pstate :=
  match first_code4 line with
  | Some alt_mcc =>
      let saved :=
        match current_alt st with
        | Some a => alternative_list st ++ [close_alt a (alt_explanation_text st)]
        | None => alternative_list st
        end in
      let explanation :=
        match current_alt st with
        | Some _ => []
        | None => alt_explanation_text st
        end in
      let alt_desc :=
        match code_then_description line with
        | Some g => strip g
        | None => []
        end in
      let alt_conf := alt_confidence_at (confidence_value st) (length saved) in
      {| p_mcc_code := p_mcc_code st;
         p_mcc_description := p_mcc_description st;
         p_analysis := p_analysis st;
         p_industry_classification := p_industry_classification st;
         p_reasoning := p_reasoning st;
         confidence_value := confidence_value st;
         in_alternatives := in_alternatives st;
         current_alt :=
           Some {| alt_mcc_code := alt_mcc;
                   alt_mcc_description := alt_desc;
                   alt_confidence := round2 alt_conf;
                   alt_explanation := None |};
         alt_explanation_text := explanation;
         alternative_list := saved |}
  | None =>
      match current_alt st with
      | Some _ =>
          {| p_mcc_code := p_mcc_code st;
             p_mcc_description := p_mcc_description st;
             p_analysis := p_analysis st;
             p_industry_classification := p_industry_classification st;
             p_reasoning := p_reasoning st;
             confidence_value := confidence_value st;
             in_alternatives := in_alternatives st;
             current_alt := current_alt st;
             alt_explanation_text :=
               if truthy (alt_explanation_text st)
               then alt_explanation_text st ++ py " " ++ line
               else line;
             alternative_list := alternative_list st |}
      | None => st
      end
  end.

(** One iteration of the loop of lines 260-384: the line at hand, the lines
    after it, the variables before. *)
Definition step (raw_line : str) (rest : list str) (st : pstate) : pstate :=
  let line := strip raw_line in
  let low := lower line in
  if negb (truthy line) then st
  else if analysis_header low then
    {| p_mcc_code := p_mcc_code st;
       p_mcc_description := p_mcc_description st;
       p_analysis :=
         section_text ["industry classification"; "primary mcc";
                       "mcc description"; "**industry"]%string rest;
       p_industry_classification := p_industry_classification st;
       p_reasoning := p_reasoning st;
       confidence_value := confidence_value st;
       in_alternatives := in_alternatives st;
       current_alt := current_alt st;
       alt_explanation_text := alt_explanation_text st;
       alternative_list := alternative_list st |}
  else if contains (py "industry classification") low then
    {| p_mcc_code := p_mcc_code st;
       p_mcc_description := p_mcc_description st;
       p_analysis := p_analysis st;
       p_industry_classification :=
         section_text ["primary mcc"; "mcc description"; "reasoning"]%string
                      rest;
       p_reasoning := p_reasoning st;
       confidence_value := confidence_value st;
       in_alternatives := in_alternatives st;
       current_alt := current_alt st;
       alt_explanation_text := alt_explanation_text st;
       alternative_list := alternative_list st |}
  else if contains (py "primary mcc") low || contains (py "mcc code") low
          || contains (py "mcc:") low then
    match first_code4 line with
    | Some c =>
        {| p_mcc_code := Some c;
           p_mcc_description := p_mcc_description st;
           p_analysis := p_analysis st;
           p_industry_classification := p_industry_classification st;
           p_reasoning := p_reasoning st;
           confidence_value := confidence_value st;
           in_alternatives := in_alternatives st;
           current_alt := current_alt st;
           alt_explanation_text := alt_explanation_text st;
           alternative_list := alternative_list st |}
    | None => st
    end
  else if contains (py "mcc description") low
          || contains (py "description:") low then
    let desc := strip (sub_description line) in
    let desc :=
      if truthy desc then desc
      else match rest with
           | next :: _ => strip next
           | [] => desc
           end in
    if truthy desc then
      {| p_mcc_code := p_mcc_code st;
         p_mcc_description := desc;
         p_analysis := p_analysis st;
         p_industry_classification := p_industry_classification st;
         p_reasoning := p_reasoning st;
         confidence_value := confidence_value st;
         in_alternatives := in_alternatives st;
         current_alt := current_alt st;
         alt_explanation_text := alt_explanation_text st;
         alternative_list := alternative_list st |}
    else st
  else if contains (py "reasoning") low then
    {| p_mcc_code := p_mcc_code st;
       p_mcc_description := p_mcc_description st;
       p_analysis := p_analysis st;
       p_industry_classification := p_industry_classification st;
       p_reasoning :=
         section_text ["confidence"; "alternative mccs"]%string rest;
       confidence_value := confidence_value st;
       in_alternatives := in_alternatives st;
       current_alt := current_alt st;
       alt_explanation_text := alt_explanation_text st;
       alternative_list := alternative_list st |}
  else if contains (py "confidence") low then
    {| p_mcc_code := p_mcc_code st;
       p_mcc_description := p_mcc_description st;
       p_analysis := p_analysis st;
       p_industry_classification := p_industry_classification st;
       p_reasoning := p_reasoning st;
       confidence_value := read_confidence low (confidence_value st);
       in_alternatives := in_alternatives st;
       current_alt := current_alt st;
       alt_explanation_text := alt_explanation_text st;
       alternative_list := alternative_list st |}
  else if contains (py "alternative mcc") low then
    {| p_mcc_code := p_mcc_code st;
       p_mcc_description := p_mcc_description st;
       p_analysis := p_analysis st;
       p_industry_classification := p_industry_classification st;
       p_reasoning := p_reasoning st;
       confidence_value := confidence_value st;
       in_alternatives := true;
       current_alt := current_alt st;
       alt_explanation_text := alt_explanation_text st;
       alternative_list := alternative_list st |}
  else if in_alternatives st then alternative_line line st
  else st.

(** The loop itself. *)
Fixpoint first_pass (lines : list str) (st : pstate) : pstate :=
  match lines with
  | [] => st
  | l :: rest => first_pass rest (step l rest st)
  end.

(** Lines 386-390: the alternative still open when the lines run out. *)
Definition flush (st : pstate) : list alternative :=
  match current_alt st with
  | Some a => alternative_list st ++ [close_alt a (alt_explanation_text st)]
  | None => alternative_list st
  end.

(** Lines 394-405: a labelled code in the reasoning, then in the analysis;
    a find in the analysis replaces one in the reasoning. *)
Definition code_from_sections (reasoning analysis : str) : option str :=
  fold_left
    (fun found section =>
       if truthy section then
         match search_labelled_code section with
         | Some c => Some c
         | None => found
         end
       else found)
    [reasoning; analysis] None.

(** Lines 408-418: the first line that names an MCC, a code or a category
    and holds four digits in a row; the code and, when the line goes on
    after it, the description found there. *)
Fixpoint code_from_lines (lines : list str) : option (str * option str) :=
  match lines with
  | [] => None
  | line :: rest =>
      let low := lower line in
      if contains (py "mcc") low || contains (py "code") low
         || contains (py "category") low
      then match first_code4 line with
           | Some c =>
               Some (c, match this_code_then_description c line with
                        | Some g => Some (strip g)
                        | None => None
                        end)
           | None => code_from_lines rest
           end
      else code_from_lines rest
  end.

Definition explained_alt (c d : string) (q : Q) (e : string) : alternative :=
  {| alt_mcc_code := py c; alt_mcc_description := py d;
     alt_confidence := q; alt_explanation := Some (py e) |}.

(** Lines 448-510: the stock alternatives for the code's leading digit. *)
Definition fallback_alts (code : str) : list alternative :=
  if startswith (py "5") code then
    [ explained_alt "5999" "Miscellaneous and Specialty Retail Stores" 0.3
          "General retail fallback option";
      explained_alt "5499" "Misc. Food Stores – Convenience Stores and Specialty Markets"
          0.25 "Food retail alternative if applicable" ]
  else if startswith (py "7") code then
    [ explained_alt "7399" "Business Services, Not Elsewhere Classified" 0.3
          "Business services alternative";
      explained_alt "7311" "Advertising Services" 0.25
          "Marketing/promotion services if applicable" ]
  else if startswith (py "8") code then
    [ explained_alt "8999" "Professional Services, Not Elsewhere Classified" 0.3
          "Alternative professional services classification";
      explained_alt "8931" "Accounting, Auditing, and Bookkeeping Services" 0.25
          "Financial professional services if applicable" ]
  else
    [ explained_alt "5999" "Miscellaneous and Specialty Retail Stores" 0.3
          "Retail alternative";
      explained_alt "7299" "Miscellaneous Personal Services" 0.25
          "Services alternative" ].

(** Lines 512-516. *)
Fixpoint fill_alternatives (code : str) (stock : list alternative)
    (alternatives : list alternative) : list alternative :=
  match stock with
  | [] => alternatives
  | alt :: more =>
      if (2 <=? length alternatives)%nat then alternatives
      else if str_eqb (alt_mcc_code alt) code
           then fill_alternatives code more alternatives
           else fill_alternatives code more (alternatives ++ [alt])
  end.

(** Line 247. *)
Definition lines_of (response_text : str) : list str :=
  split_on newline (strip response_text).

(** The alternatives read from the reply, lines 350-390, before any stock
    alternative is added. *)
Definition parsed_alternatives (response_text : str) : list alternative :=
  flush (first_pass (lines_of response_text) initial_pstate).

(** ** Invariants of the first pass *)





(** The body of the [try] of [_parse_gpt_response] on a reply that is text. *)
Definition parse_text (mcc_data : dict mcc_entry) (response_text : str)
  : result :=
  let lines := lines_of response_text in
  let st := first_pass lines initial_pstate in
  let alternatives := parsed_alternatives response_text in
  (* lines 393-418 *)
  let found :=
    match p_mcc_code st with
    | Some c => (Some c, p_mcc_description st)
    | None =>
        match code_from_sections (p_reasoning st) (p_analysis st) with
        | Some c => (Some c, p_mcc_description st)
        | None =>
            match code_from_lines lines with
            | Some (c, Some d) => (Some c, d)
            | Some (c, None) => (Some c, p_mcc_description st)
            | None => (None, p_mcc_description st)
            end
        end
    end in
  (* lines 421-424 *)
  let (code, desc) :=
    match found with
    | (Some c, d) => if truthy c then (c, d)
                     else (py "7299", py "Miscellaneous Personal Services")
    | (None, _) => (py "7299", py "Miscellaneous Personal Services")
    end in
  (* lines 431-432 *)
  let desc :=
    match get code mcc_data with
    | Some e => description e
    | None => desc
    end in
  (* lines 435-438 *)
  let reasoning' :=
    if truthy (p_reasoning st) then p_reasoning st
    else if truthy (p_analysis st)
    then py "Classification based on merchant name analysis: " ++ p_analysis st
    else py "Classification based on merchant name patterns." in
  (* lines 441-442 *)
  let industry :=
    if truthy (p_industry_classification st) then p_industry_classification st
    else _determine_industry code in
  (* lines 445-518 *)
  let alternatives :=
    if (length alternatives <? 2)%nat
    then fill_alternatives code (fallback_alts code) alternatives
    else alternatives in
  {| mcc_code := Some code;
     mcc_description := desc;
     confidence := confidence_value st;
     alternative_mccs := alternatives;
     analysis := p_analysis st;
     industry_classification := industry;
     reasoning := reasoning' |}.

(** [_parse_gpt_response(response_text)].  The reply's content is text or
    [None]; on [None] the first statement of the [try] raises and the
    handler completes the initial dictionary. *)
Definition _parse_gpt_response (mcc_data : dict mcc_entry)
    (response_text : option str) : result :=
  match response_text with
  | Some text => parse_text mcc_data text
  | None =>
      {| mcc_code := Some (py "7299");
         mcc_description := py "Miscellaneous Personal Services";
         confidence := 0.7;
         alternative_mccs := [];
         analysis := [];
         industry_classification := [];
         reasoning := [] |}
  end.



(** ** The fallback classifier *)

(** A word character for [\b]: a letter, a digit, the underscore; a byte
    above 127 counts as one (it is part of an encoded letter). *)
Definition is_word (c : ascii) : bool :=
  let n := nat_of_ascii c in
  ((48 <=? n) && (n <=? 57)) || ((65 <=? n) && (n <=? 90))
  || ((97 <=? n) && (n <=? 122)) || (n =? 95) || (128 <=? n).

Definition word_at (c : option ascii) : bool :=
  match c with Some x => is_word x | None => false end.

(** [\b] between two neighbours. *)
Definition boundary (before after : option ascii) : bool :=
  xorb (word_at before) (word_at after).

(** [re.search(r'\b(a1|a2|...)\b', text)] as a truth value, the
    alternatives being plain words: some alternative stands at some position
    with a word boundary on either side. *)
Fixpoint word_search_from (before : option ascii) (alts : list str) (s : str)
  : bool :=
  existsb (fun a =>
             startswith a s
             && boundary before (hd_error s)
             && boundary (last (map Some a) before)
                         (hd_error (skipn (length a) s)))
          alts
  || match s with
     | [] => false
     | c :: t => word_search_from (Some c) alts t
     end.

Definition word_search (alts : list str) (text : str) : bool :=
  word_search_from None alts text.

(** The alternatives of a pattern, written as in the source. *)
Definition alts (p : string) : list str := split_on "|"%char (py p).

(** [7[\s-]?eleven]: nothing, a dash or one white-space character between. *)
Definition seven_eleven : list str :=
  py "7eleven"
  :: map (fun c => py "7" ++ [c] ++ py "eleven")
         ("-"%char :: map ascii_of_nat [9; 10; 11; 12; 13; 28; 29; 30; 31; 32]%nat).

Definition pattern_match := (str * str * Q)%type.

Definition pm (c d : string) (q : Q) : pattern_match := (py c, py d, q).

(** Lines 570-625, in order. *)
Definition patterns : list (list str * pattern_match) :=
  [ (alts "restaurant|cafe|café|coffee|bistro|pizzeria|grill|diner|eatery|food",
     pm "5812" "Eating places and Restaurants" 0.9);
    (alts "fast food|burger|taco|sandwich|sub|quick",
     pm "5814" "Fast Food Restaurants" 0.9);
    (alts "grocery|market|supermarket|food store|supermercado|groceries",
     pm "5411" "Grocery Stores, Supermarkets" 0.9);
    (alts "convenience|mini mart" ++ seven_eleven ++ alts "corner store",
     pm "5499" "Misc. Food Stores – Convenience Stores and Specialty Markets" 0.85);
    (alts "electronics|computer|laptop|phone|mobile|tech|digital",
     pm "5732" "Electronics Sales" 0.85);
    (alts "clothing|apparel|fashion|wear|dress|outfit|garment",
     pm "5651" "Family Clothing Stores" 0.85);
    (alts "hardware|tool|diy|home improvement",
     pm "5251" "Hardware Stores" 0.85);
    (alts "furniture|home furnishing|mattress|bed|sofa|couch",
     pm "5712" "Furniture, Home Furnishings, and Equipment Stores, Except Appliances" 0.85);
    (alts "department store|general store|variety|walmart|target",
     pm "5311" "Department Stores" 0.85);
    (alts "shoe|footwear|sneaker|boot",
     pm "5661" "Shoe Stores" 0.9);
    (alts "salon|barber|hair|beauty|nail|spa",
     pm "7230" "Barber and Beauty Shops" 0.9);
    (alts "repair|fix|mend|service",
     pm "7699" "Repair Shops and Related Services –Miscellaneous" 0.8);
    (alts "auto|car|vehicle|mechanic|automotive",
     pm "7538" "Automotive Service Shops" 0.9);
    (alts "hotel|motel|inn|lodging|accommodation",
     pm "7011" "Lodging – Hotels, Motels, Resorts" 0.9);
    (alts "clean|cleaning|janitorial|maid|wash|laundry",
     pm "7349" "Cleaning and Maintenance, Janitorial Services" 0.85);
    (alts "doctor|physician|medical|clinic|health|healthcare",
     pm "8011" "Doctors and Physicians" 0.9);
    (alts "dentist|dental|orthodont|teeth|tooth",
     pm "8021" "Dentists and Orthodontists" 0.9);
    (alts "law|attorney|legal|lawyer|advocate",
     pm "8111" "Legal Services, Attorneys" 0.9);
    (alts "consult|consulting|advisor|counsel",
     pm "7392" "Management, Consulting, and Public Relations Services" 0.8);
    (alts "insurance|insure|policy|coverage",
     pm "6300" "Insurance Sales, Underwriting and Premiums" 0.85);
    (alts "pet|animal|dog|cat|bird",
     pm "5995" "Pet Shops, Pet Foods, and Supplies Stores" 0.9);
    (alts "book|comic|magazine|publication",
     pm "5942" "Bookstores" 0.9);
    (alts "pharmacy|drug|prescription|medicine|pharmaceutical",
     pm "5912" "Drug Stores and Pharmacies" 0.9);
    (alts "toy|game|hobby|play",
     pm "5945" "Hobby, Toy, and Game Shops" 0.85) ].

(** Lines 670-706, in order. *)
Definition keyword_map : list (str * (str * str)) :=
  map (fun t => (py (fst (fst t)), (py (snd (fst t)), py (snd t))))
  [ ("restaurant", "5812", "Eating places and Restaurants");
    ("café", "5812", "Eating places and Restaurants");
    ("cafe", "5812", "Eating places and Restaurants");
    ("coffee", "5812", "Eating places and Restaurants");
    ("pizza", "5812", "Eating places and Restaurants");
    ("food", "5499", "Misc. Food Stores – Convenience Stores and Specialty Markets");
    ("grocery", "5411", "Grocery Stores, Supermarkets");
    ("market", "5411", "Grocery Stores, Supermarkets");
    ("supermarket", "5411", "Grocery Stores, Supermarkets");
    ("electronics", "5732", "Electronics Sales");
    ("computer", "5045", "Computers, Computer Peripheral Equipment, Software");
    ("software", "5045", "Computers, Computer Peripheral Equipment, Software");
    ("hardware", "5251", "Hardware Stores");
    ("clothing", "5651", "Family Clothing Stores");
    ("apparel", "5699", "Miscellaneous Apparel and Accessory Shops");
    ("fashion", "5699", "Miscellaneous Apparel and Accessory Shops");
    ("shoe", "5661", "Shoe Stores");
    ("footwear", "5661", "Shoe Stores");
    ("salon", "7230", "Barber and Beauty Shops");
    ("spa", "7298", "Health and Beauty Shops");
    ("beauty", "7298", "Health and Beauty Shops");
    ("barber", "7230", "Barber and Beauty Shops");
    ("hair", "7230", "Barber and Beauty Shops");
    ("doctor", "8011", "Doctors and Physicians");
    ("medical", "8099", "Medical Services and Health Practitioners");
    ("dentist", "8021", "Dentists and Orthodontists");
    ("dental", "8021", "Dentists and Orthodontists");
    ("clean", "7349", "Cleaning and Maintenance, Janitorial Services");
    ("repair", "7699", "Repair Shops and Related Services –Miscellaneous");
    ("auto", "7538", "Automotive Service Shops");
    ("car", "7538", "Automotive Service Shops");
    ("hotel", "7011", "Lodging – Hotels, Motels, Resorts");
    ("motel", "7011", "Lodging – Hotels, Motels, Resorts");
    ("pet", "5995", "Pet Shops, Pet Foods, and Supplies Stores");
    ("toy", "5945", "Hobby, Toy, and Game Shops") ]%string.

Definition double_quote : ascii := ascii_of_nat 34.

Definition quoted (s : str) : str := [double_quote] ++ s ++ [double_quote].

(** [full_merchant_data]: the two names and the keyword arguments. *)
Record full_merchant_data := {
  merchant_name : str;
  legal_name : option str;
  data : merchant_data
}.

(** [self.client.chat.completions.create(...)] followed by
    [response.choices[0].message.content]: the call raises, or the reply has
    no first choice to read, or it carries a content, text or [None]. *)
Inductive completion :=
| Raises
| NoChoice
| Content (text : option str).

Record Client := {
  create : str -> full_merchant_data -> completion   (* model, prompt data *)
}.

Record Agent := {
  mcc_data : dict mcc_entry;
  client : option Client
}.

(** [_fallback_classify(merchant_data)]. *)
Definition _fallback_classify (ag : Agent) (fmd : full_merchant_data) : result :=
  let merchant_name := merchant_name fmd in
  let original_mcc :=
    match original_mcc_code (data fmd) with Some c => c | None => [] end in
  if truthy original_mcc && has_key original_mcc (mcc_data ag) then
    {| mcc_code := Some original_mcc;
       mcc_description :=
         match get original_mcc (mcc_data ag) with
         | Some e => description e
         | None => []
         end;
       confidence := 0.7;
       alternative_mccs :=
         [ mk_alt "5999" "Miscellaneous and Specialty Retail Stores" 0.3;
           mk_alt "7299" "Miscellaneous Personal Services" 0.2 ];
       industry_classification := _determine_industry original_mcc;
       analysis := py "Using provided original MCC code";
       reasoning := py "Classification based on original MCC code" |}
  else
    let merchant_name_lower := lower merchant_name in
    let legal_name_lower :=
      match legal_name fmd with
      | Some l => if truthy l then lower l else []
      | None => []
      end in
    let combined_text := merchant_name_lower ++ py " " ++ legal_name_lower in
    let pattern_matches :=
      map snd (filter (fun p => word_search (fst p) combined_text) patterns) in
    match sort_desc (fun x y => Qlt_bool (snd x) (snd y)) pattern_matches with
    | top_match :: others =>
        let top_code := fst (fst top_match) in
        let alternatives :=
          map (fun m : pattern_match =>
                 {| alt_mcc_code := fst (fst m);
                    alt_mcc_description := snd (fst m);
                    alt_confidence := snd m - 0.2;
                    alt_explanation := None |})
              (firstn 2 others) in
        (* the [while] loop of lines 643-657 runs its body at most once *)
        let alternatives :=
          if (length alternatives <? 2)%nat then
            if negb (str_eqb top_code (py "5999")) then
              alternatives
              ++ [mk_alt "5999" "Miscellaneous and Specialty Retail Stores" 0.3]
            else
              alternatives
              ++ [mk_alt "7299" "Miscellaneous Personal Services" 0.3]
          else alternatives in
        {| mcc_code := Some top_code;
           mcc_description := snd (fst top_match);
           confidence := snd top_match;
           alternative_mccs := alternatives;
           industry_classification := _determine_industry top_code;
           analysis := py "Identified business type from name patterns";
           reasoning :=
             py "Pattern matching identified keywords related to "
             ++ snd (fst top_match) |}
    | [] =>
        match find (fun k => contains (fst k) combined_text) keyword_map with
        | Some (keyword, (mcc, desc)) =>
            {| mcc_code := Some mcc;
               mcc_description := desc;
               confidence := 0.7;
               alternative_mccs :=
                 [ mk_alt "5999" "Miscellaneous and Specialty Retail Stores" 0.3;
                   mk_alt "7299" "Miscellaneous Personal Services" 0.2 ];
               industry_classification := _determine_industry mcc;
               analysis :=
                 py "Found keyword " ++ quoted keyword ++ py " in merchant name";
               reasoning :=
                 py "Keyword matching identified " ++ quoted keyword
                 ++ py " related to " ++ desc |}
        | None =>
            if contains (py " ") merchant_name
               && (2 <? length (hd [] (split_on " "%char merchant_name)))%nat
            then
              {| mcc_code := Some (py "7299");
                 mcc_description := py "Miscellaneous Personal Services";
                 confidence := 0.6;
                 alternative_mccs :=
                   [ mk_alt "5999" "Miscellaneous and Specialty Retail Stores" 0.3;
                     mk_alt "7399" "Business Services" 0.2 ];
                 industry_classification := py "Services";
                 analysis :=
                   py "Unable to identify specific business type from name";
                 reasoning :=
                   py "Name suggests a personal or professional service business" |}
            else
              {| mcc_code := Some (py "5999");
                 mcc_description :=
                   py "Miscellaneous and Specialty Retail Stores";
                 confidence := 0.6;
                 alternative_mccs :=
                   [ mk_alt "7299" "Miscellaneous Personal Services" 0.3;
                     mk_alt "7399" "Business Services" 0.2 ];
                 industry_classification := py "Retail/Merchants";
                 analysis :=
                   py "Unable to identify specific business type from name";
                 reasoning :=
                   py "Defaulting to retail classification based on statistical prevalence" |}
        end
    end.

Definition gpt_4o : str := py "gpt-4o".
Definition gpt_4 : str := py "gpt-4".
Definition gpt_35_turbo : str := py "gpt-3.5-turbo".

(** Lines 811-842: the request, sent to up to three models in turn. *)
Definition request_completion (cl : Client) (fmd : full_merchant_data)
  : M completion :=
  tell (ServiceCall gpt_4o) ;;;
  match create cl gpt_4o fmd with
  | Raises =>
      tell (ServiceCall gpt_4) ;;;
      match create cl gpt_4 fmd with
      | Raises =>
          tell (ServiceCall gpt_35_turbo) ;;;
          ret (create cl gpt_35_turbo fmd)
      | r => ret r
      end
  | r => ret r
  end.

(** [classify(merchant_name, legal_name, **merchant_data)]. *)
Definition classify (ag : Agent) (merchant_name : str)
    (legal_name : option str) (md : merchant_data) : M result :=
  let full_merchant_data :=
    {| merchant_name := merchant_name; legal_name := legal_name; data := md |} in
  match client ag with
  | None => ret (_fallback_classify ag full_merchant_data)
  | Some cl =>
      response <- request_completion cl full_merchant_data ;;
      match response with
      | Content response_text =>
          ret (_parse_gpt_response (mcc_data ag) response_text)
      | Raises | NoChoice => ret (_fallback_classify ag full_merchant_data)
      end
  end.

End Waki.

(* ================================================================== *)
(** * The one-prompt strategy ([RafaAgent]) *)

Module Rafa.

Open Scope Q_scope.

(** [self.mcc_data]: the same literal as the tiered strategy's built-in
    table. *)
Definition mcc_data : dict str := Matheus.default_mcc_data.

Record Client := {
  create : Waki.full_merchant_data -> Waki.completion
}.

Record Agent := { client : option Client }.

Record decision := {
  mcc_code : str;
  mcc_description : str;
  confidence : Q;
  alternative_mccs : list alternative;
  analysis : str;
  industry_classification : option str;
  reasoning : option str
}.

(** [s.replace(pat, "")] for a non-empty [pat]; [skip] counts the characters
    of an occurrence still to be dropped. *)
Fixpoint remove_all_from (pat : str) (skip : nat) (s : str) : str :=
  match s with
  | [] => []
  | c :: t =>
      match skip with
      | S k => remove_all_from pat k t
      | O => if startswith pat s
             then remove_all_from pat (length pat - 1) t
             else c :: remove_all_from pat 0 t
      end
  end.

Definition remove_all (pat s : str) : str := remove_all_from pat 0 s.

(** The loop of lines 177-184 over the stripped lines. *)
Fixpoint read_lines (lines : list str) (acc : str * str * str)
  : str * str * str :=
  match lines with
  | [] => acc
  | raw :: rest =>
      let line := strip raw in
      let '(analysis, suggested_mcc, suggested_description) := acc in
      let field (label : str) := strip (remove_all label line) in
      read_lines rest
        (if startswith (py "1. Analysis:") line
         then (field (py "1. Analysis:"), suggested_mcc, suggested_description)
         else if startswith (py "2. Suggested MCC:") line
         then (analysis, field (py "2. Suggested MCC:"), suggested_description)
         else if startswith (py "3. Suggested Description:") line
         then (analysis, suggested_mcc, field (py "3. Suggested Description:"))
         else acc)
  end.

(** [_parse_openai_response(response_text)]: analysis, code, description. *)
Definition _parse_openai_response (response_text : option str)
  : str * str * str :=
  match response_text with
  | None =>
      (py "Error analyzing merchant: 'NoneType' object has no attribute 'strip'",
       py "7299", py "Other Services")
  | Some text =>
      let lines := split_on newline (strip text) in
      let '(analysis, suggested_mcc, suggested_description) :=
        read_lines lines ([], [], []) in
      let '(suggested_mcc, suggested_description) :=
        if str_eqb (lower suggested_mcc) (py "same")
        then (py "7299", py "Other Services")
        else (suggested_mcc, suggested_description) in
      let suggested_mcc := filter is_digit suggested_mcc in
      if truthy suggested_mcc
      then (analysis, suggested_mcc, suggested_description)
      else (py "Unable to determine specific MCC from business name.",
            py "7299", py "Other Services")
  end.

(** [_determine_industry(mcc)]: the same function as the tiered strategy's. *)
Definition _determine_industry (mcc : str) : str :=
  Matheus._determine_industry mcc.

Definition candidate := (str * str * Q)%type.

(** Lines 329-335: one entry per code, at the place of its first
    occurrence, with the highest score met. *)
Fixpoint unique_candidates (cs : list candidate) (seen : dict (str * Q))
  : dict (str * Q) :=
  match cs with
  | [] => seen
  | (mcc, description, score) :: rest =>
      unique_candidates rest
        (match get mcc seen with
         | None => set mcc (description, score) seen
         | Some (_, old) =>
             if Qlt_bool old score then set mcc (description, score) seen
             else seen
         end)
  end.

(** [_generate_alternatives(primary_mcc, merchant_name)]. *)
Definition _generate_alternatives (primary_mcc merchant_name : str)
  : list alternative :=
  let merchant_lower := lower merchant_name in
  let others :=
    filter (fun p => negb (str_eqb (fst p) primary_mcc)) mcc_data in
  let by_keyword : list candidate :=
    map (fun c => (fst (fst c), snd (fst c), inject_Z (Z.of_nat (snd c))))
      (filter (fun c => 0 <? snd c)%nat
         (map (fun p => (fst p, snd p, keyword_score (snd p) merchant_lower))
              others)) in
  let by_category : list candidate :=
    if (2 <=? length primary_mcc)%nat then
      map (fun p => (fst p, snd p, 0.5))
          (filter (fun p => startswith (firstn 2 primary_mcc) (fst p)) others)
    else [] in
  let candidates := by_keyword ++ by_category in
  let generic (c d : str) : list candidate :=
    if str_eqb primary_mcc c then [] else [(c, d, 0)] in
  let candidates :=
    if (length candidates <? 2)%nat
    then candidates ++ generic (py "7299") (py "Other Services")
                    ++ generic (py "5399") (py "Other Retail")
                    ++ generic (py "7399") (py "Other B2B Services")
    else candidates in
  let candidates : list candidate :=
    map (fun kv => (fst kv, fst (snd kv), snd (snd kv)))
        (unique_candidates candidates []) in
  let candidates :=
    sort_desc (fun x y : candidate => Qlt_bool (snd x) (snd y)) candidates in
  map (fun c : candidate =>
         let base_confidence := 0.3 in
         let score_factor := py_min 0.4 (snd c * 0.1) in
         {| alt_mcc_code := fst (fst c);
            alt_mcc_description := snd (fst c);
            alt_confidence := round2 (base_confidence + score_factor);
            alt_explanation :=
              Some (py "Alternative classification based on merchant name similarity") |})
      (firstn 2 candidates).

(** [_fallback_classify(merchant_data)]. *)
Definition _fallback_classify (fmd : Waki.full_merchant_data) : decision :=
  let merchant_lower := lower (Waki.merchant_name fmd) in
  let legal_name_lower :=
    match Waki.legal_name fmd with
    | Some l => if truthy l then lower l else []
    | None => []
    end in
  let combined_text := merchant_lower ++ py " " ++ legal_name_lower in
  let mcc_scores :=
    filter (fun p => 0 <? snd p)%nat
      (map (fun p => (fst p, keyword_score (snd p) combined_text)) mcc_data) in
  match mcc_scores with
  | [] =>
      {| mcc_code := py "7299";
         mcc_description := py "Other Services";
         confidence := 0.50;
         alternative_mccs :=
           [ mk_alt "5399" "Other Retail" 0.2;
             mk_alt "7399" "Other B2B Services" 0.15 ];
         analysis := py "No clear business category identified from name. Using generic service category.";
         industry_classification := None;
         reasoning := None |}
  | first :: others =>
      let top := max_by_score first others in
      let top_mcc := fst top in
      let description := Matheus.item mcc_data top_mcc in
      let ranked :=
        sort_desc (fun x y : str * nat => snd x <? snd y)%nat mcc_scores in
      let alternatives :=
        map (fun p : str * nat =>
               {| alt_mcc_code := fst p;
                  alt_mcc_description := Matheus.item mcc_data (fst p);
                  alt_confidence :=
                    py_min 0.6 (0.3 + inject_Z (Z.of_nat (snd p)) * 0.1);
                  alt_explanation := None |})
            (firstn 2 (filter (fun p => negb (str_eqb (fst p) top_mcc)) ranked)) in
      let alternatives :=
        if (length alternatives <? 2)%nat then
          if negb (str_eqb top_mcc (py "7299"))
          then alternatives ++ [mk_alt "7299" "Other Services" 0.2]
          else alternatives ++ [mk_alt "5399" "Other Retail" 0.2]
        else alternatives in
      {| mcc_code := top_mcc;
         mcc_description := description;
         confidence := py_min 0.85 (0.5 + inject_Z (Z.of_nat (snd top)) * 0.1);
         alternative_mccs := alternatives;
         analysis :=
           py "Based on business name, classified as " ++ description ++ py ".";
         industry_classification := None;
         reasoning := None |}
  end.

Definition gpt_4_turbo : str := py "gpt-4-turbo".

(** [classify_with_openai(merchant_data)]. *)
Definition classify_with_openai (ag : Agent) (fmd : Waki.full_merchant_data)
  : M decision :=
  match client ag with
  | None => ret (_fallback_classify fmd)
  | Some cl =>
      tell (ServiceCall gpt_4_turbo) ;;;
      match create cl fmd with
      | Waki.Content response_text =>
          let '(analysis, suggested_mcc, suggested_description) :=
            _parse_openai_response response_text in
          let low := lower analysis in
          let confidence :=
            if contains (py "unclear") low || contains (py "ambiguous") low
            then 0.7
            else if contains (py "strongly") low || contains (py "clearly") low
            then 0.95
            else 0.85 in
          ret {| mcc_code := suggested_mcc;
                 mcc_description := suggested_description;
                 confidence := confidence;
                 alternative_mccs :=
                   _generate_alternatives suggested_mcc (Waki.merchant_name fmd);
                 analysis := analysis;
                 industry_classification :=
                   Some (_determine_industry suggested_mcc);
                 reasoning :=
                   Some (py "Classification based on merchant name analysis.") |}
      | Waki.Raises | Waki.NoChoice => ret (_fallback_classify fmd)
      end
  end.

Definition default_decision : decision :=
  {| mcc_code := py "7299";
     mcc_description := py "Other Services";
     confidence := 0.5;
     alternative_mccs :=
       [ mk_alt "5399" "Other Retail" 0.3;
         mk_alt "7399" "Other B2B Services" 0.2 ];
     industry_classification := Some (py "Services");
     analysis := py "No merchant name provided.";
     reasoning :=
       Some (py "Default classification due to missing merchant name.") |}.

(** [classify(merchant_name, legal_name, **merchant_data)]. *)
Definition classify (ag : Agent) (merchant_name : str)
    (legal_name : option str) (md : merchant_data) : M decision :=
  let full_merchant_data :=
    {| Waki.merchant_name := merchant_name;
       Waki.legal_name := legal_name;
       Waki.data := md |} in
  if negb (truthy (strip merchant_name)) then ret default_decision
  else classify_with_openai ag full_merchant_data.

End Rafa.

(* ================================================================== *)
(** * What the harness counts *)

Module Tally.

Import Evaluator.

(** The test of line 113 on what the strategy returns for the record. *)
Definition agrees (pass_full_data : bool) (ag : agent) (merchant : dict str)
  : bool :=
  match call_classify pass_full_data ag merchant with
  | inr res =>
      match r_mcc_code res with
      | Some code =>
          str_eqb (strip code) (strip (field merchant "Actual MCC code"))
      | None => false
      end
  | inl _ => false
  end.

(** The record is not passed over and the body of the strategy's [try]
    runs to its end for it. *)
Definition counted (pass_full_data : bool) (ag : agent) (merchant : dict str)
  : bool :=
  negb (skipped merchant) && negb (raises pass_full_data ag merchant).

(** The record is counted as an answer and as a correct one. *)
Definition hit (pass_full_data : bool) (ag : agent) (merchant : dict str)
  : bool :=
  counted pass_full_data ag merchant && agrees pass_full_data ag merchant.

(** The four columns of lines 74-79. *)
Definition base_cols : list str :=
  [py "Merchant Name"; py "Legal Name"; py "Actual MCC"; py "MCC Description"].

(** Counters that make sense: no more correct answers than answers. *)
Definition plausible (c : counters) : Prop := (correct c <= total c)%nat.

Definition tallied (m : metrics) : Prop :=
  Forall (fun kv => plausible (snd kv)) m.

End Tally.

(* ================================================================== *)
(** * The ladder of the tiered strategy *)

Module Escalation.

Import Matheus.

(** The three tiers in the order [classify] goes through them. *)
Definition ladder : list tier := [TIER_1; TIER_RISK; TIER_FULL].

(** What a tier method logs: its invocation and, when the agent has a
    client, the one request it sends. *)
Definition tier_log (ag : Agent) (t : tier) : list event :=
  TierInvoked t ::
  match client ag with
  | Some _ => [ServiceCall o3_mini]
  | None => []
  end.

(** The test of line 697 (and 727) on a tier's dictionary. *)
Definition vague (t : tier_dict) : Prop :=
  In (suggested_mcc t) catch_all_mccs /\ (confidence t < 0.98)%Q.

End Escalation.

(* ================================================================== *)
(** * Order of a list sorted by decreasing key *)

(** [x] may stand before [y] in a list sorted with [lt]: its key is not
    strictly below the key of [y]. *)
Definition may_precede {A : Type} (lt : A -> A -> bool) (x y : A) : Prop :=
  lt x y = false.

(* ================================================================== *)
(** * Codes of four digits, and the models of the single-call strategy *)

Module Codes.

(** Exactly four decimal digits. *)
Definition four_digits (c : str) : bool :=
  (length c =? 4)%nat && forallb is_digit c.

(** The models [WakiAgent.classify] turns to, in the order of lines
    811-842. *)
Definition models : list str :=
  [Waki.gpt_4o; Waki.gpt_4; Waki.gpt_35_turbo].

End Codes.

(* ================================================================== *)
(** * The factory and the strategies as the harness calls them
      ([AgentFactory], [MCCClassifierAgent]) *)

Module AgentFactory.

Open Scope Q_scope.

(** An instance of one of the three classes, with what its constructor
    built: the code table where the class loads one, and the client. *)
Inductive strategy :=
| RafaAgent (a : Rafa.Agent)
| MatheusAgent (a : Matheus.Agent)
| WakiAgent (a : Waki.Agent).

(** [self.name], as each constructor passes it to
    [MCCClassifierAgent.__init__]. *)
Definition name (s : strategy) : str :=
  match s with
  | RafaAgent _ => py "Rafa"
  | MatheusAgent _ => py "Matheus"
  | WakiAgent _ => py "Waki"
  end.

(** What the three constructors make of the environment (the key of the
    service, the file of codes) at the time they are called. *)
Record environment := {
  rafa : Rafa.Agent;
  matheus : Matheus.Agent;
  waki : Waki.Agent
}.

(** [AgentFactory.create_agent(agent_type)]: the instance, or the message
    of the [ValueError]. *)
Definition create_agent (env : environment) (agent_type : str)
  : str + strategy :=
  let agent_type := lower agent_type in
  if str_eqb agent_type (py "rafa") then inr (RafaAgent (rafa env))
  else if str_eqb agent_type (py "matheus")
  then inr (MatheusAgent (matheus env))
  else if str_eqb agent_type (py "waki") then inr (WakiAgent (waki env))
  else inl (py "Unsupported agent type: " ++ agent_type).

(** [AgentFactory.create_all_agents()]. *)
Definition create_all_agents (env : environment) : list strategy :=
  [RafaAgent (rafa env); MatheusAgent (matheus env); WakiAgent (waki env)].

(** [MCCClassifierAgent.get_performance_metrics(correct, total)]. *)
Record agent_metrics := {
  agent_name : str;
  accuracy : Q;
  correct_classifications : Z;
  total_classifications : Z
}.

Definition get_performance_metrics (s : strategy)
    (correct_classifications total_classifications : Z) : agent_metrics :=
  {| agent_name := name s;
     accuracy :=
       if (0 <? total_classifications)%Z
       then inject_Z correct_classifications / inject_Z total_classifications
       else 0;
     correct_classifications := correct_classifications;
     total_classifications := total_classifications |}.

(** The keyword arguments of a call, as [**merchant_data] hands them to the
    body of [classify]. *)
Definition merchant_data_of (keywords : dict str) : merchant_data :=
  {| original_mcc_code := get (py "original_mcc_code") keywords;
     prior_mcc_description := get (py "mcc_description") keywords;
     ai_original_description := get (py "ai_original_description") keywords;
     extra := keywords |}.

(** A keyword named like a parameter that the call fills by position:
    binding the arguments of [classify(self, merchant_name, legal_name=None,
    **merchant_data)] raises [TypeError]. *)
Definition clashes (keywords : dict str) : bool :=
  has_key (py "self") keywords
  || has_key (py "merchant_name") keywords
  || has_key (py "legal_name") keywords.

(** [agent.classify(merchant_name, legal_name)] and
    [agent.classify(merchant_name, legal_name, **additional_data)], as the
    harness calls them: the three keys it reads from the dictionary
    returned.  The service calls of the strategy are not the harness's
    concern; the text of the [TypeError] is read nowhere.  A code [None],
    which the single-call strategy never returns, would be compared as the
    text [str(None)]. *)
Definition classify (s : strategy) (merchant_name legal_name : str)
    (keywords : option (dict str)) : Evaluator.exn + Evaluator.result :=
  let bound :=
    match keywords with
    | Some kw =>
        if clashes kw then None else Some (merchant_data_of kw)
    | None => Some no_merchant_data
    end in
  match bound with
  | None =>
      inl (Evaluator.TypeError
             (py "classify() got multiple values for argument"))
  | Some md =>
      inr
        match s with
        | RafaAgent a =>
            let d := value (Rafa.classify a merchant_name (Some legal_name) md) in
            {| Evaluator.r_mcc_code := Some (Rafa.mcc_code d);
               Evaluator.r_mcc_description := Some (Rafa.mcc_description d);
               Evaluator.r_confidence := Some (Rafa.confidence d) |}
        | MatheusAgent a =>
            let d :=
              value (Matheus.classify a merchant_name (Some legal_name) md) in
            {| Evaluator.r_mcc_code := Some (Matheus.mcc_code d);
               Evaluator.r_mcc_description := Some (Matheus.mcc_description d);
               Evaluator.r_confidence := Some (Matheus.d_confidence d) |}
        | WakiAgent a =>
            let d := value (Waki.classify a merchant_name (Some legal_name) md) in
            {| Evaluator.r_mcc_code :=
                 Some (match Waki.mcc_code d with
                       | Some c => c
                       | None => py "None"
                       end);
               Evaluator.r_mcc_description := Some (Waki.mcc_description d);
               Evaluator.r_confidence := Some (Waki.confidence d) |}
        end
  end.



End AgentFactory.

(* ================================================================== *)
(** * Sample agents, services and replies *)

Module Samples.

Open Scope Q_scope.

(** A tier-1 reply naming a catch-all code with confidence 0.9 and asking
    for no further search. *)
Definition catch_all_reply : Matheus.Tier1Result :=
  {| Matheus.t1_suggested_mcc := py "7299";
     Matheus.t1_mcc_suggestion_description := py "Other Services";
     Matheus.t1_analysis := [py "Generic services."];
     Matheus.t1_confidence := 0.9;
     Matheus.t1_requires_full_search := false;
     Matheus.t1_is_non_descriptive := false;
     Matheus.t1_may_be_high_risk := false;
     Matheus.t1_suspicious_classification := false |}.

(** A tier-1 reply that finds the name to be the owner's. *)
Definition owner_name_reply : Matheus.Tier1Result :=
  {| Matheus.t1_suggested_mcc := py "7230";
     Matheus.t1_mcc_suggestion_description := py "Salons & Barbers";
     Matheus.t1_analysis := [py "The merchant name is the owner's name."];
     Matheus.t1_confidence := 0.4;
     Matheus.t1_requires_full_search := false;
     Matheus.t1_is_non_descriptive := true;
     Matheus.t1_may_be_high_risk := false;
     Matheus.t1_suspicious_classification := false |}.


Definition risk_reply : Matheus.RiskTierResult :=
  {| Matheus.rt_suggested_mcc := py "7399";
     Matheus.rt_mcc_suggestion_description := py "Other B2B Services";
     Matheus.rt_analysis := [py "Nothing specific."];
     Matheus.rt_confidence := 0.8;
     Matheus.rt_risk_level := py "approved";
     Matheus.rt_requires_full_search := false;
     Matheus.rt_suspicious_classification := false |}.

Definition full_reply : Matheus.MCCClassification :=
  {| Matheus.mc_suggested_mcc := py "7230";
     Matheus.mc_mcc_suggestion_description := py "Salons & Barbers";
     Matheus.mc_analysis := [py "A hair salon."];
     Matheus.mc_confidence := 0.9;
     Matheus.mc_suspicious_classification := false |}.

Definition client_answering (r : Matheus.Tier1Result) : Matheus.Client :=
  {| Matheus.parse_tier1 := fun _ => Some r;
     Matheus.parse_risk_tier := fun _ _ => Some risk_reply;
     Matheus.parse_tier3 := fun _ _ => Some full_reply |}.

Definition tiered_agent (r : Matheus.Tier1Result) : Matheus.Agent :=
  {| Matheus.mcc_data := Matheus.default_mcc_data;
     Matheus.client := Some (client_answering r) |}.

Definition offline_tiered_agent : Matheus.Agent :=
  {| Matheus.mcc_data := Matheus.default_mcc_data;
     Matheus.client := None |}.


(** Two strategies for the harness: one always answers 5411, one always
    fails. *)
Definition grocer : Evaluator.agent :=
  {| Evaluator.name := py "Agent1";
     Evaluator.classify := fun _ _ _ =>
       inr {| Evaluator.r_mcc_code := Some (py "5411");
              Evaluator.r_mcc_description := Some (py "Grocery Stores");
              Evaluator.r_confidence := Some 0.9 |} |}.

Definition broken : Evaluator.agent :=
  {| Evaluator.name := py "Agent2";
     Evaluator.classify := fun _ _ _ =>
       inl (Evaluator.OtherError (py "service unavailable")) |}.

Definition record (merchant legal actual description : string) : dict str :=
  [ (py "Merchant Name", py merchant); (py "Legal Name", py legal);
    (py "Actual MCC code", py actual); (py "MCC Description", py description) ].

Definition merchant1 := record "Merchant1" "Legal1" "5411" "Grocery Stores".
Definition merchant2 := record "Merchant2" "Legal2" "5812" "Restaurants".
Definition nameless := record "" "Legal3" "5411" "Grocery Stores".








(** A service for the single-call strategy that always names 5812, and the
    agents with and without it. *)
Definition restaurant_service : Waki.Client :=
  {| Waki.create := fun _ _ => Waki.Content (Some (py "Primary MCC: 5812")) |}.

Definition online_single_call_agent : Waki.Agent :=
  {| Waki.mcc_data := Waki.fallback_mcc_data;
     Waki.client := Some restaurant_service |}.

Definition offline_single_call_agent : Waki.Agent :=
  {| Waki.mcc_data := Waki.fallback_mcc_data; Waki.client := None |}.

Definition blank : str := py "   ".


End Samples.

(* ================================================================== *)
(** * More sample replies *)

Module Cases.

Open Scope Q_scope.

(** A tier-1 reply that doubts the prior code and is not sure of its own. *)
Definition suspicious_reply : Matheus.Tier1Result :=
  {| Matheus.t1_suggested_mcc := py "5999";
     Matheus.t1_mcc_suggestion_description := py "Miscellaneous Retail";
     Matheus.t1_analysis := [py "The prior code does not fit the name."];
     Matheus.t1_confidence := 0.5;
     Matheus.t1_requires_full_search := false;
     Matheus.t1_is_non_descriptive := false;
     Matheus.t1_may_be_high_risk := false;
     Matheus.t1_suspicious_classification := true |}.


End Cases.

(* ================================================================== *)
(** * Facts about strings, numbers and dictionaries *)

Section StringFacts.

Lemma str_eqb_eq (a b : str) : str_eqb a b = true <-> a = b.
Proof.
  unfold str_eqb. destruct (list_eq_dec ascii_dec a b); split; congruence.
Qed.

Lemma str_eqb_neq (a b : str) : str_eqb a b = false <-> a <> b.
Proof.
  unfold str_eqb. destruct (list_eq_dec ascii_dec a b); split; congruence.
Qed.

Lemma str_eqb_refl (a : str) : str_eqb a a = true.
Proof. apply str_eqb_eq. reflexivity. Qed.

Lemma mem_In (x : str) (xs : list str) : mem x xs = true <-> In x xs.
Proof.
  unfold mem. rewrite existsb_exists. split.
  - intros [y [Hy He]]. apply str_eqb_eq in He. subst. exact Hy.
  - intros H. exists x. split; [exact H | apply str_eqb_refl].
Qed.

End StringFacts.

Section NumberFacts.

Open Scope Q_scope.

Lemma Qlt_bool_iff (a b : Q) : Qlt_bool a b = true <-> a < b.
Proof.
  unfold Qlt_bool. rewrite negb_true_iff. split.
  - intros H. apply Qnot_le_lt. intros Hle.
    apply Qle_bool_iff in Hle. congruence.
  - intros H. destruct (Qle_bool b a) eqn:E; [|reflexivity].
    apply Qle_bool_iff in E. exfalso. exact (Qlt_not_le _ _ H E).
Qed.

Lemma Qlt_bool_false (a b : Q) : Qlt_bool a b = false <-> b <= a.
Proof.
  unfold Qlt_bool. rewrite negb_false_iff. apply Qle_bool_iff.
Qed.

Lemma py_min_le_l (a b : Q) : py_min a b <= a.
Proof.
  unfold py_min. destruct (Qlt_bool b a) eqn:E.
  - apply Qlt_le_weak, Qlt_bool_iff, E.
  - apply Qle_refl.
Qed.

Lemma py_min_glb (a b c : Q) : c <= a -> c <= b -> c <= py_min a b.
Proof. unfold py_min. destruct (Qlt_bool b a); auto. Qed.



End NumberFacts.

Section DictFacts.

Context {V : Type}.

Lemma get_set_same (k : str) (v : V) (d : dict V) :
  get k (set k v d) = Some v.
Proof.
  induction d as [|[k' v'] rest IH]; simpl.
  - rewrite str_eqb_refl. reflexivity.
  - destruct (str_eqb k k') eqn:E; simpl; rewrite E; auto.
Qed.

Lemma get_set_other (k k0 : str) (v : V) (d : dict V) :
  k0 <> k -> get k0 (set k v d) = get k0 d.
Proof.
  intros Hne. induction d as [|[k' v'] rest IH]; simpl.
  - apply str_eqb_neq in Hne. rewrite Hne. reflexivity.
  - destruct (str_eqb k k') eqn:E; simpl.
    + apply str_eqb_eq in E. subst k'.
      apply str_eqb_neq in Hne. rewrite Hne. reflexivity.
    + destruct (str_eqb k0 k'); auto.
Qed.

End DictFacts.

(* ================================================================== *)
(** * The tiered strategy: escalation *)

Module MatheusFacts.

Import Matheus.
Open Scope Q_scope.

(** The override leaves everything but the flag and the analysis alone. *)
Lemma override_keeps (t : tier_dict) :
  suggested_mcc (catch_all_override t) = suggested_mcc t
  /\ confidence (catch_all_override t) = confidence t
  /\ may_be_high_risk (catch_all_override t) = may_be_high_risk t
  /\ suspicious_classification (catch_all_override t)
     = suspicious_classification t.
Proof.
  unfold catch_all_override.
  destruct (mem (suggested_mcc t) catch_all_mccs && Qlt_bool (confidence t) 0.98);
    simpl; auto.
Qed.

Lemma override_fires (t : tier_dict) :
  In (suggested_mcc t) catch_all_mccs -> confidence t < 0.98 ->
  requires_full_search (catch_all_override t) = Some true.
Proof.
  intros Hin Hlt. unfold catch_all_override.
  apply mem_In in Hin. apply Qlt_bool_iff in Hlt.
  rewrite Hin, Hlt. reflexivity.
Qed.


Lemma risk_tier_trace (ag : Agent) (rq : request) (b : bool)
    (md : merchant_data) :
  In (TierInvoked TIER_RISK) (trace (_classify_risk_tier ag rq b md)).
Proof.
  unfold _classify_risk_tier. destruct (client ag) as [cl|]; simpl; auto.
  destruct (parse_risk_tier cl rq b); simpl; auto.
Qed.

Lemma tier3_trace (ag : Agent) (rq : request) (b : bool) (md : merchant_data) :
  In (TierInvoked TIER_FULL) (trace (_classify_tier3 ag rq b md)).
Proof.
  unfold _classify_tier3. destruct (client ag) as [cl|]; simpl; auto.
  destruct (parse_tier3 cl rq b); simpl; auto.
Qed.

Lemma trace_bind {A B : Type} (m : M A) (f : A -> M B) :
  trace (bind m f) = trace m ++ trace (f (value m)).
Proof.
  unfold bind, trace, value. destruct m as [a l1]. simpl.
  destruct (f a) as [b l2]. reflexivity.
Qed.

Lemma value_bind {A B : Type} (m : M A) (f : A -> M B) :
  value (bind m f) = value (f (value m)).
Proof.
  unfold bind, value. destruct m as [a l1]. simpl.
  destruct (f a) as [b l2]. reflexivity.
Qed.

(** C1.  A tier result whose suggested code is one of the six catch-all
    codes and whose confidence is below 0.98 has [requires_full_search] set
    to true by the override, whatever the tier reported; the override runs
    before either acceptance test, so that such a tier-1 result (of a
    descriptive name) sends the strategy on to the risk tier, and such a
    risk-tier result sends it on to the full tier. *)
Theorem catch_all_override_forces_full_search (t : tier_dict) :
  In (suggested_mcc t) catch_all_mccs ->
  confidence t < 0.98 ->
  requires_full_search (catch_all_override t) = Some true
  /\ (forall ag rq md,
        value (_classify_tier1 ag rq md) = t ->
        flag (is_non_descriptive t) = false ->
        In (TierInvoked TIER_RISK) (trace (tiers ag rq md)))
  /\ (forall ag rq md t1,
        value (_classify_tier1 ag rq md) = t1 ->
        flag (is_non_descriptive t1) = false ->
        tier1_accepted (catch_all_override t1) = false ->
        value (_classify_risk_tier ag rq (flag (may_be_high_risk t1)) md) = t ->
        In (TierInvoked TIER_FULL) (trace (tiers ag rq md))).
Proof.
  intros Hin Hlt.
  pose proof (override_fires t Hin Hlt) as Hfire.
  split; [exact Hfire|]. split.
  - intros ag rq md Ht Hnd. unfold tiers.
    rewrite trace_bind, Ht, Hnd.
    unfold tier1_accepted. rewrite Hfire. simpl.
    rewrite andb_false_r. simpl.
    apply in_or_app. right.
    rewrite trace_bind. apply in_or_app. left.
    apply risk_tier_trace.
  - intros ag rq md t1 Ht1 Hnd Hrej Ht. unfold tiers.
    rewrite trace_bind, Ht1, Hnd, Hrej.
    apply in_or_app. right.
    rewrite trace_bind. apply in_or_app. right.
    destruct (override_keeps t1) as [_ [_ [Hrisk _]]].
    rewrite Hrisk, Ht.
    unfold risk_tier_accepted. rewrite Hfire. simpl.
    rewrite trace_bind. apply in_or_app. left.
    apply tier3_trace.
Qed.

Lemma catch_all_override_witness :
  let t := of_tier1 Samples.catch_all_reply in
  let ag := Samples.tiered_agent Samples.catch_all_reply in
  let rq := request_of (py "Acme") None no_merchant_data in
  requires_full_search t = Some false
  /\ requires_full_search (catch_all_override t) = Some true
  /\ In (TierInvoked TIER_RISK) (trace (tiers ag rq no_merchant_data)).
Proof.
  intros t ag rq.
  assert (Hin : In (suggested_mcc t) catch_all_mccs)
    by (apply mem_In; reflexivity).
  assert (Hlt : confidence t < 0.98) by reflexivity.
  destruct (catch_all_override_forces_full_search t Hin Hlt) as [H1 [H2 _]].
  split; [reflexivity|]. split; [exact H1|].
  apply H2; reflexivity.
Defined.

Lemma tiers_trace_non_descriptive (ag : Agent) (rq : request)
    (md : merchant_data) :
  flag (is_non_descriptive (value (_classify_tier1 ag rq md))) = true ->
  trace (tiers ag rq md) = trace (_classify_tier1 ag rq md)
  /\ f_mcc_code (value (tiers ag rq md)) = rq_mcc rq
  /\ f_mcc_description (value (tiers ag rq md)) = rq_mcc_description rq
  /\ f_confidence (value (tiers ag rq md)) = 1.0.
Proof.
  intros Hnd. unfold tiers.
  rewrite trace_bind, value_bind, Hnd. simpl.
  rewrite app_nil_r. auto.
Qed.

Lemma classify_named (ag : Agent) (name : str) (legal : option str)
    (md : merchant_data) :
  truthy (strip name) = true ->
  let rq := request_of name legal md in
  trace (classify ag name legal md) = trace (tiers ag rq md)
  /\ value (classify ag name legal md)
     = finish ag name (rq_mcc rq) (value (tiers ag rq md)).
Proof.
  intros Hname rq. unfold classify. rewrite Hname. simpl.
  fold rq. rewrite trace_bind, value_bind. simpl.
  rewrite app_nil_r. auto.
Qed.




(** C10.  When tier 1 judges the name non-descriptive and the query holds no
    prior code, the decision carries the built-in code 5812 with confidence
    1.0, and the built-in description "Eating Places, Restaurants" when no
    prior description was supplied either; nothing is derived from the
    merchant name. *)
Theorem non_descriptive_without_prior_code (ag : Agent) (name : str)
    (legal : option str) (md : merchant_data) :
  truthy (strip name) = true ->
  original_mcc_code md = None ->
  flag (is_non_descriptive
          (value (_classify_tier1 ag (request_of name legal md) md))) = true ->
  let r := value (classify ag name legal md) in
  mcc_code r = py "5812"
  /\ d_confidence r = 1.0
  /\ (prior_mcc_description md = None ->
      mcc_description r = py "Eating Places, Restaurants").
Proof.
  intros Hname Hprior Hnd r. subst r.
  destruct (classify_named ag name legal md Hname) as [_ Hval].
  destruct (tiers_trace_non_descriptive _ _ _ Hnd) as [_ [Hc [Hd Hq]]].
  rewrite Hval. simpl. rewrite Hc, Hd, Hq.
  unfold request_of. simpl. rewrite Hprior.
  split; [reflexivity|]. split; [reflexivity|].
  intros Hnone. rewrite Hnone. reflexivity.
Qed.

Lemma non_descriptive_without_prior_code_witness :
  let ag := Samples.tiered_agent Samples.owner_name_reply in
  let r := value (classify ag (py "Maria Souza") None no_merchant_data) in
  mcc_code r = py "5812"
  /\ d_confidence r = 1.0
  /\ mcc_description r = py "Eating Places, Restaurants".
Proof.
  intros ag r.
  destruct (non_descriptive_without_prior_code ag (py "Maria Souza") None
              no_merchant_data) as [H1 [H2 H3]]; try reflexivity.
  split; [exact H1|]. split; [exact H2|]. apply H3. reflexivity.
Defined.


End MatheusFacts.

(* ================================================================== *)
(** * The evaluation harness: skipped records and failing strategies *)

Module EvaluatorFacts.

Import Evaluator.
Open Scope Q_scope.


Lemma run_app (pass : bool) (agents : list agent) (pre post : list (dict str)) :
  run pass agents (pre ++ post)
  = fold_left (process_merchant pass agents) post (run pass agents pre).
Proof. unfold run. apply fold_left_app. Qed.


Lemma last_app_ne {A : Type} (l s : list A) (d : A) :
  s <> [] -> last (l ++ s) d = last s d.
Proof.
  intros Hs. induction l as [|x l IH]; simpl; [reflexivity|].
  destruct (l ++ s) eqn:E.
  - destruct l; simpl in E; [contradiction | discriminate].
  - exact IH.
Qed.

Ltac col_clash H :=
  first
    [ apply app_inv_tail in H; congruence
    | apply (f_equal (fun l => last l " "%char)) in H;
      rewrite !last_app_ne in H by discriminate;
      vm_compute in H; discriminate ].

Lemma own_cols_disjoint (a b : agent) (k : str) :
  name a <> name b -> In k (own_cols a) -> ~ In k (own_cols b).
Proof.
  intros Hne Ha Hb. unfold own_cols in *. simpl in Ha, Hb.
  unfold suggested_col, description_col, confidence_col, match_col, col in *.
  destruct Ha as [Ha|[Ha|[Ha|[Ha|[]]]]];
    destruct Hb as [Hb|[Hb|[Hb|[Hb|[]]]]];
    rewrite <- Ha in Hb; col_clash Hb.
Qed.

Lemma own_cols_distinct (a : agent) :
  suggested_col a <> description_col a
  /\ suggested_col a <> confidence_col a
  /\ suggested_col a <> match_col a
  /\ confidence_col a <> description_col a
  /\ confidence_col a <> match_col a
  /\ description_col a <> match_col a.
Proof.
  unfold suggested_col, description_col, confidence_col, match_col, col.
  repeat split; intros H; col_clash H.
Qed.

Lemma get_set_outside (b : agent) (k c : str) (v : cell) (row0 : row) :
  ~ In k (own_cols b) -> In c (own_cols b) ->
  get k (set c v row0) = get k row0.
Proof.
  intros Hk Hc. apply get_set_other. intros E. subst. contradiction.
Qed.

Lemma own_suggested b : In (suggested_col b) (own_cols b).
Proof. simpl; auto. Qed.
Lemma own_description b : In (description_col b) (own_cols b).
Proof. simpl; auto. Qed.
Lemma own_confidence b : In (confidence_col b) (own_cols b).
Proof. simpl; auto. Qed.
Lemma own_match b : In (match_col b) (own_cols b).
Proof. simpl; auto 6. Qed.

Create HintDb cols.

#[local] Hint Resolve own_suggested own_description own_confidence own_match
  : cols.

Lemma get_bump_other (f : counters -> counters) (n n0 : str) (m : metrics) :
  n0 <> n -> get n0 (bump f n m) = get n0 m.
Proof.
  intros Hne. unfold bump. destruct (get n m); [|reflexivity].
  apply get_set_other. exact Hne.
Qed.

(** A strategy touches its own four columns and its own counters only. *)
Lemma classify_with_elsewhere (pass : bool) (r : dict str) (b : agent)
    (row0 : row) (m : metrics) :
  (forall k, ~ In k (own_cols b) ->
     get k (fst (classify_with pass r (row0, m) b)) = get k row0)
  /\ (forall n, n <> name b ->
        get n (snd (classify_with pass r (row0, m) b)) = get n m).
Proof.
  unfold classify_with, try_body, on_error.
  destruct (call_classify pass b r) as [e|res]; simpl.
  { split; intros; [|reflexivity].
    rewrite !(get_set_outside (b:=b)) by auto with cols. reflexivity. }
  destruct (r_mcc_code res) as [code|]; simpl.
  2:{ split; intros; [|reflexivity].
      rewrite !(get_set_outside (b:=b)) by auto with cols. reflexivity. }
  destruct (r_mcc_description res) as [d|]; simpl.
  2:{ split; intros; [|reflexivity].
      rewrite !(get_set_outside (b:=b)) by auto with cols. reflexivity. }
  destruct (r_confidence res) as [q|]; simpl.
  2:{ split; intros; [|reflexivity].
      rewrite !(get_set_outside (b:=b)) by auto with cols. reflexivity. }
  destruct (str_eqb (strip code) (strip (field r "Actual MCC code"))); simpl;
    split; intros;
    try (rewrite !(get_set_outside (b:=b)) by auto with cols; reflexivity);
    rewrite ?get_bump_other by assumption; reflexivity.
Qed.

Lemma fold_elsewhere (pass : bool) (r : dict str) (a : agent)
    (l : list agent) (row0 : row) (m : metrics) :
  (forall b, In b l -> name b <> name a) ->
  (forall k, In k (own_cols a) ->
     get k (fst (fold_left (classify_with pass r) l (row0, m))) = get k row0)
  /\ get (name a) (snd (fold_left (classify_with pass r) l (row0, m)))
     = get (name a) m.
Proof.
  revert row0 m. induction l as [|b l IH]; intros row0 m Hl; simpl.
  - auto.
  - destruct (classify_with pass r (row0, m) b) as [row1 m1] eqn:E.
    assert (Hb : name b <> name a) by (apply Hl; simpl; auto).
    destruct (IH row1 m1) as [IH1 IH2].
    { intros c Hc. apply Hl. simpl; auto. }
    destruct (classify_with_elsewhere pass r b row0 m) as [C1 C2].
    rewrite E in C1, C2. simpl in C1, C2.
    split.
    + intros k Hk. rewrite (IH1 k Hk). apply C1.
      intros Hkb. apply (own_cols_disjoint (a:=a) (b:=b) (k:=k)); auto.
    + rewrite IH2. apply C2. auto.
Qed.

Lemma raises_anywhere (pass : bool) (ag : agent) (r : dict str)
    (st : row * metrics) :
  raises pass ag r
  = match snd (try_body pass ag r st) with Some _ => true | None => false end.
Proof.
  unfold raises, try_body. destruct st as [row0 m].
  destruct (call_classify pass ag r) as [e|res]; simpl; [reflexivity|].
  destruct (r_mcc_code res); simpl; [|reflexivity].
  destruct (r_mcc_description res); simpl; [|reflexivity].
  destruct (r_confidence res); simpl; [|reflexivity].
  destruct (str_eqb _ _); reflexivity.
Qed.

(** The handler's row, whatever the body had written before it failed. *)
Lemma on_error_cells (ag : agent) (e : exn) (row0 : row) :
  get (suggested_col ag) (on_error ag e row0) = Some (Text (py "ERROR"))
  /\ get (confidence_col ag) (on_error ag e row0) = Some (Number 0.0)
  /\ get (match_col ag) (on_error ag e row0) = Some (Text (py "Error")).
Proof.
  destruct (own_cols_distinct ag) as [H1 [H2 [H3 [H4 [H5 H6]]]]].
  unfold on_error. repeat split.
  - rewrite !get_set_other by auto. apply get_set_same.
  - rewrite get_set_other by auto. apply get_set_same.
  - apply get_set_same.
Qed.

Lemma classify_with_raising (pass : bool) (r : dict str) (ag : agent)
    (row0 : row) (m : metrics) :
  raises pass ag r = true ->
  exists e row1,
    classify_with pass r (row0, m) ag = (on_error ag e row1, m).
Proof.
  intros Hr. rewrite (raises_anywhere pass ag r (row0, m)) in Hr.
  unfold classify_with.
  destruct (try_body pass ag r (row0, m)) as [[row1 m1] [e|]] eqn:E;
    simpl in Hr; [|discriminate].
  exists e, row1. f_equal.
  unfold try_body in E.
  destruct (call_classify pass ag r) as [e'|res]; [congruence|].
  destruct (r_mcc_code res); [|congruence].
  destruct (r_mcc_description res); [|congruence].
  destruct (r_confidence res); [|congruence].
  destruct (str_eqb _ _); congruence.
Qed.

(** A strategy that returns normally has its code written to the row and
    is counted. *)
Lemma classify_with_returning (pass : bool) (r : dict str) (b : agent)
    (row0 : row) (m : metrics) (c : counters) :
  raises pass b r = false ->
  get (name b) m = Some c ->
  let st := classify_with pass r (row0, m) b in
  (exists code, get (suggested_col b) (fst st) = Some (Text code))
  /\ (get (match_col b) (fst st) = Some (Text (py "Yes"))
      \/ get (match_col b) (fst st) = Some (Text (py "No")))
  /\ exists c', get (name b) (snd st) = Some c' /\ total c' = S (total c).
Proof.
  intros Hr Hc. rewrite (raises_anywhere pass b r (row0, m)) in Hr.
  destruct (own_cols_distinct b) as [H1 [H2 [H3 [H4 [H5 H6]]]]].
  unfold classify_with, try_body in *.
  destruct (call_classify pass b r) as [e|res]; simpl in *; [discriminate|].
  destruct (r_mcc_code res) as [code|]; simpl in *; [|discriminate].
  destruct (r_mcc_description res) as [d|]; simpl in *; [|discriminate].
  destruct (r_confidence res) as [q|]; simpl in *; [|discriminate].
  assert (Hb : get (name b) (bump incr_total (name b) m) = Some (incr_total c)).
  { unfold bump. rewrite Hc. apply get_set_same. }
  destruct (str_eqb (strip code) (strip (field r "Actual MCC code"))); simpl.
  - split; [|split].
    + exists code. rewrite !get_set_other by auto. apply get_set_same.
    + left. apply get_set_same.
    + exists (incr_correct (incr_total c)). split; [|reflexivity].
      unfold bump at 1. rewrite Hb. apply get_set_same.
  - split; [|split].
    + exists code. rewrite !get_set_other by auto. apply get_set_same.
    + right. apply get_set_same.
    + exists (incr_total c). split; [exact Hb | reflexivity].
Qed.

Lemma names_apart (agents l1 l2 : list agent) (a : agent) :
  NoDup (map name agents) -> agents = l1 ++ a :: l2 ->
  (forall b, In b l1 -> name b <> name a)
  /\ (forall b, In b l2 -> name b <> name a).
Proof.
  intros Hnd ->. rewrite map_app in Hnd. simpl in Hnd.
  pose proof (NoDup_remove_2 _ _ _ Hnd) as Hnot.
  split; intros b Hb E; apply Hnot, in_or_app; [left|right];
    rewrite <- E; apply in_map; exact Hb.
Qed.

(** What one strategy leaves in the finished row of a record, the names of
    the strategies being distinct. *)
Lemma fold_at (pass : bool) (r : dict str) (agents : list agent) (a : agent)
    (row0 : row) (m : metrics) :
  In a agents -> NoDup (map name agents) ->
  exists st0 : row * metrics,
    (forall k, In k (own_cols a) -> get k (fst st0) = get k row0)
    /\ get (name a) (snd st0) = get (name a) m
    /\ let st := classify_with pass r st0 a in
       let fin := fold_left (classify_with pass r) agents (row0, m) in
       (forall k, In k (own_cols a) -> get k (fst fin) = get k (fst st))
       /\ get (name a) (snd fin) = get (name a) (snd st).
Proof.
  intros Hin Hnd.
  destruct (in_split _ _ Hin) as [l1 [l2 Hsplit]].
  destruct (@names_apart agents l1 l2 a Hnd Hsplit) as [Hl1 Hl2].
  subst agents. rewrite fold_left_app. cbn [fold_left].
  destruct (fold_elsewhere pass r a l1 row0 m Hl1) as [F1 F2].
  exists (fold_left (classify_with pass r) l1 (row0, m)).
  split; [exact F1|]. split; [exact F2|].
  cbv zeta.
  destruct (classify_with pass r
              (fold_left (classify_with pass r) l1 (row0, m)) a)
    as [rowb mb].
  apply (fold_elsewhere pass r a l2 rowb mb Hl2).
Qed.

Lemma initial_metrics_has (agents : list agent) (a : agent) :
  In a agents -> exists c, get (name a) (initial_metrics agents) = Some c.
Proof.
  unfold initial_metrics.
  assert (G : forall l (m : metrics),
             (In a l \/ exists c, get (name a) m = Some c) ->
             exists c, get (name a)
               (fold_left (fun m ag => set (name ag)
                  {| correct := 0; total := 0 |} m) l m) = Some c).
  { induction l as [|b l IH]; intros m [H|H]; simpl.
    - contradiction.
    - exact H.
    - apply IH. destruct H as [->|H]; [right|left; exact H].
      eexists. apply get_set_same.
    - apply IH. right. destruct H as [c Hc].
      destruct (list_eq_dec ascii_dec (name a) (name b)) as [E|E].
      + rewrite E. eexists. apply get_set_same.
      + exists c. rewrite get_set_other by exact E. exact Hc. }
  intros H. apply G. left. exact H.
Qed.

(** C8.  When classifying a record with one strategy raises, the handler
    writes the sentinel "ERROR" with confidence 0.0 and the match flag
    "Error" (not "Yes") into that strategy's columns of the record's row and
    leaves its counters as they were; the strategies that return are written
    and counted as usual in the same row, and the run goes on with the
    records that follow. *)
Theorem classification_error_is_local (pass : bool) (agents : list agent)
    (ag : agent) (pre post : list (dict str)) (r : dict str) :
  In ag agents ->
  NoDup (map name agents) ->
  skipped r = false ->
  raises pass ag r = true ->
  let before := run pass agents pre in
  exists output_row m',
    process_merchant pass agents before r = (fst before ++ [output_row], m')
    /\ get (suggested_col ag) output_row = Some (Text (py "ERROR"))
    /\ get (confidence_col ag) output_row = Some (Number 0.0)
    /\ get (match_col ag) output_row = Some (Text (py "Error"))
    /\ get (name ag) m' = get (name ag) (snd before)
    /\ (forall b c,
          In b agents -> raises pass b r = false ->
          get (name b) (snd before) = Some c ->
          (exists code, get (suggested_col b) output_row = Some (Text code))
          /\ (get (match_col b) output_row = Some (Text (py "Yes"))
              \/ get (match_col b) output_row = Some (Text (py "No")))
          /\ exists c', get (name b) m' = Some c' /\ total c' = S (total c))
    /\ run pass agents (pre ++ r :: post)
       = fold_left (process_merchant pass agents) post
           (fst before ++ [output_row], m').
Proof.
  intros Hin Hnd Hskip Hraise before.
  destruct before as [out m] eqn:Ebefore. simpl fst. simpl snd.
  destruct (fold_left (classify_with pass r) agents (base_row r, m))
    as [output_row m'] eqn:Efold.
  assert (Hstep : process_merchant pass agents (out, m) r
                  = (out ++ [output_row], m')).
  { unfold process_merchant. rewrite Hskip, Efold. reflexivity. }
  exists output_row, m'.
  split; [exact Hstep|].
  destruct (@fold_at pass r agents ag (base_row r) m Hin Hnd)
    as [[rowa ma] [_ [Hma Hfin]]].
  cbv zeta in Hfin. rewrite Efold in Hfin. simpl in Hma.
  destruct Hfin as [Hcols Hcount].
  destruct (@classify_with_raising pass r ag rowa ma Hraise) as [e [row1 Ecw]].
  rewrite Ecw in Hcols, Hcount. cbn [fst snd] in Hcols, Hcount.
  destruct (on_error_cells ag e row1) as [E1 [E2 E3]].
  split. { rewrite Hcols by (simpl; auto). exact E1. }
  split. { rewrite Hcols by (simpl; auto). exact E2. }
  split. { rewrite Hcols by (simpl; auto 6). exact E3. }
  split. { rewrite Hcount. exact Hma. }
  split.
  - intros b c Hb Hret Hc.
    destruct (@fold_at pass r agents b (base_row r) m Hb Hnd)
      as [[rowb mb] [_ [Hmb Hfinb]]].
    cbv zeta in Hfinb. rewrite Efold in Hfinb. simpl in Hmb.
    destruct Hfinb as [Hcolsb Hcountb].
    rewrite Hc in Hmb.
    destruct (@classify_with_returning pass r b rowb mb c Hret Hmb)
      as [[code Hcode] [Hmatch [c' [Hc' Htot]]]].
    cbn [fst snd] in Hcolsb, Hcountb.
    split; [|split].
    + exists code. rewrite Hcolsb by (simpl; auto). exact Hcode.
    + rewrite Hcolsb by (simpl; auto 6). exact Hmatch.
    + exists c'. rewrite Hcountb. auto.
  - rewrite run_app. simpl. unfold before in Ebefore.
    rewrite Ebefore, Hstep. reflexivity.
Qed.


Lemma classification_error_witness :
  let agents := [Samples.grocer; Samples.broken] in
  raises false Samples.broken Samples.merchant2 = true
  /\ exists output_row m',
       process_merchant false agents (run false agents [Samples.merchant1])
         Samples.merchant2
       = (fst (run false agents [Samples.merchant1]) ++ [output_row], m')
       /\ get (suggested_col Samples.broken) output_row
          = Some (Text (py "ERROR"))
       /\ get (confidence_col Samples.broken) output_row = Some (Number 0.0)
       /\ get (match_col Samples.broken) output_row = Some (Text (py "Error")).
Proof.
  intros agents. split; [reflexivity|].
  assert (Hin : In Samples.broken agents) by (simpl; auto).
  assert (Hnd : NoDup (map name agents)).
  { repeat constructor; simpl; intuition discriminate. }
  destruct (@classification_error_is_local false agents Samples.broken
              [Samples.merchant1] [] Samples.merchant2 Hin Hnd
              eq_refl eq_refl)
    as [output_row [m' [H1 [H2 [H3 [H4 _]]]]]].
  exists output_row, m'. auto.
Defined.

End EvaluatorFacts.

(* ================================================================== *)
(** * The free-text parser: runs of digits *)

Module DigitRuns.





















End DigitRuns.

(* ================================================================== *)
(** * The free-text parser: the fallback code *)

Module ParserFallback.

Import Waki DigitRuns.
Open Scope Q_scope.

(** An alternative line touches the variables of the alternatives only. *)
Lemma alternative_line_keeps (line : str) (st : pstate) :
  p_mcc_code (alternative_line line st) = p_mcc_code st
  /\ p_reasoning (alternative_line line st) = p_reasoning st
  /\ p_analysis (alternative_line line st) = p_analysis st
  /\ confidence_value (alternative_line line st) = confidence_value st
  /\ in_alternatives (alternative_line line st) = in_alternatives st.
Proof.
  unfold alternative_line.
  destruct (first_code4 line); [simpl; auto|].
  destruct (current_alt st); simpl; auto.
Qed.












End ParserFallback.

(* ================================================================== *)
(** * Rounding to hundredths *)

Module Rounding.

Open Scope Q_scope.





Lemma round_half_even_bounds (y : Q) :
  (Qfloor y <= round_half_even y <= Qfloor y + 1)%Z.
Proof.
  unfold round_half_even.
  destruct (y - inject_Z (Qfloor y) ?= 1 # 2); [|lia|lia].
  destruct (Z.odd (Qfloor y)); lia.
Qed.

Lemma round_half_even_mono (x y : Q) :
  x <= y -> (round_half_even x <= round_half_even y)%Z.
Proof.
  intros Hxy.
  pose proof (Qfloor_resp_le _ _ Hxy) as Hfl.
  pose proof (round_half_even_bounds x) as Bx.
  pose proof (round_half_even_bounds y) as By.
  destruct (Z.eq_dec (Qfloor x) (Qfloor y)) as [E|E]; [|lia].
  unfold round_half_even. rewrite E.
  destruct (x - inject_Z (Qfloor y) ?= 1 # 2) eqn:Cx;
    destruct (y - inject_Z (Qfloor y) ?= 1 # 2) eqn:Cy;
    try (destruct (Z.odd (Qfloor y)); lia); try lia; exfalso.
  - apply Qeq_alt in Cx. apply Qlt_alt in Cy. lra.
  - apply Qgt_alt in Cx. apply Qeq_alt in Cy. lra.
  - apply Qgt_alt in Cx. apply Qlt_alt in Cy. lra.
Qed.

Lemma round2_mono (x y : Q) : x <= y -> round2 x <= round2 y.
Proof.
  intros H. unfold round2, Qle. simpl.
  apply Z.mul_le_mono_nonneg_r; [lia|].
  apply round_half_even_mono. lra.
Qed.





End Rounding.

(* ================================================================== *)
(** * The free-text parser: confidences *)

Module ParserConfidence.

Import Waki Rounding.
Open Scope Q_scope.






Lemma search_some {A : Type} (f : str -> option A) (s : str) (a : A) :
  search f s = Some a -> exists t, f t = Some a.
Proof.
  induction s as [|c s IH]; simpl.
  - destruct (f []) eqn:E; [|discriminate]. intros [= <-]. eauto.
  - destruct (f (c :: s)) eqn:E.
    + intros [= <-]. eauto.
    + exact IH.
Qed.




























End ParserConfidence.

(* ================================================================== *)
(** * Confidence and alternatives of the decisions *)

Module DecisionInvariants.

Open Scope Q_scope.


Lemma score_nonneg (n : nat) : 0 <= inject_Z (Z.of_nat n).
Proof. change 0 with (inject_Z 0). rewrite <- Zle_Qle. lia. Qed.


Lemma insert_desc_In {A : Type} (lt : A -> A -> bool) (x y : A) (l : list A) :
  In y (insert_desc lt x l) -> y = x \/ In y l.
Proof.
  induction l as [|z l IH]; simpl.
  - intros [<-|[]]. auto.
  - destruct (lt x z); simpl.
    + intros [<-|H]; auto. destruct (IH H); auto.
    + intros [<-|[<-|H]]; auto.
Qed.

Lemma sort_desc_In {A : Type} (lt : A -> A -> bool) (y : A) (l : list A) :
  In y (sort_desc lt l) -> In y l.
Proof.
  induction l as [|x l IH]; simpl; [auto|].
  intros H. apply insert_desc_In in H. destruct H as [<-|H]; auto.
Qed.

Lemma firstn_In {A : Type} (n : nat) (y : A) (l : list A) :
  In y (firstn n l) -> In y l.
Proof.
  revert l. induction n as [|n IH]; intros l H.
  - simpl in H. contradiction.
  - destruct l as [|x l]; simpl in H; [contradiction|].
    destruct H as [<-|H]; simpl; auto.
Qed.

Section Tiered.

Import Matheus MatheusFacts.








End Tiered.

Section SingleCall.

Import Waki ParserConfidence.





End SingleCall.

Section OnePrompt.

Import Rafa.

Lemma set_In {V : Type} (k k' : str) (v v' : V) (d : dict V) :
  In (k', v') (set k v d) -> k' = k \/ In (k', v') d.
Proof.
  induction d as [|[k0 v0] d IH]; simpl.
  - intros [[= <- <-]|[]]. auto.
  - destruct (str_eqb k k0) eqn:E; simpl.
    + apply str_eqb_eq in E. subst k0.
      intros [[= <- <-]|H]; auto.
    + intros [H|H]; auto. destruct (IH H); auto.
Qed.





End OnePrompt.




End DecisionInvariants.

(* ================================================================== *)
(** * Blank names, and what the fallback classifiers read *)

Module QueryFacts.

Open Scope Q_scope.

Lemma one_prompt_blank_name (ag : Rafa.Agent) (name : str)
    (legal : option str) (md : merchant_data) :
  truthy (strip name) = false ->
  Rafa.classify ag name legal md = (Rafa.default_decision, []).
Proof.
  intros H. unfold Rafa.classify. rewrite H. reflexivity.
Qed.

(** C6 at the single-call strategy.  [WakiAgent.classify] has no guard for
    a blank name: with a service at hand the blank name is sent to it, and
    without one the fallback answers from the legal name, so that two blank
    names get two different decisions. *)
Theorem single_call_strategy_sends_blank_name :
  trace (Waki.classify Samples.online_single_call_agent Samples.blank None
           no_merchant_data)
  = [ServiceCall Waki.gpt_4o]
  /\ Waki.mcc_code
       (value (Waki.classify Samples.offline_single_call_agent Samples.blank
                 (Some (py "Blue Cafe")) no_merchant_data))
     = Some (py "5812")
  /\ Waki.mcc_code
       (value (Waki.classify Samples.offline_single_call_agent Samples.blank
                 None no_merchant_data))
     = Some (py "5999").
Proof. vm_compute. repeat split. Qed.




End QueryFacts.

(* ================================================================== *)
(** * The evaluation harness: counters, rows and the keyword data *)

Module HarnessFacts.

Import Evaluator Tally EvaluatorFacts.
Open Scope Q_scope.

#[local] Hint Resolve own_suggested own_description own_confidence own_match
  : cols.

Section Values.

Context {V : Type} (P : V -> Prop).

Lemma set_values (k : str) (v : V) (d : dict V) :
  Forall (fun kv => P (snd kv)) d -> P v ->
  Forall (fun kv => P (snd kv)) (set k v d).
Proof.
  intros Hd Hv. induction d as [|[k' v'] d IH]; simpl.
  - constructor; [exact Hv | constructor].
  - inversion Hd as [|? ? H1 H2]; subst.
    destruct (str_eqb k k'); constructor; auto.
Qed.

Lemma get_values (k : str) (v : V) (d : dict V) :
  Forall (fun kv => P (snd kv)) d -> get k d = Some v -> P v.
Proof.
  intros Hd. induction d as [|[k' v'] d IH]; simpl; [discriminate|].
  inversion Hd as [|? ? H1 H2]; subst.
  destruct (str_eqb k k'); [intros [= <-]; exact H1 | auto].
Qed.

End Values.

Lemma get_map_values {V W : Type} (f : V -> W) (k : str) (d : dict V) :
  get k (map (fun kv => (fst kv, f (snd kv))) d) = option_map f (get k d).
Proof.
  induction d as [|[k' v'] d IH]; simpl; [reflexivity|].
  destruct (str_eqb k k'); [reflexivity | exact IH].
Qed.

Lemma bump_total_tallied (n : str) (m : metrics) :
  tallied m -> tallied (bump incr_total n m).
Proof.
  intros H. unfold bump. destruct (get n m) as [c|] eqn:E; [|exact H].
  apply (@set_values _ plausible); [exact H|].
  pose proof (@get_values _ plausible _ _ _ H E) as Hc. unfold plausible in *. simpl. lia.
Qed.

Lemma bump_both_tallied (n : str) (m : metrics) :
  tallied m -> tallied (bump incr_correct n (bump incr_total n m)).
Proof.
  intros H. unfold bump at 2. destruct (get n m) as [c|] eqn:E.
  - unfold bump. rewrite get_set_same.
    apply (@set_values _ plausible).
    + apply (@set_values _ plausible); [exact H|].
      pose proof (@get_values _ plausible _ _ _ H E) as Hc. unfold plausible in *. simpl. lia.
    + pose proof (@get_values _ plausible _ _ _ H E) as Hc. unfold plausible in *. simpl. lia.
  - unfold bump. rewrite E. exact H.
Qed.

Lemma classify_with_tallied (pass : bool) (r : dict str) (st : row * metrics)
    (a : agent) :
  tallied (snd st) -> tallied (snd (classify_with pass r st a)).
Proof.
  destruct st as [row0 m]. simpl. intros H.
  unfold classify_with, try_body.
  destruct (call_classify pass a r) as [e|res]; simpl; [exact H|].
  destruct (r_mcc_code res); simpl; [|exact H].
  destruct (r_mcc_description res); simpl; [|exact H].
  destruct (r_confidence res); simpl; [|exact H].
  destruct (str_eqb _ _); simpl.
  - apply bump_both_tallied, H.
  - apply bump_total_tallied, H.
Qed.

Lemma agents_tallied (pass : bool) (r : dict str) (agents : list agent)
    (st : row * metrics) :
  tallied (snd st) ->
  tallied (snd (fold_left (classify_with pass r) agents st)).
Proof.
  revert st. induction agents as [|a l IH]; intros st H; simpl; [exact H|].
  apply IH, classify_with_tallied, H.
Qed.

Lemma process_tallied (pass : bool) (agents : list agent)
    (st : list row * metrics) (r : dict str) :
  tallied (snd st) -> tallied (snd (process_merchant pass agents st r)).
Proof.
  destruct st as [out m]. simpl. intros H. unfold process_merchant.
  destruct (skipped r); [exact H|].
  pose proof (@agents_tallied pass r agents (base_row r, m) H) as G.
  destruct (fold_left _ agents _) as [row1 m1]. exact G.
Qed.

Lemma initial_values (P : counters -> Prop) (agents : list agent) :
  P {| correct := 0; total := 0 |} ->
  Forall (fun kv => P (snd kv)) (initial_metrics agents).
Proof.
  intros H0. unfold initial_metrics.
  assert (G : forall l (m : metrics),
             Forall (fun kv => P (snd kv)) m ->
             Forall (fun kv => P (snd kv))
               (fold_left (fun m ag => set (name ag)
                  {| correct := 0; total := 0 |} m) l m)).
  { induction l as [|b l IH]; intros m Hm; simpl; [exact Hm|].
    apply IH, (@set_values _ P); assumption. }
  apply G. constructor.
Qed.

Lemma run_tallied (pass : bool) (agents : list agent)
    (input : list (dict str)) :
  tallied (snd (run pass agents input)).
Proof.
  unfold run.
  assert (G : forall l st, tallied (snd st) ->
             tallied (snd (fold_left (process_merchant pass agents) l st))).
  { induction l as [|r l IH]; intros st H; simpl; [exact H|].
    apply IH, process_tallied, H. }
  apply G. simpl. apply (initial_values plausible).
  unfold plausible. simpl. lia.
Qed.

Lemma ratio_unit (c t : nat) :
  (c <= t)%nat -> (0 < t)%nat ->
  0 <= inject_Z (Z.of_nat c) / inject_Z (Z.of_nat t)
  /\ inject_Z (Z.of_nat c) / inject_Z (Z.of_nat t) <= 1.
Proof.
  intros Hc Ht.
  assert (H0 : 0 < inject_Z (Z.of_nat t)).
  { change 0 with (inject_Z 0). rewrite <- Zlt_Qlt. lia. }
  assert (H1 : 0 <= inject_Z (Z.of_nat c)).
  { change 0 with (inject_Z 0). rewrite <- Zle_Qle. lia. }
  assert (H2 : inject_Z (Z.of_nat c) <= inject_Z (Z.of_nat t)).
  { rewrite <- Zle_Qle. lia. }
  split.
  - apply Qle_shift_div_l; [exact H0|]. lra.
  - apply Qle_shift_div_r; [exact H0|]. lra.
Qed.

(** X1.  Whatever the strategies do, a strategy's counter of correct answers
    never exceeds its counter of answers, and the accuracy reported for it
    lies between 0 and 1; it is 0 when the strategy answered no record. *)
Theorem accuracy_is_a_proportion (pass : bool) (agents : list agent)
    (input : list (dict str)) (n : str) :
  (forall c, get n (snd (run pass agents input)) = Some c ->
             (correct c <= total c)%nat)
  /\ (forall p, get n (snd (evaluate pass agents input)) = Some p ->
        (correct_classifications p <= total_classifications p)%nat
        /\ 0 <= accuracy p /\ accuracy p <= 1
        /\ (total_classifications p = 0%nat -> accuracy p = 0)).
Proof.
  pose proof (run_tallied pass agents input) as T.
  split.
  - intros c Hc. exact (@get_values _ plausible _ _ _ T Hc).
  - intros p Hp. unfold evaluate in Hp.
    destruct (run pass agents input) as [out m]. simpl in Hp, T.
    unfold performance_metrics in Hp. rewrite get_map_values in Hp.
    destruct (get n m) as [c|] eqn:E; [|discriminate].
    injection Hp as <-. pose proof (@get_values _ plausible _ _ _ T E) as Hc.
    unfold plausible in Hc. unfold performance_of. simpl.
    split; [exact Hc|].
    destruct (0 <? total c)%nat eqn:Ht.
    + apply Nat.ltb_lt in Ht. destruct (ratio_unit Hc Ht) as [A B].
      split; [exact A|]. split; [exact B|]. intros Z. lia.
    + split; [lra|]. split; [lra|]. reflexivity.
Qed.

Lemma initial_metrics_zero (agents : list agent) (n : str) (c : counters) :
  get n (initial_metrics agents) = Some c ->
  c = {| correct := 0; total := 0 |}.
Proof.
  intros H.
  exact (@get_values _ (fun c => c = {| correct := 0; total := 0 |}) _ _ _
           (initial_values (fun c => c = {| correct := 0; total := 0 |})
              agents eq_refl) H).
Qed.

Lemma same_counters (c c' t t' : nat) :
  c = c' -> t = t' ->
  Some {| correct := c; total := t |} = Some {| correct := c'; total := t' |}.
Proof. intros -> ->. reflexivity. Qed.

(** One strategy on one record: what happens to its own counters. *)
Lemma classify_with_counts (pass : bool) (r : dict str) (b : agent)
    (row0 : row) (m : metrics) (c : counters) :
  get (name b) m = Some c ->
  get (name b) (snd (classify_with pass r (row0, m) b))
  = Some {| correct := correct c + (if negb (raises pass b r) && agrees pass b r
                                    then 1 else 0);
            total := total c + (if raises pass b r then 0 else 1) |}.
Proof.
  intros Hc. rewrite (raises_anywhere pass b r (row0, m)).
  unfold agrees, classify_with, try_body.
  destruct (call_classify pass b r) as [e|res]; simpl.
  { rewrite Hc. destruct c. simpl. apply same_counters; simpl; lia. }
  destruct (r_mcc_code res) as [code|]; simpl.
  2:{ rewrite Hc. destruct c. simpl. apply same_counters; simpl; lia. }
  destruct (r_mcc_description res) as [d|]; simpl.
  2:{ rewrite Hc. destruct c. simpl. apply same_counters; simpl; lia. }
  destruct (r_confidence res) as [q|]; simpl.
  2:{ rewrite Hc. destruct c. simpl. apply same_counters; simpl; lia. }
  assert (Hb : get (name b) (bump incr_total (name b) m) = Some (incr_total c)).
  { unfold bump. rewrite Hc. apply get_set_same. }
  destruct (str_eqb (strip code) (strip (field r "Actual MCC code"))); simpl.
  - unfold bump at 1. rewrite Hb, get_set_same. destruct c. simpl.
    apply same_counters; simpl; lia.
  - rewrite Hb. destruct c. unfold incr_total. simpl. apply same_counters; simpl; lia.
Qed.

Lemma process_counts (pass : bool) (agents : list agent) (a : agent)
    (out : list row) (m : metrics) (r : dict str) (c : counters) :
  In a agents -> NoDup (map name agents) ->
  get (name a) m = Some c ->
  get (name a) (snd (process_merchant pass agents (out, m) r))
  = Some {| correct := correct c + (if hit pass a r then 1 else 0);
            total := total c + (if counted pass a r then 1 else 0) |}.
Proof.
  intros Hin Hnd Hc. unfold process_merchant, hit, counted.
  destruct (skipped r) eqn:Hs; simpl.
  { rewrite Hc. destruct c. simpl. apply same_counters; simpl; lia. }
  destruct (@fold_at pass r agents a (base_row r) m Hin Hnd)
    as [[rowa ma] [_ [Hma [_ Hfin]]]].
  simpl in Hma. rewrite Hc in Hma.
  destruct (fold_left (classify_with pass r) agents (base_row r, m))
    as [row1 m1]. simpl in *.
  rewrite Hfin, (@classify_with_counts pass r a rowa ma c Hma).
  destruct (raises pass a r); reflexivity.
Qed.

Lemma fold_counts (pass : bool) (agents : list agent) (a : agent)
    (input : list (dict str)) (st : list row * metrics) (c : counters) :
  In a agents -> NoDup (map name agents) ->
  get (name a) (snd st) = Some c ->
  get (name a) (snd (fold_left (process_merchant pass agents) input st))
  = Some {| correct := correct c + length (filter (hit pass a) input);
            total := total c + length (filter (counted pass a) input) |}.
Proof.
  intros Hin Hnd. revert st c.
  induction input as [|r input IH]; intros [out m] c Hc; cbn [fold_left].
  - rewrite Hc. destruct c. simpl. apply same_counters; simpl; lia.
  - simpl in Hc.
    pose proof (@process_counts pass agents a out m r c Hin Hnd Hc) as Hstep.
    rewrite (IH _ _ Hstep). cbn [filter correct total].
    destruct (hit pass a r); destruct (counted pass a r); cbn [length];
      apply same_counters; lia.
Qed.

Lemma run_counts (pass : bool) (agents : list agent)
    (a : agent) (input : list (dict str)) :
  In a agents -> NoDup (map name agents) ->
  get (name a) (snd (run pass agents input))
  = Some {| correct := length (filter (hit pass a) input);
            total := length (filter (counted pass a) input) |}.
Proof.
  intros Hin Hnd. unfold run.
  destruct (initial_metrics_has agents a Hin) as [c Hc].
  pose proof (@initial_metrics_zero agents (name a) c Hc) as ->.
  rewrite (@fold_counts pass agents a input ([], initial_metrics agents)
             _ Hin Hnd Hc).
  reflexivity.
Qed.

(** X2.  The counters the harness returns for a strategy, the names of the
    strategies being distinct: its answers are the records that are not
    passed over and for which its call and the reading of the three keys do
    not raise; its correct answers are those of them whose code, stripped,
    equals the stripped ground-truth code. *)
Theorem counters_count_answers (pass : bool) (agents : list agent)
    (a : agent) (input : list (dict str)) :
  In a agents -> NoDup (map name agents) ->
  get (name a) (snd (run pass agents input))
  = Some {| correct := length (filter (hit pass a) input);
            total := length (filter (counted pass a) input) |}.
Proof. apply run_counts. Qed.

Lemma counters_count_answers_witness :
  let agents := [Samples.grocer; Samples.broken] in
  let input := [Samples.merchant1; Samples.nameless; Samples.merchant2] in
  get (name Samples.grocer) (snd (run false agents input))
  = Some {| correct := 1; total := 2 |}.
Proof.
  intros agents input.
  assert (Hin : In Samples.grocer agents) by (simpl; auto).
  assert (Hnd : NoDup (map name agents)).
  { repeat constructor; simpl; intuition discriminate. }
  rewrite (@counters_count_answers false agents Samples.grocer input Hin Hnd).
  reflexivity.
Defined.

(** A column of a strategy carries an apostrophe; none of the four base
    columns does. *)
Lemma own_col_apostrophe (b : agent) (k : str) :
  In k (own_cols b) -> existsb (Ascii.eqb "'"%char) k = true.
Proof.
  unfold own_cols, suggested_col, description_col, confidence_col, match_col,
    col.
  intros [<-|[<-|[<-|[<-|[]]]]]; rewrite existsb_app; apply orb_true_r.
Qed.

Lemma base_not_own (b : agent) (k : str) :
  In k base_cols -> ~ In k (own_cols b).
Proof.
  intros Hk Hown. apply own_col_apostrophe in Hown.
  destruct Hk as [<-|[<-|[<-|[<-|[]]]]]; vm_compute in Hown; discriminate.
Qed.

Lemma agents_keep_base (pass : bool) (r : dict str) (agents : list agent)
    (row0 : row) (m : metrics) (k : str) :
  In k base_cols ->
  get k (fst (fold_left (classify_with pass r) agents (row0, m))) = get k row0.
Proof.
  intros Hk. revert row0 m.
  induction agents as [|b l IH]; intros row0 m; simpl; [reflexivity|].
  destruct (classify_with pass r (row0, m) b) as [row1 m1] eqn:E.
  rewrite IH.
  destruct (classify_with_elsewhere pass r b row0 m) as [C _].
  rewrite E in C. apply C, base_not_own, Hk.
Qed.

Lemma fold_rows (pass : bool) (agents : list agent) (k : str)
    (input : list (dict str)) (st : list row * metrics) :
  In k base_cols ->
  map (get k) (fst (fold_left (process_merchant pass agents) input st))
  = map (get k) (fst st)
    ++ map (fun r => get k (base_row r))
           (filter (fun r => negb (skipped r)) input).
Proof.
  intros Hk. revert st.
  induction input as [|r input IH]; intros [out m]; cbn [fold_left].
  - simpl. rewrite app_nil_r. reflexivity.
  - rewrite IH. cbn [filter]. unfold process_merchant at 1.
    destruct (skipped r); cbn [negb]; [reflexivity|].
    pose proof (@agents_keep_base pass r agents (base_row r) m k Hk) as K.
    destruct (fold_left (classify_with pass r) agents (base_row r, m))
      as [row1 m1]. cbn [fst] in *.
    rewrite map_app. cbn [map]. rewrite K, <- app_assoc. reflexivity.
Qed.

(** X3.  The table handed to the writer has one row for each record that is
    not passed over, in the order of the input, followed by one summary row;
    in each of these rows the four base columns hold the record's own
    values, whatever the strategies wrote, and the summary row is marked
    "SUMMARY". *)
Theorem one_row_per_kept_record (pass : bool) (agents : list agent)
    (input : list (dict str)) (k : str) :
  In k base_cols ->
  let kept := filter (fun r => negb (skipped r)) input in
  let table := fst (evaluate pass agents input) in
  length table = S (length kept)
  /\ map (get k) (firstn (length kept) table)
     = map (fun r => get k (base_row r)) kept
  /\ exists summary,
       table = firstn (length kept) table ++ [summary]
       /\ get (py "Merchant Name") summary = Some (Text (py "SUMMARY")).
Proof.
  intros Hk kept table.
  pose proof (@fold_rows pass agents k input ([], initial_metrics agents) Hk)
    as R.
  fold (run pass agents input) in R. cbn [fst map app] in R. fold kept in R.
  assert (L : length (fst (run pass agents input)) = length kept).
  { transitivity (length (map (get k) (fst (run pass agents input)))).
    - symmetry. apply length_map.
    - rewrite R. apply length_map. }
  unfold table, evaluate.
  destruct (run pass agents input) as [out m]. cbn [fst] in *.
  rewrite <- L, firstn_app, Nat.sub_diag, firstn_all. cbn [firstn].
  rewrite app_nil_r.
  split. { rewrite length_app. simpl. lia. }
  split; [exact R|].
  eexists. split; [reflexivity|].
  assert (G : forall l (row0 : row),
             get (py "Merchant Name") row0 = Some (Text (py "SUMMARY")) ->
             get (py "Merchant Name")
               (fold_left
                  (fun r ag =>
                     let acc := match get (name ag) (performance_metrics m) with
                                | Some p => accuracy p
                                | None => 0
                                end in
                     set (match_col ag) (Accuracy acc)
                       (set (confidence_col ag) (Text [])
                          (set (description_col ag) (Text [])
                             (set (suggested_col ag) (Text []) r))))
                  l row0)
             = Some (Text (py "SUMMARY"))).
  { induction l as [|b l IH]; intros row0 H0; cbn [fold_left]; [exact H0|].
    apply IH. cbv zeta.
    assert (Hb : ~ In (py "Merchant Name") (own_cols b)).
    { apply base_not_own. simpl. auto. }
    rewrite !(get_set_outside (b:=b)) by auto with cols. exact H0. }
  unfold summary_row. apply G. reflexivity.
Qed.

Lemma one_row_per_kept_record_witness :
  let input := [Samples.merchant1; Samples.nameless; Samples.merchant2] in
  let table := fst (evaluate false [Samples.grocer; Samples.broken] input) in
  In (py "Legal Name") base_cols
  /\ length table = 3%nat
  /\ map (get (py "Legal Name")) (firstn 2 table)
     = [Some (Text (py "Legal1")); Some (Text (py "Legal2"))].
Proof.
  intros input table.
  assert (Hk : In (py "Legal Name") base_cols) by (simpl; auto).
  destruct (@one_row_per_kept_record false [Samples.grocer; Samples.broken]
              input (py "Legal Name") Hk) as [H1 [H2 _]].
  split; [exact Hk|]. split; [exact H1 | exact H2].
Defined.

(** X4.  The names of the strategies being distinct, a strategy that hands
    back the three keys for a record that is not passed over has them
    written to its columns of the record's row as they are, and its match
    column holds "Yes" exactly when its code and the ground-truth code agree
    once stripped, "No" otherwise. *)
Theorem answer_is_written_as_returned (pass : bool) (agents : list agent)
    (a : agent) (r : dict str) (res : result) (code d : str) (q : Q)
    (out : list row) (m : metrics) :
  In a agents -> NoDup (map name agents) ->
  skipped r = false ->
  call_classify pass a r = inr res ->
  r_mcc_code res = Some code ->
  r_mcc_description res = Some d ->
  r_confidence res = Some q ->
  exists output_row m',
    process_merchant pass agents (out, m) r = (out ++ [output_row], m')
    /\ get (suggested_col a) output_row = Some (Text code)
    /\ get (description_col a) output_row = Some (Text d)
    /\ get (confidence_col a) output_row = Some (Number q)
    /\ get (match_col a) output_row
       = Some (Text (if str_eqb (strip code)
                          (strip (field r "Actual MCC code"))
                     then py "Yes" else py "No")).
Proof.
  intros Hin Hnd Hskip Hcall Hcode Hd Hq.
  destruct (fold_left (classify_with pass r) agents (base_row r, m))
    as [output_row m'] eqn:Efold.
  exists output_row, m'.
  split. { unfold process_merchant. rewrite Hskip, Efold. reflexivity. }
  destruct (@fold_at pass r agents a (base_row r) m Hin Hnd)
    as [[rowa ma] [_ [_ Hfin]]].
  cbv zeta in Hfin. rewrite Efold in Hfin. destruct Hfin as [Hcols _].
  cbn [fst] in Hcols.
  destruct (own_cols_distinct a) as [H1 [H2 [H3 [H4 [H5 H6]]]]].
  rewrite !Hcols by auto with cols.
  unfold classify_with, try_body. rewrite Hcall, Hcode, Hd, Hq.
  destruct (str_eqb (strip code) (strip (field r "Actual MCC code")));
    cbn [fst];
    repeat split;
    rewrite ?get_set_same; try reflexivity;
    repeat (rewrite get_set_other by auto; rewrite ?get_set_same);
    reflexivity.
Qed.

Lemma answer_is_written_as_returned_witness :
  exists output_row m',
    process_merchant false [Samples.grocer; Samples.broken]
      ([], initial_metrics [Samples.grocer; Samples.broken]) Samples.merchant2
    = ([] ++ [output_row], m')
    /\ get (suggested_col Samples.grocer) output_row = Some (Text (py "5411"))
    /\ get (match_col Samples.grocer) output_row = Some (Text (py "No")).
Proof.
  assert (Hin : In Samples.grocer [Samples.grocer; Samples.broken])
    by (simpl; auto).
  assert (Hnd : NoDup (map name [Samples.grocer; Samples.broken])).
  { repeat constructor; simpl; intuition discriminate. }
  destruct (@answer_is_written_as_returned false
              [Samples.grocer; Samples.broken] Samples.grocer
              Samples.merchant2 _ (py "5411") (py "Grocery Stores") 0.9
              [] (initial_metrics [Samples.grocer; Samples.broken])
              Hin Hnd eq_refl eq_refl eq_refl eq_refl eq_refl)
    as [output_row [m' [E [H1 [_ [_ H4]]]]]].
  exists output_row, m'. split; [exact E|]. split; [exact H1 | exact H4].
Defined.

Lemma call_classify_flag (a : agent) (r : dict str) :
  (forall n l d,
     classify a n l (Some d) = classify a n l None
     \/ exists msg, classify a n l (Some d) = inl (TypeError msg)) ->
  call_classify true a r = call_classify false a r.
Proof.
  intros H. unfold call_classify.
  destruct (H (field r "Merchant Name") (field r "Legal Name")
              (additional_data r)) as [E|[msg E]]; rewrite E.
  - destruct (classify a _ _ None) as [[msg|key|msg]|res]; reflexivity.
  - reflexivity.
Qed.

(** X5.  A strategy that makes nothing of the keyword data -- it answers as
    it does without them, or rejects them with a [TypeError] -- is evaluated
    the same whether the harness is asked to pass the full data or not: the
    table and the metrics are the same. *)
Theorem full_data_flag_is_harmless (agents : list agent)
    (input : list (dict str)) :
  (forall a, In a agents ->
     forall n l d,
       classify a n l (Some d) = classify a n l None
       \/ exists msg, classify a n l (Some d) = inl (TypeError msg)) ->
  evaluate true agents input = evaluate false agents input.
Proof.
  intros H.
  assert (Hcw : forall r st a, In a agents ->
             classify_with true r st a = classify_with false r st a).
  { intros r st a Ha. unfold classify_with, try_body.
    rewrite (call_classify_flag a r (H a Ha)). reflexivity. }
  assert (Hfold : forall r l st, incl l agents ->
             fold_left (classify_with true r) l st
             = fold_left (classify_with false r) l st).
  { induction l as [|b l IH]; intros st Hl; simpl; [reflexivity|].
    rewrite Hcw by (apply Hl; simpl; auto).
    apply IH. intros x Hx. apply Hl. simpl. auto. }
  assert (Hpm : forall st r, process_merchant true agents st r
                             = process_merchant false agents st r).
  { intros [out m] r. unfold process_merchant.
    rewrite Hfold by apply incl_refl. reflexivity. }
  assert (Hrun : run true agents input = run false agents input).
  { unfold run. generalize (@nil row, initial_metrics agents).
    induction input as [|r l IH]; intros st; simpl; [reflexivity|].
    rewrite Hpm. apply IH. }
  unfold evaluate. rewrite Hrun. reflexivity.
Qed.

Lemma full_data_flag_is_harmless_witness :
  evaluate true [Samples.grocer; Samples.broken]
    [Samples.merchant1; Samples.merchant2]
  = evaluate false [Samples.grocer; Samples.broken]
      [Samples.merchant1; Samples.merchant2].
Proof.
  apply (@full_data_flag_is_harmless [Samples.grocer; Samples.broken]
           [Samples.merchant1; Samples.merchant2]).
  intros a [<-|[<-|[]]] n l d; left; reflexivity.
Defined.

Lemma get_filter_keys {V : Type} (p : str -> bool) (k : str) (d : dict V) :
  get k (filter (fun kv => p (fst kv)) d) = if p k then get k d else None.
Proof.
  induction d as [|[k' v'] d IH]; simpl.
  - destruct (p k); reflexivity.
  - destruct (p k') eqn:Ek'; simpl.
    + destruct (str_eqb k k') eqn:E.
      * apply str_eqb_eq in E. subst k'. rewrite Ek'. reflexivity.
      * exact IH.
    + destruct (str_eqb k k') eqn:E.
      * apply str_eqb_eq in E. subst k'. rewrite Ek' in IH |- *. exact IH.
      * exact IH.
Qed.

Lemma get_none_keys {V : Type} (k : str) (d : dict V) :
  ~ In k (map fst d) -> get k d = None.
Proof.
  induction d as [|[k' v'] d IH]; simpl; [reflexivity|].
  intros H. destruct (str_eqb k k') eqn:E.
  - apply str_eqb_eq in E. subst. exfalso. auto.
  - apply IH. auto.
Qed.

(** A dictionary updated with the items of another, in order. *)
Lemma get_update {V : Type} (k : str) (l d0 : dict V) :
  NoDup (map fst l) ->
  get k (fold_left (fun d kv => set (fst kv) (snd kv) d) l d0)
  = match get k l with Some v => Some v | None => get k d0 end.
Proof.
  revert d0. induction l as [|[k1 v1] l IH]; intros d0 Hnd; simpl.
  - reflexivity.
  - inversion Hnd as [|? ? Hk1 Hl]; subst. rewrite (IH _ Hl).
    destruct (str_eqb k k1) eqn:E.
    + apply str_eqb_eq in E. subst k1.
      rewrite (get_none_keys _ _ Hk1). apply get_set_same.
    + apply str_eqb_neq in E. rewrite (get_set_other _ _ E). reflexivity.
Qed.

Lemma filter_keys_NoDup {V : Type} (p : str * V -> bool) (d : dict V) :
  NoDup (map fst d) -> NoDup (map fst (filter p d)).
Proof.
  induction d as [|kv d IH]; simpl; intros H; [constructor|].
  inversion H as [|? ? Hk Hd]; subst.
  destruct (p kv); simpl; [|auto].
  constructor; [|auto].
  intros Hin. apply Hk. apply in_map_iff in Hin.
  destruct Hin as [x [Hx Hin]]. apply filter_In in Hin.
  apply in_map_iff. exists x. tauto.
Qed.

(** X6.  The keyword data of a full-data call, for a record whose columns
    are distinct: the two names are never among them; every other column of
    the record is passed on under its own name with its own value, also
    when it is named like one of the three derived keys; a derived key that
    is no column of the record holds the column it is derived from, or the
    empty string. *)
Theorem keyword_data_of_a_record (merchant : dict str) (k : str) :
  NoDup (map fst merchant) ->
  get k (additional_data merchant)
  = if mem k [py "Merchant Name"; py "Legal Name"] then None
    else match get k merchant with
         | Some v => Some v
         | None =>
             if str_eqb k (py "original_mcc_code")
             then Some (field merchant "original Mcc code")
             else if str_eqb k (py "mcc_description")
             then Some (field merchant "MCC Description")
             else if str_eqb k (py "ai_original_description")
             then Some (field merchant "ai_original_description")
             else None
         end.
Proof.
  intros Hnd. unfold additional_data.
  rewrite get_update by (apply filter_keys_NoDup, Hnd).
  rewrite (get_filter_keys
             (fun k => negb (mem k [py "Merchant Name"; py "Legal Name"]))).
  destruct (mem k [py "Merchant Name"; py "Legal Name"]) eqn:Em; cbn [negb].
  - apply mem_In in Em. destruct Em as [<-|[<-|[]]]; reflexivity.
  - destruct (get k merchant); reflexivity.
Qed.

Lemma keyword_data_of_a_record_witness :
  get (py "Merchant Name") (additional_data Samples.merchant1) = None
  /\ get (py "Actual MCC code") (additional_data Samples.merchant1)
     = Some (py "5411")
  /\ get (py "mcc_description") (additional_data Samples.merchant1)
     = Some (py "Grocery Stores").
Proof.
  assert (Hnd : NoDup (map fst Samples.merchant1)).
  { repeat constructor; simpl; intuition discriminate. }
  rewrite !(@keyword_data_of_a_record Samples.merchant1 _ Hnd).
  repeat split.
Defined.

Lemma summary_elsewhere (pm : dict performance) (a : agent)
    (l : list agent) (row0 : row) (k : str) :
  (forall b, In b l -> name b <> name a) ->
  In k (own_cols a) ->
  get k (fold_left
           (fun r ag =>
              let acc := match get (name ag) pm with
                         | Some p => accuracy p
                         | None => 0
                         end in
              set (match_col ag) (Accuracy acc)
                (set (confidence_col ag) (Text [])
                   (set (description_col ag) (Text [])
                      (set (suggested_col ag) (Text []) r))))
           l row0)
  = get k row0.
Proof.
  intros Hl Hk. revert row0.
  induction l as [|b l IH]; intros row0; cbn [fold_left]; [reflexivity|].
  rewrite IH by (intros c Hc; apply Hl; simpl; auto).
  cbv zeta.
  assert (Hb : ~ In k (own_cols b)).
  { apply (own_cols_disjoint (a:=a) (b:=b)); [|exact Hk].
    intros E. apply (Hl b); simpl; auto. }
  rewrite !(get_set_outside (b:=b)) by auto with cols. reflexivity.
Qed.

(** X7.  The names of the strategies being distinct, the last row of the
    table reports each strategy's accuracy, as returned in the metrics, in
    the strategy's match column and leaves its three other columns empty. *)
Theorem summary_reports_each_accuracy (pass : bool) (agents : list agent)
    (a : agent) (input : list (dict str)) :
  In a agents -> NoDup (map name agents) ->
  let summary := last (fst (evaluate pass agents input)) [] in
  exists p,
    get (name a) (snd (evaluate pass agents input)) = Some p
    /\ get (match_col a) summary = Some (Accuracy (accuracy p))
    /\ get (suggested_col a) summary = Some (Text [])
    /\ get (description_col a) summary = Some (Text [])
    /\ get (confidence_col a) summary = Some (Text []).
Proof.
  intros Hin Hnd summary. subst summary.
  pose proof (@run_counts pass agents a input Hin Hnd) as Hc.
  unfold evaluate. destruct (run pass agents input) as [out m].
  cbn [fst snd] in *. rewrite last_app_ne by discriminate. cbn [last].
  unfold performance_metrics at 1. rewrite get_map_values, Hc. cbn [option_map].
  eexists. split; [reflexivity|].
  set (pm := performance_metrics m).
  assert (Hp : get (name a) pm
               = Some (performance_of
                         {| correct := length (filter (hit pass a) input);
                            total := length (filter (counted pass a) input) |})).
  { unfold pm, performance_metrics. rewrite get_map_values, Hc. reflexivity. }
  destruct (in_split _ _ Hin) as [l1 [l2 Hsplit]].
  destruct (@names_apart agents l1 l2 a Hnd Hsplit) as [_ Hl2].
  unfold summary_row. rewrite Hsplit, fold_left_app. cbn [fold_left].
  destruct (own_cols_distinct a) as [H1 [H2 [H3 [H4 [H5 H6]]]]].
  rewrite !(@summary_elsewhere pm a l2) by (auto with cols).
  cbv zeta. rewrite Hp.
  repeat split;
    rewrite ?get_set_same; try reflexivity;
    repeat (rewrite get_set_other by auto; rewrite ?get_set_same);
    reflexivity.
Qed.

Lemma summary_reports_each_accuracy_witness :
  let agents := [Samples.grocer; Samples.broken] in
  let input := [Samples.merchant1; Samples.merchant2] in
  get (match_col Samples.grocer) (last (fst (evaluate false agents input)) [])
  = Some (Accuracy (inject_Z 1 / inject_Z 2)).
Proof.
  intros agents input.
  assert (Hin : In Samples.grocer agents) by (simpl; auto).
  assert (Hnd : NoDup (map name agents)).
  { repeat constructor; simpl; intuition discriminate. }
  destruct (@summary_reports_each_accuracy false agents Samples.grocer input
              Hin Hnd) as [p [Hp [Hm _]]].
  rewrite Hm. vm_compute in Hp. injection Hp as <-. reflexivity.
Defined.

(** What a strategy writes into its own columns does not depend on the row
    it finds, nor on the counters. *)
Lemma classify_with_cells (pass : bool) (r : dict str) (a : agent)
    (st st' : row * metrics) (k : str) :
  In k (own_cols a) ->
  get k (fst (classify_with pass r st a))
  = get k (fst (classify_with pass r st' a)).
Proof.
  intros Hk. destruct st as [row0 m], st' as [row1 m1].
  destruct (own_cols_distinct a) as [H1 [H2 [H3 [H4 [H5 H6]]]]].
  assert (N1 : description_col a <> suggested_col a) by auto.
  assert (N2 : confidence_col a <> suggested_col a) by auto.
  assert (N3 : match_col a <> suggested_col a) by auto.
  assert (N4 : description_col a <> confidence_col a) by auto.
  assert (N5 : match_col a <> confidence_col a) by auto.
  assert (N6 : match_col a <> description_col a) by auto.
  unfold classify_with, try_body, on_error.
  destruct (call_classify pass a r) as [e|res]; cbn [fst];
    [|destruct (r_mcc_code res) as [code|]; cbn [fst];
      [destruct (r_mcc_description res) as [d|]; cbn [fst];
        [destruct (r_confidence res) as [q|]; cbn [fst];
          [destruct (str_eqb (strip code)
                       (strip (field r "Actual MCC code"))); cbn [fst]|]|]|]].
  all: destruct Hk as [<-|[<-|[<-|[<-|[]]]]];
    repeat first [ rewrite get_set_same | rewrite get_set_other by auto ];
    reflexivity.
Qed.

Lemma own_columns_of_a_row (pass : bool) (agents : list agent) (a : agent)
    (r : dict str) (m : metrics) (k : str) :
  In a agents -> NoDup (map name agents) -> In k (own_cols a) ->
  get k (fst (fold_left (classify_with pass r) agents (base_row r, m)))
  = get k (fst (classify_with pass r (base_row r, []) a)).
Proof.
  intros Hin Hnd Hk.
  destruct (@fold_at pass r agents a (base_row r) m Hin Hnd)
    as [st0 [_ [_ [Hcols _]]]].
  rewrite (Hcols k Hk). apply classify_with_cells, Hk.
Qed.

Lemma fold_own_rows (pass : bool) (agents : list agent) (a : agent)
    (k : str) (input : list (dict str)) (st : list row * metrics) :
  In a agents -> NoDup (map name agents) -> In k (own_cols a) ->
  map (get k) (fst (fold_left (process_merchant pass agents) input st))
  = map (get k) (fst st)
    ++ map (fun r => get k (fst (classify_with pass r (base_row r, []) a)))
           (filter (fun r => negb (skipped r)) input).
Proof.
  intros Hin Hnd Hk. revert st.
  induction input as [|r input IH]; intros [out m]; cbn [fold_left].
  - simpl. rewrite app_nil_r. reflexivity.
  - rewrite IH. cbn [filter]. unfold process_merchant at 1.
    destruct (skipped r); cbn [negb]; [reflexivity|].
    pose proof (@own_columns_of_a_row pass agents a r m k Hin Hnd Hk) as K.
    destruct (fold_left (classify_with pass r) agents (base_row r, m))
      as [row1 m1]. cbn [fst] in *.
    rewrite map_app. cbn [map]. rewrite K, <- app_assoc. reflexivity.
Qed.

(** X25.  Strategies do not interfere: the names being distinct, what the
    harness reports for a strategy -- its counters, and its four columns in
    every row of the records -- is what it reports when that strategy is
    evaluated alone on the same records. *)
Theorem strategies_do_not_interfere (pass : bool) (agents : list agent)
    (a : agent) (input : list (dict str)) :
  In a agents -> NoDup (map name agents) ->
  get (name a) (snd (run pass agents input))
  = get (name a) (snd (run pass [a] input))
  /\ forall k, In k (own_cols a) ->
       map (get k) (fst (run pass agents input))
       = map (get k) (fst (run pass [a] input)).
Proof.
  intros Hin Hnd.
  assert (Hin1 : In a [a]) by (simpl; auto).
  assert (Hnd1 : NoDup (map name [a])).
  { repeat constructor. simpl. tauto. }
  split.
  - rewrite (@run_counts pass agents a input Hin Hnd).
    rewrite (@run_counts pass [a] a input Hin1 Hnd1). reflexivity.
  - intros k Hk. unfold run.
    rewrite (@fold_own_rows pass agents a k input _ Hin Hnd Hk).
    rewrite (@fold_own_rows pass [a] a k input _ Hin1 Hnd1 Hk).
    reflexivity.
Qed.

Lemma strategies_do_not_interfere_witness :
  let input := [Samples.merchant1; Samples.merchant2] in
  get (name Samples.grocer)
      (snd (run false [Samples.grocer; Samples.broken] input))
  = get (name Samples.grocer) (snd (run false [Samples.grocer] input)).
Proof.
  intros input.
  assert (Hin : In Samples.grocer [Samples.grocer; Samples.broken])
    by (simpl; auto).
  assert (Hnd : NoDup (map name [Samples.grocer; Samples.broken])).
  { repeat constructor; simpl; intuition discriminate. }
  exact (proj1 (@strategies_do_not_interfere false
                  [Samples.grocer; Samples.broken] Samples.grocer input
                  Hin Hnd)).
Defined.

End HarnessFacts.

(* ================================================================== *)
(** * Sorting by decreasing key *)

Section SortFacts.

Context {A : Type} (lt : A -> A -> bool).

Lemma insert_desc_length (x : A) (l : list A) :
  length (insert_desc lt x l) = S (length l).
Proof.
  induction l as [|y l IH]; simpl; [reflexivity|].
  destruct (lt x y); simpl; auto.
Qed.

Lemma sort_desc_length (l : list A) : length (sort_desc lt l) = length l.
Proof.
  induction l as [|x l IH]; simpl; [reflexivity|].
  rewrite insert_desc_length, IH. reflexivity.
Qed.

Lemma insert_desc_perm (x : A) (l : list A) :
  Permutation (x :: l) (insert_desc lt x l).
Proof.
  induction l as [|y l IH]; simpl; [reflexivity|].
  destruct (lt x y); [|reflexivity].
  rewrite perm_swap. constructor. exact IH.
Qed.

Lemma sort_desc_perm (l : list A) : Permutation l (sort_desc lt l).
Proof.
  induction l as [|x l IH]; simpl; [constructor|].
  rewrite <- insert_desc_perm. constructor. exact IH.
Qed.

Hypothesis lt_asym : forall x y, lt x y = true -> lt y x = false.

Lemma insert_desc_sorted (x : A) (l : list A) :
  Sorted (may_precede lt) l -> Sorted (may_precede lt) (insert_desc lt x l).
Proof.
  induction l as [|y l IH]; simpl; intros H.
  - repeat constructor.
  - destruct (lt x y) eqn:E.
    + inversion H as [|? ? Hs Hh]; subst.
      constructor; [apply IH, Hs|].
      destruct l as [|z l]; simpl.
      * constructor. apply lt_asym, E.
      * destruct (lt x z); constructor.
        -- inversion Hh; assumption.
        -- apply lt_asym, E.
    + constructor; [exact H|]. constructor. exact E.
Qed.

Lemma sort_desc_sorted (l : list A) : Sorted (may_precede lt) (sort_desc lt l).
Proof.
  induction l as [|x l IH]; simpl; [constructor|].
  apply insert_desc_sorted, IH.
Qed.

Lemma firstn_sorted (n : nat) (l : list A) :
  Sorted (may_precede lt) l -> Sorted (may_precede lt) (firstn n l).
Proof.
  revert l. induction n as [|n IH]; intros l H; simpl; [constructor|].
  destruct l as [|x l]; [constructor|].
  inversion H as [|? ? Hs Hh]; subst.
  constructor; [apply IH, Hs|].
  destruct n; simpl; [constructor|].
  destruct l; [constructor|]. constructor. inversion Hh; assumption.
Qed.

Lemma sorted_non_increasing (f : A -> Q) (l : list A) :
  (forall x y, may_precede lt x y -> (f y <= f x)%Q) ->
  Sorted (may_precede lt) l -> non_increasing (map f l).
Proof.
  intros Hf. induction l as [|x l IH]; intros H; simpl; [exact I|].
  inversion H as [|? ? Hs Hh]; subst.
  destruct l as [|y l]; simpl; [exact I|].
  split; [apply Hf; inversion Hh; assumption|].
  apply IH, Hs.
Qed.

End SortFacts.

(* ================================================================== *)
(** * The tiered strategy: alternatives, the log, the offline agent *)

Module TieredFacts.

Import Matheus Escalation MatheusFacts.
Open Scope Q_scope.

Lemma generic_fill (primary : str) :
  let generic (c d : string) :=
    if str_eqb primary (py c) then [] else [(py c, py d, 0%nat)] in
  (2 <= length (generic "5812"%string "Eating Places, Restaurants"%string
                ++ generic "5399"%string "Other Retail"%string
                ++ generic "7399"%string "Other B2B Services"%string))%nat.
Proof.
  cbv beta zeta.
  destruct (str_eqb primary (py "5812")) eqn:E1.
  { apply str_eqb_eq in E1. subst primary. vm_compute. lia. }
  destruct (str_eqb primary (py "5399")) eqn:E2.
  { apply str_eqb_eq in E2. subst primary. vm_compute. lia. }
  destruct (str_eqb primary (py "7399")); simpl; lia.
Qed.

Lemma score_factor_bounds (n : nat) :
  0 <= py_min 0.4 (inject_Z (Z.of_nat n) * 0.1)
  /\ py_min 0.4 (inject_Z (Z.of_nat n) * 0.1) <= 0.4.
Proof.
  pose proof (DecisionInvariants.score_nonneg n) as H. split.
  - apply py_min_glb; lra.
  - apply py_min_le_l.
Qed.

Lemma py_min_mono (a b b' : Q) : b <= b' -> py_min a b <= py_min a b'.
Proof.
  intros H. unfold py_min.
  destruct (Qlt_bool b a) eqn:E1; destruct (Qlt_bool b' a) eqn:E2;
    try apply Qlt_bool_iff in E1; try apply Qlt_bool_iff in E2;
    try apply Qlt_bool_false in E1; try apply Qlt_bool_false in E2; lra.
Qed.

Lemma ltb_asym (A : Type) (key : A -> nat) (x y : A) :
  (key x <? key y)%nat = true -> (key y <? key x)%nat = false.
Proof.
  intros H. apply Nat.ltb_lt in H. apply Nat.ltb_ge. lia.
Qed.

(** X8.  The tiered strategy's alternatives: always exactly two, whatever
    the table holds, each with a confidence between 0.3 and 0.7, the first
    at least as confident as the second. *)
Theorem two_ranked_alternatives (primary merchant : str) (table : dict str) :
  let alts := generate_alternative_mccs primary merchant table in
  length alts = 2%nat
  /\ Forall (fun a => 0.3 <= alt_confidence a /\ alt_confidence a <= 0.7) alts
  /\ non_increasing (map alt_confidence alts).
Proof.
  cbv zeta. unfold generate_alternative_mccs.
  set (kw := filter _ (map _ (filter _ table))).
  set (lt := fun x y : str * str * nat => (snd x <? snd y)%nat).
  match goal with
  | |- context [sort_desc lt ?c] => set (cands := c)
  end.
  assert (Hlen : (2 <= length cands)%nat).
  { unfold cands. destruct (length kw <? 2)%nat eqn:E.
    - rewrite length_app. pose proof (generic_fill primary) as G.
      cbv beta zeta in G. lia.
    - apply Nat.ltb_ge in E. exact E. }
  split; [|split].
  - rewrite length_map, length_firstn, sort_desc_length. lia.
  - apply Forall_map, Forall_forall. intros c _. simpl.
    destruct (score_factor_bounds (snd c)). split; lra.
  - rewrite map_map.
    apply (sorted_non_increasing (lt:=lt)).
    + intros x y Hxy. unfold may_precede, lt in Hxy. apply Nat.ltb_ge in Hxy.
      cbn [alt_confidence].
      apply Qplus_le_r, py_min_mono, Qmult_le_compat_r; [|lra].
      rewrite <- Zle_Qle. apply Nat2Z.inj_le. exact Hxy.
    + apply firstn_sorted, sort_desc_sorted.
      intros x y. apply (@ltb_asym _ snd).
Qed.

Lemma tier1_log (ag : Agent) (rq : request) (md : merchant_data) :
  trace (_classify_tier1 ag rq md) = tier_log ag TIER_1.
Proof.
  unfold _classify_tier1, tier_log. destruct (client ag) as [cl|]; simpl.
  - destruct (parse_tier1 cl rq); reflexivity.
  - reflexivity.
Qed.

Lemma risk_tier_log (ag : Agent) (rq : request) (b : bool)
    (md : merchant_data) :
  trace (_classify_risk_tier ag rq b md) = tier_log ag TIER_RISK.
Proof.
  unfold _classify_risk_tier, tier_log. destruct (client ag) as [cl|]; simpl.
  - destruct (parse_risk_tier cl rq b); reflexivity.
  - reflexivity.
Qed.

Lemma tier3_log (ag : Agent) (rq : request) (b : bool) (md : merchant_data) :
  trace (_classify_tier3 ag rq b md) = tier_log ag TIER_FULL.
Proof.
  unfold _classify_tier3, tier_log. destruct (client ag) as [cl|]; simpl.
  - destruct (parse_tier3 cl rq b); reflexivity.
  - reflexivity.
Qed.

(** The log of the escalation, by the tier that decides. *)
Lemma tiers_log (ag : Agent) (rq : request) (md : merchant_data) :
  let t1 := value (_classify_tier1 ag rq md) in
  let t2 := value (_classify_risk_tier ag rq
                     (flag (may_be_high_risk (catch_all_override t1))) md) in
  trace (tiers ag rq md)
  = flat_map (tier_log ag)
      (firstn
         (if flag (is_non_descriptive t1) then 1
          else if tier1_accepted (catch_all_override t1) then 1
          else if risk_tier_accepted (catch_all_override t2) then 2
          else 3)
         ladder).
Proof.
  cbv zeta. unfold tiers. rewrite trace_bind, tier1_log.
  destruct (flag (is_non_descriptive _)).
  { simpl. rewrite !app_nil_r. reflexivity. }
  destruct (tier1_accepted _).
  { simpl. rewrite !app_nil_r. reflexivity. }
  rewrite trace_bind, risk_tier_log.
  destruct (risk_tier_accepted _).
  { simpl. rewrite !app_nil_r. reflexivity. }
  rewrite trace_bind, tier3_log. simpl. rewrite !app_nil_r.
  unfold tier_log. destruct (client ag); reflexivity.
Qed.


Lemma accepted_iff (t : tier_dict) :
  tier1_accepted (catch_all_override t) = true
  <-> 0.7 <= confidence t
      /\ flag (requires_full_search t) = false
      /\ flag (may_be_high_risk t) = false
      /\ ~ vague t.
Proof.
  unfold catch_all_override, vague.
  destruct (mem (suggested_mcc t) catch_all_mccs) eqn:Em;
    destruct (Qlt_bool (confidence t) 0.98) eqn:Eq; cbn [andb].
  - unfold tier1_accepted. cbn [requires_full_search flag negb].
    rewrite andb_false_r. cbn [andb]. split; [discriminate|].
    intros [_ [_ [_ H]]]. exfalso. apply H.
    split; [apply mem_In, Em | apply Qlt_bool_iff, Eq].
  - unfold tier1_accepted. rewrite !andb_true_iff, !negb_true_iff.
    rewrite Qle_bool_iff. split.
    + intros [[H1 H2] H3]. repeat split; auto.
      intros [_ H]. apply Qlt_bool_iff in H. congruence.
    + intros [H1 [H2 [H3 _]]]. auto.
  - unfold tier1_accepted. rewrite !andb_true_iff, !negb_true_iff.
    rewrite Qle_bool_iff. split.
    + intros [[H1 H2] H3]. repeat split; auto.
      intros [H _]. apply mem_In in H. congruence.
    + intros [H1 [H2 [H3 _]]]. auto.
  - unfold tier1_accepted. rewrite !andb_true_iff, !negb_true_iff.
    rewrite Qle_bool_iff. split.
    + intros [[H1 H2] H3]. repeat split; auto.
      intros [H _]. apply mem_In in H. congruence.
    + intros [H1 [H2 [H3 _]]]. auto.
Qed.

(** X10.  For a merchant name that is not blank, the strategy stops at
    tier 1 -- the risk tier is not invoked -- exactly when tier 1 finds the
    name non-descriptive, or its result has a confidence of at least 0.7,
    asks for no full search, raises no high-risk flag and is not a catch-all
    code with a confidence below 0.98. *)
Theorem stops_at_tier1_exactly_when (ag : Agent) (name : str)
    (legal : option str) (md : merchant_data) :
  truthy (strip name) = true ->
  let t1 := value (_classify_tier1 ag (request_of name legal md) md) in
  ~ In (TierInvoked TIER_RISK) (trace (classify ag name legal md))
  <-> flag (is_non_descriptive t1) = true
      \/ (0.7 <= confidence t1
          /\ flag (requires_full_search t1) = false
          /\ flag (may_be_high_risk t1) = false
          /\ ~ vague t1).
Proof.
  intros Hname t1.
  destruct (classify_named ag name legal md Hname) as [Htr _].
  rewrite Htr, tiers_log. cbv zeta. fold t1.
  rewrite <- accepted_iff.
  assert (H1 : ~ In (TierInvoked TIER_RISK)
                 (flat_map (tier_log ag) (firstn 1 ladder))).
  { unfold tier_log. destruct (client ag); simpl; intuition discriminate. }
  assert (H2 : forall n, In (TierInvoked TIER_RISK)
                           (flat_map (tier_log ag) (firstn (S (S n)) ladder))).
  { intros n. unfold tier_log. destruct (client ag); simpl; auto. }
  destruct (flag (is_non_descriptive t1)); [tauto|].
  destruct (tier1_accepted (catch_all_override t1)); [tauto|].
  split.
  - intros H. exfalso. apply H.
    destruct (risk_tier_accepted _); apply H2.
  - intros [H|H]; discriminate.
Qed.

Lemma stops_at_tier1_exactly_when_witness :
  let ag := Samples.tiered_agent Samples.owner_name_reply in
  ~ In (TierInvoked TIER_RISK)
       (trace (classify ag (py "Maria Souza") None no_merchant_data)).
Proof.
  intros ag.
  apply (@stops_at_tier1_exactly_when ag (py "Maria Souza") None
           no_merchant_data eq_refl).
  left. reflexivity.
Defined.




(** X12.  A suspicion raised by tier 1 about a descriptive name is never
    dropped while the service answers: whichever tier decides, the decision
    is marked suspicious, provided the full tier's request, if it comes to
    it, is answered. *)
Theorem suspicion_survives_escalation (ag : Agent) (cl : Client) (name : str)
    (legal : option str) (md : merchant_data) (r1 : Tier1Result) :
  client ag = Some cl ->
  truthy (strip name) = true ->
  parse_tier1 cl (request_of name legal md) = Some r1 ->
  t1_is_non_descriptive r1 = false ->
  t1_suspicious_classification r1 = true ->
  (forall b, parse_tier3 cl (request_of name legal md) b <> None) ->
  d_suspicious_classification (value (classify ag name legal md)) = Some true.
Proof.
  intros Hcl Hname H1 Hnd Hs H3.
  destruct (classify_named ag name legal md Hname) as [_ Hval].
  rewrite Hval. cbn [finish d_suspicious_classification]. f_equal.
  set (rq := request_of name legal md) in *.
  unfold tiers. rewrite value_bind.
  assert (T1 : value (_classify_tier1 ag rq md) = of_tier1 r1).
  { unfold _classify_tier1. rewrite Hcl. cbn [bind tell value fst].
    rewrite H1. reflexivity. }
  rewrite T1. cbn [of_tier1 is_non_descriptive flag]. rewrite Hnd.
  fold (of_tier1 r1).
  destruct (override_keeps (of_tier1 r1)) as [_ [_ [_ K]]].
  cbn [of_tier1 suspicious_classification] in K. rewrite Hs in K.
  destruct (tier1_accepted (catch_all_override (of_tier1 r1))).
  { cbn [ret value fst f_suspicious_classification]. exact K. }
  rewrite value_bind.
  match goal with
  | |- context [risk_tier_accepted ?t] => destruct (risk_tier_accepted t)
  end.
  { cbn [ret value fst f_suspicious_classification]. rewrite K.
    apply orb_true_r. }
  rewrite value_bind. cbn [ret value fst f_suspicious_classification].
  rewrite K. cbn [orb].
  unfold _classify_tier3. rewrite Hcl. cbn [bind tell value fst].
  destruct (parse_tier3 cl rq true) as [r3|] eqn:E3.
  - cbn [ret fst of_tier3 suspicious_classification]. apply orb_true_r.
  - exfalso. exact (H3 true E3).
Qed.

Lemma suspicion_survives_escalation_witness :
  let ag := Samples.tiered_agent Cases.suspicious_reply in
  d_suspicious_classification
    (value (classify ag (py "Lucky Star Trading") None no_merchant_data))
  = Some true.
Proof.
  intros ag.
  apply (@suspicion_survives_escalation ag
           (Samples.client_answering Cases.suspicious_reply)
           (py "Lucky Star Trading") None no_merchant_data
           Cases.suspicious_reply eq_refl eq_refl eq_refl eq_refl eq_refl).
  intros b. discriminate.
Defined.

Lemma max_by_score_spec {A : Type} (l : list (A * nat)) (best : A * nat) :
  In (max_by_score best l) (best :: l)
  /\ forall x, In x (best :: l) -> (snd x <= snd (max_by_score best l))%nat.
Proof.
  revert best. induction l as [|y l IH]; intros best; simpl.
  - split; [auto|]. intros x [<-|[]]. lia.
  - destruct (snd best <? snd y)%nat eqn:E.
    + apply Nat.ltb_lt in E. destruct (IH y) as [H1 H2]. split.
      * right. exact H1.
      * intros x [<-|Hx]; [|apply H2, Hx].
        specialize (H2 y (or_introl eq_refl)). lia.
    + apply Nat.ltb_ge in E. destruct (IH best) as [H1 H2]. split.
      * destruct H1 as [H1|H1]; auto.
      * intros x [<-|[<-|Hx]].
        -- apply H2. left. reflexivity.
        -- specialize (H2 best (or_introl eq_refl)). lia.
        -- apply H2. right. exact Hx.
Qed.

(** X13.  The keyword fallback of the tiered strategy, when the query
    carries no prior code and some description of the table shares a word
    of more than three letters with the lowered merchant name: the code
    returned is one whose description has the highest keyword score of the
    whole table; the confidence is 0.5 plus a tenth per keyword, capped at
    0.85, hence between 0.6 and 0.85; the name counts as descriptive. *)
Theorem keyword_fallback_takes_best_match (ag : Agent) (n : str)
    (l : option str) (md : merchant_data) (k0 d0 : str) :
  original_mcc_code md = None ->
  In (k0, d0) (mcc_data ag) ->
  (0 < keyword_score d0 (lower n))%nat ->
  let t := _fallback_classify ag n l md in
  exists d,
    In (suggested_mcc t, d) (mcc_data ag)
    /\ (forall k' d', In (k', d') (mcc_data ag) ->
          (keyword_score d' (lower n) <= keyword_score d (lower n))%nat)
    /\ confidence t
       = py_min 0.85
           (0.5 + inject_Z (Z.of_nat (keyword_score d (lower n))) * 0.1)
    /\ 0.6 <= confidence t /\ confidence t <= 0.85
    /\ is_non_descriptive t = Some false.
Proof.
  intros Hnone Hin Hpos t. subst t. unfold _fallback_classify.
  rewrite Hnone.
  set (score := fun p : str * str => (fst p, keyword_score (snd p) (lower n))).
  set (scores := filter (fun p : str * nat => (0 <? snd p)%nat)
                        (map score (mcc_data ag))).
  assert (Hmem : forall k d, In (k, d) (mcc_data ag) ->
                   (0 < keyword_score d (lower n))%nat ->
                   In (k, keyword_score d (lower n)) scores).
  { intros k d Hk Hd. apply filter_In. split.
    - apply in_map_iff. exists (k, d). auto.
    - apply Nat.ltb_lt. exact Hd. }
  pose proof (Hmem k0 d0 Hin Hpos) as H0.
  destruct scores as [|first others] eqn:Es; [contradiction|].
  destruct (max_by_score_spec others first) as [Htop Hmax].
  set (top := max_by_score first others) in *.
  rewrite <- Es in Htop. apply filter_In in Htop.
  destruct Htop as [Htop Hs]. apply Nat.ltb_lt in Hs.
  apply in_map_iff in Htop. destruct Htop as [[k d] [Ekd Hkd]].
  cbn [suggested_mcc confidence is_non_descriptive].
  exists d. rewrite <- Ekd in *. cbn [fst snd score] in *.
  split; [exact Hkd|]. split.
  - intros k' d' Hk'.
    destruct (keyword_score d' (lower n)) as [|s'] eqn:E'; [lia|].
    rewrite <- E'. apply (Hmax (k', keyword_score d' (lower n))).
    apply Hmem; [exact Hk' | lia].
  - split; [reflexivity|].
    assert (Hq : 1 <= inject_Z (Z.of_nat (keyword_score d (lower n)))).
    { change 1 with (inject_Z 1). rewrite <- Zle_Qle. lia. }
    split; [|split; [apply py_min_le_l | reflexivity]].
    apply py_min_glb; lra.
Qed.

Lemma keyword_fallback_takes_best_match_witness :
  let t := _fallback_classify Samples.offline_tiered_agent
             (py "City Grocery") None no_merchant_data in
  0.6 <= confidence t /\ confidence t <= 0.85
  /\ is_non_descriptive t = Some false.
Proof.
  intros t.
  assert (Hin : In (py "5411", py "Grocery Stores, Supermarkets")
                   (mcc_data Samples.offline_tiered_agent)).
  { do 14 right. left. reflexivity. }
  assert (Hpos : (0 < keyword_score (py "Grocery Stores, Supermarkets")
                        (lower (py "City Grocery")))%nat).
  { vm_compute. lia. }
  destruct (@keyword_fallback_takes_best_match Samples.offline_tiered_agent
              (py "City Grocery") None no_merchant_data _ _ eq_refl Hin Hpos)
    as [d [_ [_ [_ [H1 [H2 H3]]]]]].
  auto.
Defined.



End TieredFacts.

(* ================================================================== *)
(** * Keys of a dictionary under assignment *)

Section KeyFacts.

Context {V : Type}.

Lemma set_keys_NoDup (k : str) (v : V) (d : dict V) :
  NoDup (map fst d) -> NoDup (map fst (set k v d)).
Proof.
  induction d as [|[k' v'] d IH]; simpl; intros H.
  - repeat constructor. auto.
  - destruct (str_eqb k k') eqn:E; simpl; [exact H|].
    inversion H as [|? ? Hk Hd]; subst. constructor; [|auto].
    intros Hin. apply in_map_iff in Hin. destruct Hin as [[k1 v1] [E1 Hin]].
    simpl in E1. subst k1.
    apply DecisionInvariants.set_In in Hin. destruct Hin as [->|Hin].
    + rewrite str_eqb_refl in E. discriminate.
    + apply Hk. apply in_map_iff. exists (k', v1). auto.
Qed.

Lemma set_keys_all (P : str -> Prop) (k : str) (v : V) (d : dict V) :
  P k -> Forall P (map fst d) -> Forall P (map fst (set k v d)).
Proof.
  intros Hk. induction d as [|[k' v'] d IH]; simpl; intros H.
  - repeat constructor. exact Hk.
  - inversion H as [|? ? H1 H2]; subst.
    destruct (str_eqb k k'); simpl; constructor; auto.
Qed.

End KeyFacts.

(* ================================================================== *)
(** * The single-call strategy: codes, alternatives, models, table *)

Module SingleCallFacts.

Import Waki Codes ParserConfidence.
Open Scope Q_scope.

Lemma digits4_four (s c : str) : digits4 s = Some c -> four_digits c = true.
Proof.
  unfold digits4. destruct s as [|a [|b [|c' [|d s]]]]; try discriminate.
  destruct (is_digit a) eqn:Ea; [|discriminate].
  destruct (is_digit b) eqn:Eb; [|discriminate].
  destruct (is_digit c') eqn:Ec; [|discriminate].
  destruct (is_digit d) eqn:Ed; [|discriminate].
  simpl. intros [= <-]. unfold four_digits. simpl.
  rewrite Ea, Eb, Ec, Ed. reflexivity.
Qed.

Lemma first_code4_four (s c : str) :
  first_code4 s = Some c -> four_digits c = true.
Proof.
  intros H. apply search_some in H. destruct H as [t H].
  exact (digits4_four _ H).
Qed.

Lemma labelled_code_four (s c : str) :
  search_labelled_code s = Some c -> four_digits c = true.
Proof.
  intros H. apply search_some in H. destruct H as [t H].
  unfold labelled_code_at in H.
  repeat match type of H with
         | context [if ?b then _ else _] => destruct b
         end;
    repeat match type of H with
           | match digits4 ?x with _ => _ end = _ =>
               destruct (digits4 x) eqn:?
           end;
    try discriminate;
    try (injection H as <-);
    eauto using digits4_four.
Qed.

Lemma code_from_sections_four (reasoning analysis c : str) :
  code_from_sections reasoning analysis = Some c -> four_digits c = true.
Proof.
  unfold code_from_sections. simpl.
  destruct (truthy reasoning); destruct (truthy analysis);
    try destruct (search_labelled_code analysis) eqn:Ea;
    try destruct (search_labelled_code reasoning) eqn:Er;
    intros H; try discriminate; injection H as <-;
    eauto using labelled_code_four.
Qed.

Lemma code_from_lines_four (lines : list str) (c : str) (d : option str) :
  code_from_lines lines = Some (c, d) -> four_digits c = true.
Proof.
  induction lines as [|l rest IH]; simpl; [discriminate|].
  destruct (_ || _); [|exact IH].
  destruct (first_code4 l) as [c'|] eqn:E; [|exact IH].
  intros [= <- _]. exact (first_code4_four _ E).
Qed.

(** The code a line of the first pass leaves behind is the one it held or
    four digits read from the line. *)
Lemma step_code (l : str) (rest : list str) (st : pstate) (c : str) :
  p_mcc_code (step l rest st) = Some c ->
  p_mcc_code st = Some c \/ four_digits c = true.
Proof.
  destruct (ParserFallback.alternative_line_keeps (strip l) st) as [K _].
  unfold step.
  destruct (first_code4 (strip l)) as [c'|] eqn:E;
    repeat match goal with
           | |- context [if ?b then _ else _] => destruct b
           end;
    cbn [p_mcc_code]; rewrite ?K; auto.
  intros [= <-]. right. exact (first_code4_four _ E).
Qed.

Lemma first_pass_code (lines : list str) (st : pstate) (c : str) :
  p_mcc_code (first_pass lines st) = Some c ->
  p_mcc_code st = Some c \/ four_digits c = true.
Proof.
  revert st. induction lines as [|l rest IH]; intros st H; simpl in H.
  - auto.
  - destruct (IH _ H) as [H'|H']; [|auto]. exact (step_code _ _ _ H').
Qed.

(** What the parser makes of a text: the code, the description and the
    alternatives. *)
Lemma parse_text_shape (table : dict mcc_entry) (text : str) :
  exists code desc,
    four_digits code = true
    /\ mcc_code (parse_text table text) = Some code
    /\ mcc_description (parse_text table text)
       = match get code table with
         | Some e => description e
         | None => desc
         end
    /\ alternative_mccs (parse_text table text)
       = if (length (parsed_alternatives text) <? 2)%nat
         then fill_alternatives code (fallback_alts code)
                (parsed_alternatives text)
         else parsed_alternatives text.
Proof.
  unfold parse_text.
  match goal with
  | |- context [let (code, desc) := ?x in _] =>
      assert (Hcode : four_digits (fst x) = true);
      [| destruct x as [code desc] ]
  end.
  { destruct (p_mcc_code (first_pass (lines_of text) initial_pstate))
      as [c|] eqn:E1.
    { destruct (first_pass_code _ _ E1) as [H|H]; [discriminate|].
      destruct (truthy c); [exact H | reflexivity]. }
    destruct (code_from_sections _ _) as [c|] eqn:E2.
    { pose proof (code_from_sections_four _ _ E2) as H.
      destruct (truthy c); [exact H | reflexivity]. }
    destruct (code_from_lines (lines_of text)) as [[c [d|]]|] eqn:E3;
      try reflexivity;
      pose proof (code_from_lines_four _ E3) as H;
      destruct (truthy c); try exact H; reflexivity. }
  cbn [fst] in Hcode. cbv zeta.
  cbn [mcc_code mcc_description alternative_mccs].
  exists code, desc. auto.
Qed.


(** Filling up from a stock of two alternatives of different codes. *)
Lemma fill_from_two (code : str) (s1 s2 : alternative)
    (alternatives : list alternative) :
  alt_mcc_code s1 <> alt_mcc_code s2 ->
  exists stock,
    fill_alternatives code [s1; s2] alternatives = alternatives ++ stock
    /\ Forall (fun a => alt_mcc_code a <> code) stock
    /\ (2 <= length alternatives -> stock = [])%nat
    /\ (length alternatives < 2 -> 1 <= length stock)%nat.
Proof.
  intros Hne. cbn [fill_alternatives].
  destruct (2 <=? length alternatives)%nat eqn:E2.
  { apply Nat.leb_le in E2. exists []. rewrite app_nil_r.
    split; [reflexivity|]. split; [constructor|]. split; [reflexivity|]. lia. }
  apply Nat.leb_gt in E2.
  destruct (str_eqb (alt_mcc_code s1) code) eqn:E1.
  - apply str_eqb_eq in E1.
    destruct (str_eqb (alt_mcc_code s2) code) eqn:E3.
    { apply str_eqb_eq in E3. exfalso. apply Hne. congruence. }
    apply str_eqb_neq in E3. exists [s2].
    split; [reflexivity|]. split; [repeat constructor; exact E3|].
    split; [lia | simpl; lia].
  - apply str_eqb_neq in E1. rewrite length_app. cbn [length].
    destruct (2 <=? length alternatives + 1)%nat eqn:E4.
    { exists [s1]. split; [reflexivity|].
      split; [repeat constructor; exact E1|]. split; [lia | simpl; lia]. }
    destruct (str_eqb (alt_mcc_code s2) code) eqn:E3.
    + exists [s1]. split; [reflexivity|].
      split; [repeat constructor; exact E1|]. split; [lia | simpl; lia].
    + apply str_eqb_neq in E3. exists [s1; s2]. rewrite <- app_assoc.
      split; [reflexivity|].
      split; [repeat constructor; assumption|]. split; [lia | simpl; lia].
Qed.

Lemma fallback_alts_two (code : str) :
  exists s1 s2, fallback_alts code = [s1; s2]
                /\ alt_mcc_code s1 <> alt_mcc_code s2.
Proof.
  unfold fallback_alts.
  repeat match goal with
         | |- context [if ?b then _ else _] => destruct b
         end;
    do 2 eexists; (split; [reflexivity|]); vm_compute; discriminate.
Qed.

(** X15.  The alternatives the parser returns for a text reply: those read
    from the reply, in order, and, when fewer than two were read, stock
    alternatives after them.  A stock alternative never repeats the code
    returned; two or more alternatives read from the reply are returned as
    they are; there is always at least one alternative, and at least two as
    soon as one was read. *)
Theorem parser_fills_alternatives (table : dict mcc_entry) (text : str) :
  let r := parse_text table text in
  let parsed := parsed_alternatives text in
  exists code stock,
    mcc_code r = Some code
    /\ alternative_mccs r = parsed ++ stock
    /\ Forall (fun a => alt_mcc_code a <> code) stock
    /\ (2 <= length parsed -> stock = [])%nat
    /\ (1 <= length (alternative_mccs r))%nat
    /\ (1 <= length parsed -> 2 <= length (alternative_mccs r))%nat.
Proof.
  cbv zeta.
  destruct (parse_text_shape table text) as [code [desc [_ [H2 [_ H4]]]]].
  exists code. rewrite H4.
  destruct (length (parsed_alternatives text) <? 2)%nat eqn:E.
  - apply Nat.ltb_lt in E.
    destruct (fallback_alts_two code) as [s1 [s2 [Es Hne]]]. rewrite Es.
    destruct (@fill_from_two code s1 s2 (parsed_alternatives text) Hne)
      as [stock [F1 [F2 [F3 F4]]]].
    exists stock. rewrite F1, length_app.
    repeat split; auto; lia.
  - apply Nat.ltb_ge in E. exists []. rewrite app_nil_r.
    repeat split; auto; lia.
Qed.

(** X16.  The requests of the single-call strategy: none without a client;
    with one, between one and three, to gpt-4o, gpt-4 and gpt-3.5-turbo in
    this order, a model being turned to only when the call to each model
    before it raised; the call to the last model tried is the one whose
    outcome is used, and unless all three were tried it did not raise. *)
Theorem models_are_tried_in_order (ag : Agent) (name : str)
    (legal : option str) (md : merchant_data) :
  let fmd := {| merchant_name := name; legal_name := legal; data := md |} in
  match client ag with
  | None => trace (classify ag name legal md) = []
  | Some cl =>
      exists k,
        (1 <= k <= 3)%nat
        /\ trace (classify ag name legal md)
           = map ServiceCall (firstn k models)
        /\ (forall model, In model (firstn (k - 1) models) ->
              create cl model fmd = Raises)
        /\ (k < 3 -> create cl (nth (k - 1) models []) fmd <> Raises)%nat
  end.
Proof.
  cbv zeta. unfold classify. destruct (client ag) as [cl|]; [|reflexivity].
  set (fmd := {| merchant_name := name; legal_name := legal; data := md |}).
  rewrite MatheusFacts.trace_bind.
  assert (Hret : trace
                   (match value (request_completion cl fmd) with
                    | Content response_text =>
                        ret (_parse_gpt_response (mcc_data ag) response_text)
                    | _ => ret (_fallback_classify ag fmd)
                    end) = []).
  { destruct (value (request_completion cl fmd)); reflexivity. }
  rewrite Hret, app_nil_r.
  unfold request_completion, models.
  destruct (create cl gpt_4o fmd) eqn:E1.
  - destruct (create cl gpt_4 fmd) eqn:E2.
    + exists 3%nat. split; [lia|]. split; [reflexivity|]. split.
      * intros model [<-|[<-|[]]]; assumption.
      * lia.
    + exists 2%nat. split; [lia|]. split; [reflexivity|]. split.
      * intros model [<-|[]]; assumption.
      * intros _. simpl. rewrite E2. discriminate.
    + exists 2%nat. split; [lia|]. split; [reflexivity|]. split.
      * intros model [<-|[]]; assumption.
      * intros _. simpl. rewrite E2. discriminate.
  - exists 1%nat. split; [lia|]. split; [reflexivity|]. split.
    + intros model [].
    + intros _. simpl. rewrite E1. discriminate.
  - exists 1%nat. split; [lia|]. split; [reflexivity|]. split.
    + intros model [].
    + intros _. simpl. rewrite E1. discriminate.
Qed.

Lemma patterns_range :
  forallb (fun p : list str * pattern_match =>
             Qle_bool 0.8 (snd (snd p)) && Qle_bool (snd (snd p)) 0.9)
          patterns = true.
Proof. vm_compute. reflexivity. Qed.

Lemma matched_pattern_range (text : str) (m : pattern_match) :
  In m (map snd (filter (fun p => word_search (fst p) text) patterns)) ->
  0.8 <= snd m /\ snd m <= 0.9.
Proof.
  intros H. apply in_map_iff in H. destruct H as [p [<- Hp]].
  apply filter_In in Hp. destruct Hp as [Hp _].
  pose proof (proj1 (forallb_forall _ _) patterns_range p Hp) as B.
  apply andb_prop in B. destruct B as [B1 B2].
  split; apply Qle_bool_iff; assumption.
Qed.

(** X17.  The fallback of the single-call strategy always names a code, with
    a confidence between 0.6 and 0.9, and one or two alternatives, each of
    them strictly less confident than the code it goes with. *)
Theorem fallback_ranks_alternatives_below (ag : Agent)
    (fmd : full_merchant_data) :
  let r := _fallback_classify ag fmd in
  (exists code, mcc_code r = Some code)
  /\ 0.6 <= confidence r /\ confidence r <= 0.9
  /\ (1 <= length (alternative_mccs r) <= 2)%nat
  /\ Forall (fun a => alt_confidence a < confidence r) (alternative_mccs r).
Proof.
  cbv zeta. unfold _fallback_classify.
  destruct (truthy _ && has_key _ (mcc_data ag)).
  { cbn [mcc_code confidence alternative_mccs].
    split; [eauto|]. split; [lra|]. split; [lra|]. split; [simpl; lia|].
    repeat constructor; simpl; lra. }
  match goal with
  | |- context [sort_desc ?lt ?l] =>
      destruct (sort_desc lt l) as [|top others] eqn:E
  end.
  - destruct (find _ keyword_map) as [[keyword [mcc desc]]|].
    + cbn [mcc_code confidence alternative_mccs].
      split; [eauto|]. split; [lra|]. split; [lra|]. split; [simpl; lia|].
      repeat constructor; simpl; lra.
    + destruct (_ && _); cbn [mcc_code confidence alternative_mccs];
        (split; [eauto|]); (split; [lra|]); (split; [lra|]);
        (split; [simpl; lia|]); repeat constructor; simpl; lra.
  - assert (Hall : forall m, In m (top :: others) -> 0.8 <= snd m /\ snd m <= 0.9).
    { intros m Hm. rewrite <- E in Hm.
      apply DecisionInvariants.sort_desc_In in Hm.
      exact (matched_pattern_range _ _ Hm). }
    destruct (Hall top (or_introl eq_refl)) as [T1 T2].
    cbn [mcc_code confidence alternative_mccs].
    split; [eauto|]. split; [lra|]. split; [lra|].
    match goal with
    | |- context [map ?f (firstn 2 others)] =>
        set (alts := map f (firstn 2 others))
    end.
    assert (Hlen : (length alts <= 2)%nat).
    { unfold alts. rewrite length_map, length_firstn. lia. }
    assert (Hbelow : Forall (fun a => alt_confidence a < snd top) alts).
    { unfold alts. apply Forall_map, Forall_forall. intros m Hm.
      apply DecisionInvariants.firstn_In in Hm.
      destruct (Hall m (or_intror Hm)) as [_ M2]. cbn [alt_confidence]. lra. }
    destruct (length alts <? 2)%nat eqn:El.
    + apply Nat.ltb_lt in El.
      destruct (negb (str_eqb (fst (fst top)) (py "5999")));
        rewrite length_app; cbn [length]; (split; [lia|]);
        apply Forall_app; (split; [exact Hbelow|]);
        repeat constructor; simpl; lra.
    + apply Nat.ltb_ge in El. split; [lia | exact Hbelow].
Qed.

Lemma zfill4_length (s : str) : (4 <= length (zfill4 s))%nat.
Proof.
  unfold zfill4. destruct s as [|c t].
  - simpl. lia.
  - destruct (_ || _).
    + cbn [length]. rewrite length_app, repeat_length. lia.
    + rewrite length_app, repeat_length. lia.
Qed.

(** X18.  The code table the single-call strategy works with, whatever the
    file holds and whether or not it can be read: either the built-in table
    of fourteen codes or a table of at least a hundred codes; in both cases
    no code is listed twice and every code has at least four characters. *)
Theorem table_is_builtin_or_large (rows : option (list csv_row)) :
  let table := _load_mcc_data rows in
  (table = fallback_mcc_data \/ (100 <= length table)%nat)
  /\ (14 <= length table)%nat
  /\ NoDup (map fst table)
  /\ Forall (fun k => (4 <= length k)%nat) (map fst table).
Proof.
  cbv zeta.
  assert (Hb : (14 <= length fallback_mcc_data)%nat
               /\ NoDup (map fst fallback_mcc_data)
               /\ Forall (fun k => (4 <= length k)%nat)
                         (map fst fallback_mcc_data)).
  { split; [simpl; lia|]. split.
    - repeat constructor; simpl; intuition discriminate.
    - repeat constructor. }
  unfold _load_mcc_data. destruct rows as [rs|]; [|tauto].
  set (add := fun (d : dict mcc_entry) (r : csv_row) =>
                let '(mcc, desc, cls) := r in
                set (zfill4 (strip mcc))
                  {| description := desc;
                     classification :=
                       match cls with Some c => c | None => py "Unknown" end |}
                  d).
  assert (G : forall l d,
             NoDup (map fst d) ->
             Forall (fun k => (4 <= length k)%nat) (map fst d) ->
             NoDup (map fst (fold_left add l d))
             /\ Forall (fun k => (4 <= length k)%nat)
                       (map fst (fold_left add l d))).
  { induction l as [|[[mcc desc] cls] l IH]; intros d H1 H2; simpl; [auto|].
    apply IH.
    - apply set_keys_NoDup, H1.
    - apply set_keys_all; [apply zfill4_length | exact H2]. }
  destruct (G rs [] (NoDup_nil _) (Forall_nil _)) as [G1 G2].
  destruct (length (fold_left add rs []) <? 100)%nat eqn:E; [tauto|].
  apply Nat.ltb_ge in E. repeat split; auto; lia.
Qed.

End SingleCallFacts.

(* ================================================================== *)
(** * The one-prompt strategy: the code parsed and the alternatives *)

Module OnePromptFacts.

Import Rafa Rounding.
Open Scope Q_scope.

Lemma forallb_filter {A : Type} (f : A -> bool) (l : list A) :
  forallb f (filter f l) = true.
Proof.
  induction l as [|x l IH]; simpl; [reflexivity|].
  destruct (f x) eqn:E; simpl; [rewrite E|]; exact IH.
Qed.

(** X19.  Whatever the service replied -- a text in the layout asked for,
    any other text, or no content at all -- the code the one-prompt parser
    returns is not empty and consists of decimal digits only. *)
Theorem parsed_code_is_digits (response_text : option str) :
  let code := snd (fst (_parse_openai_response response_text)) in
  truthy code = true /\ forallb is_digit code = true.
Proof.
  cbv zeta. unfold _parse_openai_response.
  destruct response_text as [text|]; [|split; reflexivity].
  destruct (read_lines _ _) as [[analysis suggested_mcc] suggested_description].
  destruct (str_eqb (lower suggested_mcc) (py "same")).
  - split; reflexivity.
  - destruct (truthy (filter is_digit suggested_mcc)) eqn:E; cbn [fst snd].
    + split; [exact E | apply forallb_filter].
    + split; reflexivity.
Qed.

Lemma unique_candidates_NoDup (cs : list candidate) (seen : dict (str * Q)) :
  NoDup (map fst seen) -> NoDup (map fst (unique_candidates cs seen)).
Proof.
  revert seen. induction cs as [|[[mcc d] q] cs IH]; intros seen H; simpl.
  - exact H.
  - apply IH. destruct (get mcc seen) as [[d0 old]|].
    + destruct (Qlt_bool old q); [apply set_keys_NoDup|]; exact H.
    + apply set_keys_NoDup, H.
Qed.

Lemma set_values_all {V : Type} (P : V -> Prop) (k : str) (v : V)
    (d : dict V) :
  P v -> Forall (fun kv => P (snd kv)) d ->
  Forall (fun kv => P (snd kv)) (set k v d).
Proof.
  intros Hv. induction d as [|[k' v'] d IH]; simpl; intros H.
  - repeat constructor. exact Hv.
  - inversion H as [|? ? H1 H2]; subst.
    destruct (str_eqb k k'); constructor; auto.
Qed.

Lemma unique_candidates_scores (cs : list candidate)
    (seen : dict (str * Q)) :
  Forall (fun c : candidate => 0 <= snd c) cs ->
  Forall (fun kv : str * (str * Q) => 0 <= snd (snd kv)) seen ->
  Forall (fun kv : str * (str * Q) => 0 <= snd (snd kv))
         (unique_candidates cs seen).
Proof.
  revert seen. induction cs as [|[[mcc d] q] cs IH]; intros seen Hc Hs; simpl.
  - exact Hs.
  - inversion Hc as [|? ? Hq Hcs]; subst. simpl in Hq. apply IH; [exact Hcs|].
    destruct (get mcc seen) as [[d0 old]|].
    + destruct (Qlt_bool old q); [|exact Hs].
      apply (@set_values_all _ (fun v : str * Q => 0 <= snd v)); assumption.
    + apply (@set_values_all _ (fun v : str * Q => 0 <= snd v)); assumption.
Qed.

Lemma set_nonempty {V : Type} (k : str) (v : V) (d : dict V) :
  (1 <= length (set k v d))%nat.
Proof.
  destruct d as [|[k' v'] d]; simpl; [lia|].
  destruct (str_eqb k k'); simpl; lia.
Qed.

Lemma unique_candidates_nonempty (cs : list candidate)
    (seen : dict (str * Q)) :
  (1 <= length cs \/ 1 <= length seen)%nat ->
  (1 <= length (unique_candidates cs seen))%nat.
Proof.
  revert seen. induction cs as [|[[mcc d] q] cs IH]; intros seen H; simpl.
  - simpl in H. lia.
  - apply IH. right.
    destruct (get mcc seen) as [[d0 old]|] eqn:E.
    + destruct (Qlt_bool old q); [apply set_nonempty|].
      destruct seen; [discriminate | simpl; lia].
    + apply set_nonempty.
Qed.

Lemma firstn_NoDup {A : Type} (n : nat) (l : list A) :
  NoDup l -> NoDup (firstn n l).
Proof.
  intros H. rewrite <- (firstn_skipn n l) in H.
  exact (NoDup_app_remove_r _ _ H).
Qed.

Lemma Qlt_bool_asym (A : Type) (key : A -> Q) (x y : A) :
  Qlt_bool (key x) (key y) = true -> Qlt_bool (key y) (key x) = false.
Proof.
  intros H. apply Qlt_bool_iff in H. apply Qlt_bool_false. lra.
Qed.

Lemma alternative_confidence_range (s : Q) :
  0 <= s ->
  0.3 <= round2 (0.3 + py_min 0.4 (s * 0.1))
  /\ round2 (0.3 + py_min 0.4 (s * 0.1)) <= 0.7.
Proof.
  intros Hs.
  assert (H1 : 0 <= py_min 0.4 (s * 0.1)) by (apply py_min_glb; lra).
  pose proof (py_min_le_l 0.4 (s * 0.1)) as H2.
  assert (L : round2 0.3 <= round2 (0.3 + py_min 0.4 (s * 0.1)))
    by (apply round2_mono; lra).
  assert (U : round2 (0.3 + py_min 0.4 (s * 0.1)) <= round2 0.7)
    by (apply round2_mono; lra).
  assert (E3 : round2 0.3 == 0.3) by reflexivity.
  assert (E7 : round2 0.7 == 0.7) by reflexivity.
  lra.
Qed.

(** X20.  The alternatives of the one-prompt strategy: one or two, of
    pairwise different codes, each with a confidence between 0.3 and 0.7,
    the first at least as confident as the second. *)
Theorem one_prompt_alternatives_are_distinct (primary merchant : str) :
  let alts := _generate_alternatives primary merchant in
  (1 <= length alts <= 2)%nat
  /\ NoDup (map alt_mcc_code alts)
  /\ Forall (fun a => 0.3 <= alt_confidence a /\ alt_confidence a <= 0.7) alts
  /\ non_increasing (map alt_confidence alts).
Proof.
  cbv zeta. unfold _generate_alternatives.
  set (others := filter (fun p : str * str => negb (str_eqb (fst p) primary))
                        mcc_data).
  set (by_keyword :=
         map (fun c : str * str * nat =>
                (fst (fst c), snd (fst c), inject_Z (Z.of_nat (snd c))))
             (filter (fun c : str * str * nat => (0 <? snd c)%nat)
                (map (fun p : str * str =>
                        (fst p, snd p, keyword_score (snd p) (lower merchant)))
                     others))).
  match goal with
  | |- context [by_keyword ++ ?c] => set (by_category := c)
  end.
  set (lt := fun x y : candidate => Qlt_bool (snd x) (snd y)).
  match goal with
  | |- context [unique_candidates ?c []] => set (cands := c)
  end.
  set (uniq := unique_candidates cands []).
  set (triples := map (fun kv : str * (str * Q) =>
                         (fst kv, fst (snd kv), snd (snd kv))) uniq).
  (* the candidates *)
  assert (Hkw : Forall (fun c : candidate => 0 <= snd c) by_keyword).
  { unfold by_keyword. apply Forall_map, Forall_forall. intros c _. simpl.
    apply DecisionInvariants.score_nonneg. }
  assert (Hcat : Forall (fun c : candidate => 0 <= snd c) by_category).
  { unfold by_category. destruct (2 <=? length primary)%nat; [|constructor].
    apply Forall_map, Forall_forall. intros c _. simpl. lra. }
  assert (Hgen : forall c d : str,
             Forall (fun c : candidate => 0 <= snd c)
               (if str_eqb primary c then [] else [(c, d, 0)])).
  { intros c d. destruct (str_eqb primary c); repeat constructor. simpl. lra. }
  assert (Hscores : Forall (fun c : candidate => 0 <= snd c) cands).
  { unfold cands.
    match goal with
    | |- Forall _ (if ?b then _ else _) => destruct b
    end; repeat (apply Forall_app; split); auto. }
  assert (Hne : (1 <= length cands)%nat).
  { unfold cands.
    match goal with
    | |- (1 <= length (if ?b then _ else _))%nat => destruct b eqn:E
    end.
    - rewrite !length_app.
      destruct (str_eqb primary (py "7299")) eqn:E1; [|simpl; lia].
      apply str_eqb_eq in E1. subst primary. simpl. lia.
    - apply Nat.ltb_ge in E. lia. }
  (* after the duplicates are removed *)
  assert (Hu1 : NoDup (map fst uniq)).
  { apply unique_candidates_NoDup. constructor. }
  assert (Hu2 : Forall (fun kv : str * (str * Q) => 0 <= snd (snd kv)) uniq).
  { apply unique_candidates_scores; [exact Hscores | constructor]. }
  assert (Hu3 : (1 <= length uniq)%nat).
  { apply unique_candidates_nonempty. left. exact Hne. }
  assert (Ht1 : NoDup (map (fun c : candidate => fst (fst c)) triples)).
  { unfold triples. rewrite map_map. simpl. exact Hu1. }
  assert (Ht2 : Forall (fun c : candidate => 0 <= snd c) triples).
  { unfold triples. apply Forall_map. simpl. exact Hu2. }
  assert (Ht3 : (1 <= length triples)%nat).
  { unfold triples. rewrite length_map. exact Hu3. }
  pose proof (sort_desc_perm lt triples) as Hperm.
  remember (sort_desc lt triples) as sorted eqn:Es.
  split; [|split; [|split]].
  - rewrite length_map.
    destruct sorted as [|a [|b rest]]; cbn [firstn length]; try lia.
    apply Permutation_sym, Permutation_nil in Hperm.
    rewrite Hperm in Ht3. simpl in Ht3. lia.
  - rewrite map_map. cbn [alt_mcc_code].
    rewrite <- firstn_map. apply firstn_NoDup.
    apply (Permutation_NoDup (Permutation_map _ Hperm)). exact Ht1.
  - apply Forall_map, Forall_forall. intros c Hc. cbn [alt_confidence].
    apply DecisionInvariants.firstn_In in Hc.
    apply (Permutation_in _ (Permutation_sym Hperm)) in Hc.
    apply alternative_confidence_range.
    exact (proj1 (Forall_forall _ _) Ht2 c Hc).
  - rewrite map_map. apply (sorted_non_increasing (lt:=lt)).
    + intros x y Hxy. unfold may_precede, lt in Hxy.
      apply Qlt_bool_false in Hxy. cbn [alt_confidence].
      apply round2_mono, Qplus_le_r, TieredFacts.py_min_mono.
      apply Qmult_le_compat_r; [exact Hxy | lra].
    + rewrite Es. apply firstn_sorted, sort_desc_sorted.
      intros x y. apply (@Qlt_bool_asym _ snd).
Qed.

Lemma py_min_lt (c a d b : Q) : c < d -> a < b -> py_min c a < py_min d b.
Proof.
  intros H1 H2. unfold py_min.
  destruct (Qlt_bool a c) eqn:E1; destruct (Qlt_bool b d) eqn:E2;
    try apply Qlt_bool_iff in E1; try apply Qlt_bool_iff in E2;
    try apply Qlt_bool_false in E1; try apply Qlt_bool_false in E2; lra.
Qed.

(** X24.  The keyword fallback of the one-prompt strategy always returns a
    confidence between 0.5 and 0.85 and one or two alternatives, each of
    them strictly less confident than the code returned. *)
Theorem one_prompt_fallback_ranks_below (fmd : Waki.full_merchant_data) :
  let d := _fallback_classify fmd in
  0.5 <= confidence d /\ confidence d <= 0.85
  /\ (1 <= length (alternative_mccs d) <= 2)%nat
  /\ Forall (fun a => alt_confidence a < confidence d) (alternative_mccs d).
Proof.
  cbv zeta. unfold _fallback_classify.
  destruct (filter _ _) as [|first others] eqn:E; cbv zeta.
  { cbn [confidence alternative_mccs].
    split; [lra|]. split; [lra|]. split; [simpl; lia|].
    repeat constructor; simpl; lra. }
  cbn [confidence alternative_mccs].
  destruct (TieredFacts.max_by_score_spec others first) as [_ Hmax].
  set (top := max_by_score first others) in *.
  pose proof (DecisionInvariants.score_nonneg (snd top)) as Hs.
  assert (Hc : 0.5 <= py_min 0.85 (0.5 + inject_Z (Z.of_nat (snd top)) * 0.1)).
  { apply py_min_glb; lra. }
  split; [exact Hc|]. split; [apply py_min_le_l|].
  match goal with
  | |- context [map ?f (firstn 2 ?l)] => set (alts := map f (firstn 2 l))
  end.
  assert (Hlen : (length alts <= 2)%nat).
  { unfold alts. rewrite length_map, length_firstn. lia. }
  assert (Hbelow : Forall
            (fun a => alt_confidence a
                      < py_min 0.85 (0.5 + inject_Z (Z.of_nat (snd top)) * 0.1))
            alts).
  { unfold alts. apply Forall_map, Forall_forall. intros p Hp.
    cbn [alt_confidence].
    apply DecisionInvariants.firstn_In, filter_In in Hp. destruct Hp as [Hp _].
    apply DecisionInvariants.sort_desc_In in Hp.
    pose proof (Hmax p Hp) as Hle.
    apply py_min_lt; [lra|].
    assert (inject_Z (Z.of_nat (snd p)) <= inject_Z (Z.of_nat (snd top))).
    { rewrite <- Zle_Qle. apply Nat2Z.inj_le. exact Hle. }
    lra. }
  destruct (length alts <? 2)%nat eqn:El.
  - apply Nat.ltb_lt in El.
    destruct (negb (str_eqb (fst top) (py "7299")));
      rewrite length_app; cbn [length]; (split; [lia|]);
      apply Forall_app; (split; [exact Hbelow|]);
      repeat constructor; cbn [alt_confidence mk_alt]; lra.
  - apply Nat.ltb_ge in El. split; [lia | exact Hbelow].
Qed.

End OnePromptFacts.

(* ================================================================== *)
(** * The factory and the default agents of the harness *)

Module FactoryFacts.

Import AgentFactory.
Open Scope Q_scope.

(** X21.  The factory and its registry agree.  The three agents of
    [create_all_agents] have pairwise different names; each of them is what
    [create_agent] builds when asked by its name, in any letter case of the
    three tried here (as named, lowered, upper); [create_agent] succeeds
    exactly when the type asked for, lowered, is rafa, matheus or waki, what
    it builds is then one of the three, and otherwise the message of the
    error quotes the lowered type. *)
Theorem factory_agrees_with_registry (env : environment) :
  NoDup (map name (create_all_agents env))
  /\ (forall s, In s (create_all_agents env) ->
        create_agent env (name s) = inr s
        /\ create_agent env (lower (name s)) = inr s
        /\ create_agent env (upper (name s)) = inr s)
  /\ (forall t,
        (exists s, create_agent env t = inr s)
        <-> In (lower t) [py "rafa"; py "matheus"; py "waki"])
  /\ (forall t s, create_agent env t = inr s ->
        In s (create_all_agents env) /\ lower (name s) = lower t)
  /\ (forall t msg, create_agent env t = inl msg ->
        msg = py "Unsupported agent type: " ++ lower t).
Proof.
  split; [|split; [|split; [|split]]].
  - repeat constructor; simpl; intuition discriminate.
  - intros s [<-|[<-|[<-|[]]]]; repeat split; reflexivity.
  - intros t. unfold create_agent. cbv zeta.
    destruct (str_eqb (lower t) (py "rafa")) eqn:E1.
    { apply str_eqb_eq in E1. rewrite E1. split; [simpl; auto | eauto]. }
    destruct (str_eqb (lower t) (py "matheus")) eqn:E2.
    { apply str_eqb_eq in E2. rewrite E2. split; [simpl; auto | eauto]. }
    destruct (str_eqb (lower t) (py "waki")) eqn:E3.
    { apply str_eqb_eq in E3. rewrite E3. split; [simpl; auto | eauto]. }
    apply str_eqb_neq in E1, E2, E3. split.
    + intros [s H]. discriminate.
    + intros [H|[H|[H|[]]]]; exfalso; auto.
  - intros t s. unfold create_agent. cbv zeta.
    destruct (str_eqb (lower t) (py "rafa")) eqn:E1.
    { apply str_eqb_eq in E1. intros [= <-]. rewrite E1. simpl. auto. }
    destruct (str_eqb (lower t) (py "matheus")) eqn:E2.
    { apply str_eqb_eq in E2. intros [= <-]. rewrite E2. simpl. auto. }
    destruct (str_eqb (lower t) (py "waki")) eqn:E3.
    { apply str_eqb_eq in E3. intros [= <-]. rewrite E3. simpl. auto. }
    discriminate.
  - intros t msg. unfold create_agent. cbv zeta.
    repeat match goal with
           | |- context [if ?b then _ else _] => destruct b
           end; try discriminate.
    intros [= <-]. reflexivity.
Qed.






(** X23.  [get_performance_metrics] never divides by zero: without answers
    the accuracy is 0; with [0 <= correct <= total] it lies between 0 and
    1; on the counters of the harness it is the accuracy [evaluate]
    reports. *)
Theorem base_metrics_agree_with_harness (s : strategy) :
  (forall c t, (t <= 0)%Z -> accuracy (get_performance_metrics s c t) = 0)
  /\ (forall c t, (0 <= c <= t)%Z ->
        0 <= accuracy (get_performance_metrics s c t)
        /\ accuracy (get_performance_metrics s c t) <= 1)
  /\ (forall k : Evaluator.counters,
        accuracy (get_performance_metrics s
                    (Z.of_nat (Evaluator.correct k))
                    (Z.of_nat (Evaluator.total k)))
        = Evaluator.accuracy (Evaluator.performance_of k)).
Proof.
  split; [|split].
  - intros c t Ht. unfold get_performance_metrics. cbn [accuracy].
    destruct (0 <? t)%Z eqn:E; [|reflexivity].
    apply Z.ltb_lt in E. lia.
  - intros c t [Hc Ht]. unfold get_performance_metrics. cbn [accuracy].
    destruct (0 <? t)%Z eqn:E; [|lra].
    apply Z.ltb_lt in E.
    assert (H0 : 0 < inject_Z t).
    { change 0 with (inject_Z 0). rewrite <- Zlt_Qlt. exact E. }
    assert (H1 : 0 <= inject_Z c).
    { change 0 with (inject_Z 0). rewrite <- Zle_Qle. exact Hc. }
    assert (H2 : inject_Z c <= inject_Z t) by (rewrite <- Zle_Qle; exact Ht).
    split.
    + apply Qle_shift_div_l; [exact H0|]. lra.
    + apply Qle_shift_div_r; [exact H0|]. lra.
  - intros k. unfold get_performance_metrics, Evaluator.performance_of.
    cbn [accuracy Evaluator.accuracy].
    destruct (Evaluator.total k) as [|n] eqn:E; reflexivity.
Qed.

End FactoryFacts.
